(** * A shallow embedding of the RTOS kernel of [p2/os.c] and [p2/kernel.h]

    The kernel keeps a fixed table of process descriptors, a round-robin
    dispatcher, a request loop served on the kernel stack and a timer
    interrupt that wakes sleeping tasks.  The C globals become one record,
    every kernel function becomes a function on that record, and the places
    where the C code would dereference a null or out-of-range pointer
    return [Fault].

    Target conventions (the code includes [avr/io.h]): [int] and
    [unsigned int] are 16 bits wide, [unsigned char] is 8 bits wide. *)

From Stdlib Require Import ZArith Lia.
From stdpp Require Import base option list numbers.

Local Open Scope Z_scope.

(** ** Machine integers *)

(** Value of an [unsigned int] expression: reduction modulo 2^16. *)
Definition to_uint (z : Z) : Z := z mod 65536.

(** Value stored by a conversion to [int]: two's complement on 16 bits. *)
Definition to_int (z : Z) : Z := (z + 32768) mod 65536 - 32768.

(** Value stored through an [unsigned char] lvalue. *)
Definition to_uchar (z : Z) : Z := z mod 256.

(** ** Enumerations of [kernel.h] *)

Inductive ERROR_TYPE : Set :=
| NO_ERR
| INVALID_KERNET_REQUEST_ERR
| KERNEL_INACTIVE_ERR
| MAX_PROCESS_ERR
| PID_NOT_FOUND_ERR
| SUSPEND_NONRUNNING_TASK_ERR
| RESUME_NONSUSPENDED_TASK_ERR.

Inductive PROCESS_STATES : Set :=
| DEAD
| READY
| RUNNING
| SUSPENDED
| SLEEPING.

#[global] Instance ERROR_TYPE_eq_dec : EqDecision ERROR_TYPE.
Proof. solve_decision. Defined.

#[global] Instance PROCESS_STATES_eq_dec : EqDecision PROCESS_STATES.
Proof. solve_decision. Defined.

(** [KERNEL_REQUEST_TYPE] is kept as the integer the enumerator stands for,
    because the request switch has a [default] branch for every other
    value that may sit in the field. *)
Definition KERNEL_REQUEST_TYPE : Set := Z.
Definition NONE : KERNEL_REQUEST_TYPE := 0.
Definition CREATE : KERNEL_REQUEST_TYPE := 1.
Definition YIELD : KERNEL_REQUEST_TYPE := 2.
Definition TERMINATE : KERNEL_REQUEST_TYPE := 3.
Definition SUSPEND : KERNEL_REQUEST_TYPE := 4.
Definition RESUME : KERNEL_REQUEST_TYPE := 5.
Definition SLEEP : KERNEL_REQUEST_TYPE := 6.

(** ** Pointers into the task stacks *)

(** An [unsigned char *] of the kernel is either null or the address of
    byte [off] of the workspace of slot [slot]. *)
Inductive stackptr : Set :=
| NullSp
| WsPtr (slot : nat) (off : Z).

#[global] Instance stackptr_eq_dec : EqDecision stackptr.
Proof. solve_decision. Defined.

(** ** Process descriptors *)

Record PD : Set := mkPD {
  pid : Z;
  pri : Z;
  state : PROCESS_STATES;
  request : KERNEL_REQUEST_TYPE;
  request_arg : Z;
  arg : Z;
  sp : stackptr;
  workSpace : list Z;
  code : Z
}.

Definition set_pri (v : Z) (d : PD) : PD :=
  mkPD (pid d) v (state d) (request d) (request_arg d) (arg d) (sp d)
       (workSpace d) (code d).

Definition set_state (v : PROCESS_STATES) (d : PD) : PD :=
  mkPD (pid d) (pri d) v (request d) (request_arg d) (arg d) (sp d)
       (workSpace d) (code d).

Definition set_request (v : KERNEL_REQUEST_TYPE) (d : PD) : PD :=
  mkPD (pid d) (pri d) (state d) v (request_arg d) (arg d) (sp d)
       (workSpace d) (code d).

Definition set_request_arg (v : Z) (d : PD) : PD :=
  mkPD (pid d) (pri d) (state d) (request d) v (arg d) (sp d)
       (workSpace d) (code d).

Definition set_arg (v : Z) (d : PD) : PD :=
  mkPD (pid d) (pri d) (state d) (request d) (request_arg d) v (sp d)
       (workSpace d) (code d).

Definition set_sp (v : stackptr) (d : PD) : PD :=
  mkPD (pid d) (pri d) (state d) (request d) (request_arg d) (arg d) v
       (workSpace d) (code d).

Definition set_code (v : Z) (d : PD) : PD :=
  mkPD (pid d) (pri d) (state d) (request d) (request_arg d) (arg d) (sp d)
       (workSpace d) v.

(** ** The kernel globals *)

Record kernel : Type := mkKernel {
  Process : list PD;
  Cp : option nat;
  KernelSp : stackptr;
  CurrentSp : stackptr;
  NextP : Z;
  KernelActive : Z;
  Tasks : Z;
  last_PID : Z;
  err : ERROR_TYPE;
  (** the global interrupt flag driven by [cli] and [sei] *)
  IntEnabled : bool
}.

Definition set_Process (v : list PD) (s : kernel) : kernel :=
  mkKernel v (Cp s) (KernelSp s) (CurrentSp s) (NextP s) (KernelActive s)
           (Tasks s) (last_PID s) (err s) (IntEnabled s).

Definition set_Cp (v : option nat) (s : kernel) : kernel :=
  mkKernel (Process s) v (KernelSp s) (CurrentSp s) (NextP s)
           (KernelActive s) (Tasks s) (last_PID s) (err s) (IntEnabled s).

Definition set_CurrentSp (v : stackptr) (s : kernel) : kernel :=
  mkKernel (Process s) (Cp s) (KernelSp s) v (NextP s) (KernelActive s)
           (Tasks s) (last_PID s) (err s) (IntEnabled s).

Definition set_NextP (v : Z) (s : kernel) : kernel :=
  mkKernel (Process s) (Cp s) (KernelSp s) (CurrentSp s) v (KernelActive s)
           (Tasks s) (last_PID s) (err s) (IntEnabled s).

Definition set_KernelActive (v : Z) (s : kernel) : kernel :=
  mkKernel (Process s) (Cp s) (KernelSp s) (CurrentSp s) (NextP s) v
           (Tasks s) (last_PID s) (err s) (IntEnabled s).

Definition set_Tasks (v : Z) (s : kernel) : kernel :=
  mkKernel (Process s) (Cp s) (KernelSp s) (CurrentSp s) (NextP s)
           (KernelActive s) v (last_PID s) (err s) (IntEnabled s).

Definition set_last_PID (v : Z) (s : kernel) : kernel :=
  mkKernel (Process s) (Cp s) (KernelSp s) (CurrentSp s) (NextP s)
           (KernelActive s) (Tasks s) v (err s) (IntEnabled s).

Definition set_err (v : ERROR_TYPE) (s : kernel) : kernel :=
  mkKernel (Process s) (Cp s) (KernelSp s) (CurrentSp s) (NextP s)
           (KernelActive s) (Tasks s) (last_PID s) v (IntEnabled s).

Definition set_IntEnabled (v : bool) (s : kernel) : kernel :=
  mkKernel (Process s) (Cp s) (KernelSp s) (CurrentSp s) (NextP s)
           (KernelActive s) (Tasks s) (last_PID s) (err s) v.

Definition Disable_Interrupt : kernel -> kernel := set_IntEnabled false.
Definition Enable_Interrupt : kernel -> kernel := set_IntEnabled true.

(** ** Results of kernel code *)

(** [Fault] stands for a dereference the C code has no right to make (a
    null [Cp], a slot or a stack byte out of range); [OutOfFuel] is the
    dispatcher still spinning when the iteration budget ends. *)
Inductive outcome (A : Type) : Type :=
| Done (a : A)
| Fault
| OutOfFuel.

Arguments Done {A} a.
Arguments Fault {A}.
Arguments OutOfFuel {A}.

#[global] Instance outcome_ret : MRet outcome := fun A a => Done a.

#[global] Instance outcome_bind : MBind outcome := fun A B f m =>
  match m with
  | Done a => f a
  | Fault => Fault
  | OutOfFuel => OutOfFuel
  end.

(** [Process[i]] read through a pointer. *)
Definition deref (s : kernel) (i : nat) : outcome PD :=
  match Process s !! i with
  | Some d => Done d
  | None => Fault
  end.

(** [Process[i] = d]. *)
Definition store (i : nat) (d : PD) (s : kernel) : kernel :=
  set_Process (<[i := d]> (Process s)) s.

(** [*Cp]. *)
Definition cp_get (s : kernel) : outcome PD :=
  match Cp s with
  | Some c => deref s c
  | None => Fault
  end.

(** An assignment to fields of [*Cp]. *)
Definition cp_update (f : PD -> PD) (s : kernel) : outcome kernel :=
  match Cp s with
  | Some c => d ← deref s c; Done (store c (f d) s)
  | None => Fault
  end.

(** ** Kernel helpers *)

(** [findProcessByPID]: the index of the first slot whose [pid] equals the
    argument ([NULL] is [None]).  The [int] argument is compared with the
    unsigned [pid] field, hence converted to [unsigned int]. *)
Definition findProcessByPID (tbl : list PD) (p : Z) : option nat :=
  fst <$> list_find (fun d => pid d = to_uint p) tbl.

(** The slot [findPIDByFuncPtr] stops at. *)
Definition findSlotByFuncPtr (tbl : list PD) (f : Z) : option nat :=
  fst <$> list_find (fun d => code d = f) tbl.

(** [findPIDByFuncPtr]: the [pid] of the first slot whose [code] is [f],
    converted to the [int] result, or [-1]. *)
Definition findPIDByFuncPtr (tbl : list PD) (f : Z) : Z :=
  match list_find (fun d => code d = f) tbl with
  | Some (_, d) => to_int (pid d)
  | None => -1
  end.

(** ** The timer interrupt *)

(** The body of the loop of [ISR(TIMER1_COMPA_vect)] on one slot. *)
Definition tick_PD (d : PD) : PD :=
  if decide (state d = SLEEPING) then
    let d' := set_request_arg (to_int (request_arg d - 1)) d in
    if decide (request_arg d' <= 0) then set_state READY d' else d'
  else d.

Definition TIMER1_COMPA_vect (s : kernel) : kernel :=
  set_Process (tick_PD <$> Process s) s.

(** The timer interrupts served at a point of the kernel code: [n] of them
    when the interrupt flag is set, none otherwise. *)
Definition serve_ticks (n : nat) (s : kernel) : kernel :=
  if IntEnabled s then Nat.iter n TIMER1_COMPA_vect s else s.

Section Kernel.

(** The constants of [os.h]: the number of slots of the process table and
    the size in bytes of the workspace of a slot. *)
Variable MAXTHREAD : nat.
Variable WORKSPACE : nat.

(** The program address of [Task_Terminate], as the linker fixes it. *)
Variable Task_Terminate_addr : Z.

(** ** The dispatcher *)

(** [NextP = (NextP + 1) % MAXTHREAD], in [unsigned int] arithmetic. *)
Definition advance_NextP (s : kernel) : kernel :=
  set_NextP (to_uint (NextP s + 1) mod Z.of_nat MAXTHREAD) s.

(** The [while] loop of [Dispatch].  [i] is the local counter; [ticks] says
    how many timer interrupts arrive at each point where the loop can be
    interrupted: after the body of an iteration, and between the last test
    and the [cli] that follows the loop.  They are served only while the
    interrupt flag is set. *)
Fixpoint Dispatch_loop (fuel : nat) (ticks : nat -> nat) (i : Z) (s : kernel)
  : outcome kernel :=
  match fuel with
  | O => OutOfFuel
  | S fuel' =>
      d ← deref s (Z.to_nat (NextP s));
      if decide (state d <> READY) then
        let s1 := advance_NextP s in
        let i1 := to_int (i + 1) in
        let s2 := if decide (i1 > Z.of_nat MAXTHREAD)
                  then Enable_Interrupt s1 else s1 in
        Dispatch_loop fuel' (fun k => ticks (S k)) i1
                      (serve_ticks (ticks O) s2)
      else Done (serve_ticks (ticks O) s)
  end.

(** What [Dispatch] does once the loop has stopped at a READY slot. *)
Definition Dispatch_select (s : kernel) : outcome kernel :=
  let s1 := Disable_Interrupt s in
  let c := Z.to_nat (NextP s1) in
  d ← deref s1 c;
  let s2 := set_Cp (Some c) s1 in
  let s3 := set_CurrentSp (sp d) s2 in
  let s4 := store c (set_state RUNNING d) s3 in
  Done (advance_NextP s4).

Definition Dispatch (fuel : nat) (ticks : nat -> nat) (s : kernel)
  : outcome kernel :=
  s1 ← Dispatch_loop fuel ticks 0 s;
  Dispatch_select s1.

(** ** Task creation *)

(** [*(unsigned char * )sp-- = v] on the workspace [ws], [sp] being byte
    [off] of it. *)
Definition push (v : Z) (st : list Z * Z) : outcome (list Z * Z) :=
  if decide (0 <= st.2 < Z.of_nat (length st.1))
  then Done (<[Z.to_nat st.2 := to_uchar v]> st.1, st.2 - 1)
  else Fault.

Fixpoint push_all (vs : list Z) (st : list Z * Z) : outcome (list Z * Z) :=
  match vs with
  | [] => Done st
  | v :: vs' => st' ← push v st; push_all vs' st'
  end.

(** The bytes [Kernel_Create_Task] stores, in the order it stores them: the
    address of [Task_Terminate], the entry point [f], and (DEBUG is
    defined) the values of [counter] from 0 to 33. *)
Definition initial_frame (f : Z) : list Z :=
  [ Z.land (to_uint Task_Terminate_addr) 255;
    Z.land (Z.shiftr (to_uint Task_Terminate_addr) 8) 255;
    0;
    Z.land (to_uint f) 255;
    Z.land (Z.shiftr (to_uint f) 8) 255;
    0 ] ++ seqZ 0 34.

(** The value of [x] after the search loop: the first DEAD slot, or
    [MAXTHREAD] when the loop runs to its end. *)
Definition first_DEAD (tbl : list PD) : nat :=
  match list_find (fun d => state d = DEAD) tbl with
  | Some (x, _) => x
  | None => MAXTHREAD
  end.

Definition Kernel_Create_Task (f py a : Z) (s : kernel) : outcome kernel :=
  if decide (Tasks s = Z.of_nat MAXTHREAD) then
    Done (set_err MAX_PROCESS_ERR s)
  else
    let x := first_DEAD (Process s) in
    let s1 := set_Tasks (to_uint (Tasks s + 1)) s in
    p ← deref s1 x;
    st ← push_all (initial_frame f)
                  (replicate WORKSPACE 0, Z.of_nat WORKSPACE - 1);
    let s2 := set_last_PID (to_uint (last_PID s1 + 1)) s1 in
    let p' := mkPD (last_PID s2) py READY NONE (request_arg p) a
                   (WsPtr x st.2) st.1 f in
    Done (set_err NO_ERR (store x p' s2)).

(** ** Suspend and resume *)

Definition Kernel_Suspend_Task (s : kernel) : outcome kernel :=
  c ← cp_get s;
  match findProcessByPID (Process s) (request_arg c) with
  | None => Done (set_err PID_NOT_FOUND_ERR s)
  | Some t =>
      p ← deref s t;
      if decide (state p <> READY) then
        Done (set_err SUSPEND_NONRUNNING_TASK_ERR s)
      else Done (set_err NO_ERR (store t (set_state SUSPENDED p) s))
  end.

Definition Kernel_Resume_Task (s : kernel) : outcome kernel :=
  c ← cp_get s;
  match findProcessByPID (Process s) (request_arg c) with
  | None => Done (set_err PID_NOT_FOUND_ERR s)
  | Some t =>
      p ← deref s t;
      if decide (state p <> SUSPENDED) then
        Done (set_err RESUME_NONSUSPENDED_TASK_ERR s)
      else Done (set_err NO_ERR (store t (set_state READY p) s))
  end.

(** ** The request loop *)

(** The [switch] of [Next_Kernel_Request]. *)
Definition handle_request (fuel : nat) (ticks : nat -> nat) (s : kernel)
  : outcome kernel :=
  c ← cp_get s;
  if decide (request c = CREATE) then
    Kernel_Create_Task (code c) (pri c) (arg c) s
  else if decide (request c = TERMINATE) then
    s1 ← cp_update (set_state DEAD) s; Dispatch fuel ticks s1
  else if decide (request c = SUSPEND) then Kernel_Suspend_Task s
  else if decide (request c = RESUME) then Kernel_Resume_Task s
  else if decide (request c = SLEEP) then
    s1 ← cp_update (set_state SLEEPING) s; Dispatch fuel ticks s1
  else if decide (request c = YIELD \/ request c = NONE) then
    s1 ← cp_update (set_state READY) s; Dispatch fuel ticks s1
  else Done (set_err INVALID_KERNET_REQUEST_ERR s).

(** Modelled from the spec: the context-switch primitives are not under
    src/.  [Exit_Kernel] leaves the kernel for the task whose stack pointer
    is in [CurrentSp]; tasks run with interrupts enabled. *)
Definition Exit_Kernel (s : kernel) : kernel := set_IntEnabled true s.

(** Modelled from the spec: the context-switch primitives are not under
    src/.  [Enter_Kernel] pushes the machine state on the stack of the task
    and stores the resulting stack pointer, here [tsp], into [CurrentSp]. *)
Definition Enter_Kernel (tsp : stackptr) (s : kernel) : kernel :=
  set_CurrentSp tsp s.

(** From the top of the [while (1)] to [Exit_Kernel]: the request field is
    cleared and the task is resumed. *)
Definition resume_task (s : kernel) : outcome kernel :=
  s1 ← cp_update (set_request NONE) s;
  c ← cp_get s1;
  Done (Exit_Kernel (set_CurrentSp (sp c) s1)).

(** From the return of [Exit_Kernel] to the end of the loop body: the stack
    pointer of the task is saved and its request is handled. *)
Definition serve_request (fuel : nat) (ticks : nat -> nat) (s : kernel)
  : outcome kernel :=
  s1 ← cp_update (set_sp (CurrentSp s)) s;
  handle_request fuel ticks s1.

(** ** The API, seen from a task *)

(** What the running task does to come back to the kernel. *)
Inductive syscall : Set :=
| SysCreate (f py a : Z)
| SysTerminate
| SysYield
| SysSuspend (p : Z)
| SysResume (p : Z)
| SysSleep (t : Z)
| SysInterrupt            (* kernel entered with the request left as it is *)
| SysRaw (r : Z).         (* any other value stored in the request field *)

(** The part of each API function that runs, kernel active, before
    [Enter_Kernel]: [cli] and the stores into [*Cp]. *)
Definition api_request (sc : syscall) (s : kernel) : outcome kernel :=
  match sc with
  | SysCreate f py a =>
      cp_update (fun d => set_code f (set_request CREATE
                            (set_arg a (set_pri py d))))
                (Disable_Interrupt s)
  | SysTerminate => cp_update (set_request TERMINATE) (Disable_Interrupt s)
  | SysYield => cp_update (set_request YIELD) (Disable_Interrupt s)
  | SysSuspend p =>
      cp_update (fun d => set_request_arg (to_int p) (set_request SUSPEND d))
                (Disable_Interrupt s)
  | SysResume p =>
      cp_update (fun d => set_request_arg (to_int p) (set_request RESUME d))
                (Disable_Interrupt s)
  | SysSleep t =>
      cp_update (fun d => set_request SLEEP (set_request_arg t d))
                (Disable_Interrupt s)
  | SysInterrupt => Done (Disable_Interrupt s)
  | SysRaw r => cp_update (set_request r) (Disable_Interrupt s)
  end.

(** One stay in task context: the timer interrupts served while the task
    runs, the call that ends the stay, and the stack pointer the task has
    when it enters the kernel. *)
Record task_run : Set := mkRun {
  run_ticks : nat;
  run_call : syscall;
  run_sp : stackptr
}.

Definition run_task (r : task_run) (s : kernel) : outcome kernel :=
  s1 ← api_request (run_call r) (serve_ticks (run_ticks r) s);
  Done (Enter_Kernel (run_sp r) s1).

(** One turn of the [while (1)] of [Next_Kernel_Request], from the top of
    the loop to the top of the loop. *)
Definition loop_body (fuel : nat) (ticks : nat -> nat) (r : task_run)
    (s : kernel) : outcome kernel :=
  s1 ← resume_task s;
  s2 ← run_task r s1;
  serve_request fuel ticks s2.

(** ** Boot *)

Definition PD_zero : PD :=
  mkPD 0 0 DEAD NONE 0 0 NullSp (replicate WORKSPACE 0) 0.

(** The globals as C initialises them before [main]. *)
Definition reset_state : kernel :=
  mkKernel (replicate MAXTHREAD PD_zero) None NullSp NullSp 0 0 0 0 NO_ERR
           false.

Definition OS_Init (s : kernel) : kernel :=
  set_Process ((fun _ => set_state DEAD PD_zero) <$> Process s)
    (set_NextP 0 (set_KernelActive 0 (set_Tasks 0 s))).

(** The value [Task_Create] returns, read off the globals. *)
Definition Task_Create_result (s : kernel) : Z :=
  if decide (err s = MAX_PROCESS_ERR) then 0 else last_PID s.

(** [Task_Create] called by the task that runs while the kernel is active
    ([tsp] is its stack pointer at kernel entry), or by [main] before
    [OS_Start].  A CREATE request is served without dispatching, so the
    kernel resumes the caller, which then computes its result. *)
Definition Task_Create (f py a : Z) (tsp : stackptr) (s : kernel)
  : outcome (Z * kernel) :=
  if decide (KernelActive s <> 0) then
    s1 ← api_request (SysCreate f py a) s;
    s2 ← serve_request O (fun _ => O) (Enter_Kernel tsp s1);
    s3 ← resume_task s2;
    Done (Task_Create_result s3, s3)
  else
    s1 ← Kernel_Create_Task f py a s;
    Done (Task_Create_result s1, s1).

(** [OS_Start], up to the first arrival at the top of the request loop.
    (The timer registers [Timer_init] programs are not part of the
    state.) *)
Definition OS_Start (fuel : nat) (ticks : nat -> nat) (s : kernel)
  : outcome kernel :=
  if decide (KernelActive s = 0 /\ Tasks s > 0) then
    Dispatch fuel ticks (set_KernelActive 1 (Disable_Interrupt s))
  else Done s.

(** The states [main] can be in before [OS_Start]: [OS_Init], then any
    number of task creations. *)
Inductive booted : kernel -> Prop :=
| booted_init : booted (OS_Init reset_state)
| booted_create s f py a tsp v s' :
    booted s -> Task_Create f py a tsp s = Done (v, s') -> booted s'.

(** The states of the kernel at the top of the request loop: the one
    [OS_Start] reaches after its first dispatch ([OS_Start] returns at once,
    the kernel still inactive, when no task has been created), and those a
    turn of the loop leads to. *)
Inductive loop_top : kernel -> Prop :=
| loop_top_start s0 fuel ticks s :
    booted s0 -> OS_Start fuel ticks s0 = Done s -> KernelActive s <> 0 ->
    loop_top s
| loop_top_next s fuel ticks r s' :
    loop_top s -> loop_body fuel ticks r s = Done s' -> loop_top s'.

(** The states of the kernel while a task runs: after [Exit_Kernel] and any
    number of timer interrupts. *)
Inductive in_task : kernel -> Prop :=
| in_task_resumed s s1 n :
    loop_top s -> resume_task s = Done s1 -> in_task (serve_ticks n s1).

(** The number of slots that are not DEAD. *)
Definition live_count (tbl : list PD) : nat :=
  length (filter (fun d => state d <> DEAD) tbl).

(** ** The API functions, whole *)

(** How a call of an API function ends on the side of the caller: it
    returns at once, or it reaches [Enter_Kernel]. *)
Inductive api_exit : Type :=
| Returned (s : kernel)
| Entering (s : kernel)
| Faulted.

Definition entering (o : outcome kernel) : api_exit :=
  match o with
  | Done s => Entering s
  | _ => Faulted
  end.

Definition Task_Terminate (s : kernel) : api_exit :=
  if decide (KernelActive s = 0) then
    Returned (set_err KERNEL_INACTIVE_ERR s)
  else entering (api_request SysTerminate s).

Definition Task_Yield (s : kernel) : api_exit :=
  if decide (KernelActive s = 0) then
    Returned (set_err KERNEL_INACTIVE_ERR s)
  else entering (api_request SysYield s).

Definition Task_Suspend (p : Z) (s : kernel) : api_exit :=
  if decide (KernelActive s = 0) then
    Returned (set_err KERNEL_INACTIVE_ERR s)
  else entering (api_request (SysSuspend p) s).

Definition Task_Resume (p : Z) (s : kernel) : api_exit :=
  if decide (KernelActive s = 0) then
    Returned (set_err KERNEL_INACTIVE_ERR s)
  else entering (api_request (SysResume p) s).

Definition Task_Sleep (t : Z) (s : kernel) : api_exit :=
  if decide (KernelActive s = 0) then
    Returned (set_err KERNEL_INACTIVE_ERR s)
  else entering (api_request (SysSleep t) s).

(** What the kernel makes of a call the running task issues in state [s]:
    the stores of the API function, the kernel entry with the stack pointer
    [tsp], the saved stack pointer and the request switch, up to the next
    top of the loop. *)
Definition syscall_turn (fuel : nat) (ticks : nat -> nat) (sc : syscall)
    (tsp : stackptr) (s : kernel) : outcome kernel :=
  s1 ← api_request sc s;
  serve_request fuel ticks (Enter_Kernel tsp s1).

(** ** Timer 1 *)

(** The bit numbers [avr/io.h] gives the names used by [Timer_init]. *)
Variables CS10 CS11 CS12 WGM10 WGM11 WGM12 WGM13 OCIE1A : Z.

(** The registers of timer 1 that [Timer_init] writes: two 8-bit control
    registers and two 16-bit ones. *)
Record timer1 : Set := mkTimer1 {
  TCCR1B : Z;
  OCR1A : Z;
  TCNT1 : Z;
  TIMSK1 : Z
}.

(** [r |= m] and [r &= ~m] on an 8-bit register. *)
Definition set_bits (m r : Z) : Z := to_uchar (Z.lor r m).
Definition clear_bits (m r : Z) : Z := to_uchar (Z.land r (Z.lnot m)).

Definition TICK_LENG : Z := 157.

Definition Timer_init (r : timer1) : timer1 :=
  let b1 := set_bits (Z.lor (Z.shiftl 1 CS12) (Z.shiftl 1 CS10)) (TCCR1B r) in
  let b2 := clear_bits (Z.shiftl 1 CS11) b1 in
  let b3 := set_bits (Z.shiftl 1 WGM12) b2 in
  let b4 := clear_bits (Z.lor (Z.lor (Z.shiftl 1 WGM13) (Z.shiftl 1 WGM11))
                              (Z.shiftl 1 WGM10)) b3 in
  mkTimer1 b4 (to_uint TICK_LENG) (to_uint 0)
           (set_bits (Z.shiftl 1 OCIE1A) (TIMSK1 r)).

(** ** Vocabulary of the statements *)

(** No slot of the table holds the PID [p]. *)
Definition pid_absent (tbl : list PD) (p : Z) : Prop :=
  forall j dj, tbl !! j = Some dj -> pid dj <> to_uint p.

(** Slot [t], holding [d], is the target of a request on the PID [p]: the
    first slot of the table whose [pid] is [p]. *)
Definition pid_target (tbl : list PD) (p : Z) (t : nat) (d : PD) : Prop :=
  tbl !! t = Some d /\ pid d = to_uint p /\
  forall j dj, tbl !! j = Some dj -> (j < t)%nat -> pid dj <> to_uint p.

(** The call whose outcome is [o] returns from [s] with the error code [e]
    in [err] and nothing else changed. *)
Definition answers (e : ERROR_TYPE) (s : kernel) (o : outcome kernel) : Prop :=
  exists s', o = Done s' /\ err s' = e /\ Process s' = Process s /\
             s' = set_err e s.

(** Slot [x], holding [p], is the first DEAD slot of the table. *)
Definition first_dead_slot (tbl : list PD) (x : nat) (p : PD) : Prop :=
  tbl !! x = Some p /\ state p = DEAD /\
  forall j dj, tbl !! j = Some dj -> (j < x)%nat -> state dj <> DEAD.

(** The slot [k] places after the cursor [NextP], cyclically. *)
Definition slot_after (s : kernel) (k : nat) : nat :=
  Z.to_nat ((NextP s + Z.of_nat k) mod Z.of_nat MAXTHREAD).

(** Slot [c], holding [d], is the first READY slot at or cyclically after
    the cursor. *)
Definition first_ready_from (s : kernel) (c : nat) (d : PD) : Prop :=
  exists k, (k < MAXTHREAD)%nat /\ c = slot_after s k /\
    Process s !! c = Some d /\ state d = READY /\
    forall j dj, (j < k)%nat ->
      Process s !! slot_after s j = Some dj -> state dj <> READY.

(** Two descriptors, two kernel states, that differ at most in the stored
    priorities. *)
Definition pri_blind (d1 d2 : PD) : Prop := set_pri 0 d1 = set_pri 0 d2.

Definition same_but_pri (s1 s2 : kernel) : Prop :=
  Forall2 pri_blind (Process s1) (Process s2) /\
  set_Process [] s1 = set_Process [] s2.

(** The globals once [Dispatch] has chosen slot [c], which held [d]. *)
Definition dispatched (s : kernel) (c : nat) (d : PD) : kernel :=
  mkKernel (<[c := set_state RUNNING d]> (Process s)) (Some c) (KernelSp s)
           (sp d) ((Z.of_nat c + 1) mod Z.of_nat MAXTHREAD) (KernelActive s)
           (Tasks s) (last_PID s) (err s) false.

(** Exactly one slot is RUNNING and [Cp] points at it. *)
Definition one_running (s : kernel) : Prop :=
  exists c d, Cp s = Some c /\ Process s !! c = Some d /\ state d = RUNNING /\
    forall j dj, Process s !! j = Some dj -> state dj = RUNNING -> j = c.

(** No slot is RUNNING: the table before [OS_Start], and between the
    moment a handler takes the processor from the caller and the moment
    [Dispatch] gives it to the next task. *)
Definition none_running (s : kernel) : Prop :=
  forall j dj, Process s !! j = Some dj -> state dj <> RUNNING.

(** What every reachable table satisfies.  [Tasks] counts the creations
    since [OS_Init] and equals [last_PID]; slots at or above that count
    have never been used; used slots carry pairwise distinct, nonzero
    PIDs. *)
Record table_inv (s : kernel) : Prop := mk_table_inv {
  inv_length : length (Process s) = MAXTHREAD;
  inv_NextP : 0 <= NextP s < Z.of_nat MAXTHREAD;
  inv_Tasks : 0 <= Tasks s <= Z.of_nat MAXTHREAD;
  inv_last_PID : last_PID s = Tasks s;
  inv_fresh : forall i d, Process s !! i = Some d ->
    Tasks s <= Z.of_nat i -> state d = DEAD /\ pid d = 0;
  inv_pid_range : forall i d, Process s !! i = Some d ->
    0 <= pid d <= last_PID s;
  inv_pid_live : forall i d, Process s !! i = Some d ->
    pid d = 0 -> state d = DEAD;
  inv_pid_inj : forall i j di dj,
    Process s !! i = Some di -> Process s !! j = Some dj ->
    pid di = pid dj -> pid di <> 0 -> i = j
}.

(** The invariant of the request loop. *)
Definition loop_inv (s : kernel) : Prop :=
  table_inv s /\ one_running s /\ KernelActive s <> 0.

(** The invariant of the boot phase. *)
Definition boot_inv (s : kernel) : Prop :=
  table_inv s /\ none_running s /\ KernelActive s = 0 /\
  IntEnabled s = false.

(** Changes of a descriptor that keep its PID and leave a DEAD slot DEAD
    ([mild]), and that moreover keep it RUNNING or not, DEAD or not
    ([calm]). *)
Definition mild (d d' : PD) : Prop :=
  pid d' = pid d /\ (state d = DEAD -> state d' = DEAD).

Definition calm (d d' : PD) : Prop :=
  pid d' = pid d /\ (state d' = DEAD <-> state d = DEAD) /\
  (state d' = RUNNING <-> state d = RUNNING).

(** The globals the invariants read, apart from the table. *)
Definition same_counters (s s' : kernel) : Prop :=
  Cp s' = Cp s /\ NextP s' = NextP s /\ KernelActive s' = KernelActive s /\
  Tasks s' = Tasks s /\ last_PID s' = last_PID s.

(** The table [main] builds: the tasks created so far fill the first
    slots, READY and numbered from 1 in the order of creation; the cursor
    is on slot 0 and no task has run. *)
Definition boot_shape (s : kernel) : Prop :=
  NextP s = 0 /\ Cp s = None /\
  forall i d, Process s !! i = Some d -> Z.of_nat i < Tasks s ->
    state d = READY /\ pid d = Z.of_nat i + 1.

(** The calls by which the running task gives the processor away: the
    stores the API function makes into the descriptor of the caller, and
    the state the handler then gives the caller.  [SysInterrupt] is a
    kernel entry without a call: the request field is still NONE. *)
Inductive gives_up : syscall -> (PD -> PD) -> PROCESS_STATES -> Prop :=
| gives_up_terminate :
    gives_up SysTerminate (set_request TERMINATE) DEAD
| gives_up_sleep t :
    gives_up (SysSleep t)
             (fun d => set_request SLEEP (set_request_arg t d)) SLEEPING
| gives_up_yield :
    gives_up SysYield (set_request YIELD) READY
| gives_up_interrupt :
    gives_up SysInterrupt (fun d => d) READY.

(** The state in which [Dispatch] is called once the caller (slot [c],
    which held [d], stores [f], stack pointer [tsp] at kernel entry) has
    been given the state [v]. *)
Definition handed_over (v : PROCESS_STATES) (f : PD -> PD) (tsp : stackptr)
    (c : nat) (d : PD) (s : kernel) : kernel :=
  mkKernel (<[c := set_state v (set_sp tsp (f d))]> (Process s)) (Cp s)
           (KernelSp s) tsp (NextP s) (KernelActive s) (Tasks s)
           (last_PID s) (err s) false.

(** What timer interrupts can make of a descriptor: its state is the same,
    or READY out of SLEEPING. *)
Definition woken (d0 d : PD) : Prop :=
  state d = state d0 \/ (state d0 = SLEEPING /\ state d = READY).

(** A sleeper the next tick wakes, or one already woken. *)
Definition due (d : PD) : Prop :=
  state d = READY \/ (state d = SLEEPING /\ -32768 < request_arg d <= 1).

(** The states the idle search of [Dispatch] goes through when it starts
    in [s0] with slot [j0] due. *)
Definition idling (s0 : kernel) (j0 : nat) (s : kernel) : Prop :=
  length (Process s) = MAXTHREAD /\
  0 <= NextP s < Z.of_nat MAXTHREAD /\
  Forall2 woken (Process s0) (Process s) /\
  exists dj, Process s !! j0 = Some dj /\ due dj.

(** The request code the switch finds after a call. *)
Definition call_code (sc : syscall) : KERNEL_REQUEST_TYPE :=
  match sc with
  | SysCreate _ _ _ => CREATE
  | SysTerminate => TERMINATE
  | SysYield => YIELD
  | SysSuspend _ => SUSPEND
  | SysResume _ => RESUME
  | SysSleep _ => SLEEP
  | SysInterrupt => NONE
  | SysRaw r => r
  end.

(** Every slot of [l] in state [v] is found unchanged in [l']. *)
Definition kept (v : PROCESS_STATES) (l l' : list PD) : Prop :=
  forall i d, l !! i = Some d -> state d = v -> l' !! i = Some d.

(** * Properties *)

(** ** Sequencing *)

Lemma bind_Done {A B} (m : outcome A) (f : A -> outcome B) (b : B) :
  m ≫= f = Done b <-> exists a, m = Done a /\ f a = Done b.
Proof.
  destruct m as [a| |]; simpl; split.
  - intros H. exists a. split; [reflexivity | exact H].
  - intros (a' & Ha & H). injection Ha as <-. exact H.
  - discriminate.
  - intros (a' & Ha & _). discriminate.
  - discriminate.
  - intros (a' & Ha & _). discriminate.
Qed.

Lemma deref_Done (s : kernel) (i : nat) (d : PD) :
  deref s i = Done d <-> Process s !! i = Some d.
Proof.
  unfold deref. destruct (Process s !! i); split; intros H;
    try discriminate; congruence.
Qed.

Lemma cp_get_Done (s : kernel) (d : PD) :
  cp_get s = Done d <-> exists c, Cp s = Some c /\ Process s !! c = Some d.
Proof.
  unfold cp_get. destruct (Cp s) as [c|].
  - rewrite deref_Done. split.
    + intros H. exists c. auto.
    + intros (c' & Hc & H). congruence.
  - split; [discriminate | intros (c' & Hc & _); discriminate].
Qed.

Lemma cp_update_Done (f : PD -> PD) (s s' : kernel) :
  cp_update f s = Done s' <->
  exists c d, Cp s = Some c /\ Process s !! c = Some d /\ s' = store c (f d) s.
Proof.
  unfold cp_update. destruct (Cp s) as [c|].
  - rewrite bind_Done. split.
    + intros (d & Hd%deref_Done & H). exists c, d. split_and!; congruence.
    + intros (c' & d & Hc & Hd & ->). exists d. rewrite deref_Done.
      split; congruence.
  - split; [discriminate | intros (c' & d & Hc & _); discriminate].
Qed.

(** ** Lookups by PID *)

Lemma findProcessByPID_Some (tbl : list PD) (p : Z) (t : nat) :
  findProcessByPID tbl p = Some t <->
  exists d, tbl !! t = Some d /\ pid d = to_uint p /\
    forall j dj, tbl !! j = Some dj -> (j < t)%nat -> pid dj <> to_uint p.
Proof.
  unfold findProcessByPID. rewrite fmap_Some. split.
  - intros ([i d] & H%list_find_Some & ->). exists d. exact H.
  - intros (d & H). exists (t, d). split; [|reflexivity].
    apply list_find_Some. exact H.
Qed.

Lemma findProcessByPID_None (tbl : list PD) (p : Z) :
  findProcessByPID tbl p = None <->
  forall j dj, tbl !! j = Some dj -> pid dj <> to_uint p.
Proof.
  unfold findProcessByPID. rewrite fmap_None, list_find_None, Forall_lookup.
  reflexivity.
Qed.

(** The lookup reads the [pid] fields and nothing else. *)
Lemma findProcessByPID_pids (tbl : list PD) (p : Z) :
  findProcessByPID tbl p =
  fst <$> list_find (fun v => v = to_uint p) (pid <$> tbl).
Proof.
  unfold findProcessByPID. rewrite list_find_fmap.
  destruct (list_find _ tbl) as [[i d]|]; reflexivity.
Qed.

Lemma set_state_same (d : PD) : set_state (state d) d = d.
Proof. destruct d; reflexivity. Qed.

Lemma set_state_twice (v w : PROCESS_STATES) (d : PD) :
  set_state v (set_state w d) = set_state v d.
Proof. destruct d; reflexivity. Qed.

(** ** The timer interrupt *)

Lemma to_int_small (z : Z) : -32768 <= z <= 32767 -> to_int z = z.
Proof. intros H. unfold to_int. rewrite Z.mod_small by lia. lia. Qed.

Lemma to_uint_small (z : Z) : 0 <= z < 65536 -> to_uint z = z.
Proof. intros H. unfold to_uint. apply Z.mod_small. exact H. Qed.

Lemma tick_PD_awake (d : PD) : state d <> SLEEPING -> tick_PD d = d.
Proof. intros H. unfold tick_PD. destruct (decide _); [contradiction | reflexivity]. Qed.

Lemma tick_PD_asleep (d : PD) :
  state d = SLEEPING ->
  tick_PD d =
  set_state (if decide (to_int (request_arg d - 1) <= 0) then READY else SLEEPING)
            (set_request_arg (to_int (request_arg d - 1)) d).
Proof.
  intros H. unfold tick_PD. destruct (decide (state d = SLEEPING)) as [_|]; [|contradiction].
  simpl. destruct (decide _); [reflexivity|].
  rewrite <- H at 1. destruct d; reflexivity.
Qed.

Lemma tick_PD_pid (d : PD) : pid (tick_PD d) = pid d.
Proof.
  unfold tick_PD. repeat (destruct (decide _)); reflexivity.
Qed.

Lemma tick_PD_state (d : PD) :
  state (tick_PD d) = state d \/ state d = SLEEPING /\ state (tick_PD d) = READY.
Proof.
  unfold tick_PD. repeat (destruct (decide _)); simpl; auto.
Qed.

(** C8: one run of the tick ISR decrements [request_arg] (in 16-bit [int]
    arithmetic: by exactly one unless it was the least [int]) in every
    SLEEPING slot, makes such a slot READY exactly when the decremented
    value is at most 0 and leaves it SLEEPING otherwise, changes no other
    field of it, no field of a slot that is not SLEEPING and no other
    global; a slot that sleeps with [request_arg = 1] is READY after one
    run. *)
Theorem tick_isr_wakes_expired_sleepers (s : kernel) (i : nat) (d : PD) :
  Process s !! i = Some d ->
  exists d',
    Process (TIMER1_COMPA_vect s) !! i = Some d' /\
    TIMER1_COMPA_vect s = set_Process (Process (TIMER1_COMPA_vect s)) s /\
    length (Process (TIMER1_COMPA_vect s)) = length (Process s) /\
    (state d <> SLEEPING -> d' = d) /\
    (state d = SLEEPING ->
       request_arg d' = to_int (request_arg d - 1) /\
       (-32768 < request_arg d <= 32767 ->
        request_arg d' = request_arg d - 1) /\
       (state d' = READY <-> request_arg d' <= 0) /\
       (state d' = SLEEPING <-> 0 < request_arg d') /\
       d' = set_state (state d') (set_request_arg (request_arg d') d) /\
       (request_arg d = 1 -> state d' = READY /\ request_arg d' = 0)).
Proof.
  intros Hi. exists (tick_PD d). split_and!.
  - unfold TIMER1_COMPA_vect. simpl. rewrite list_lookup_fmap, Hi. reflexivity.
  - reflexivity.
  - unfold TIMER1_COMPA_vect. simpl. apply length_fmap.
  - apply tick_PD_awake.
  - intros Hs. rewrite (tick_PD_asleep d Hs). simpl. split_and!.
    + reflexivity.
    + intros Hrange. apply to_int_small. lia.
    + destruct (decide _); split; intros; try discriminate; try lia; reflexivity.
    + destruct (decide _); split; intros; try discriminate; try lia; reflexivity.
    + reflexivity.
    + intros ->. simpl. split; reflexivity.
Qed.

(** ** Suspend and resume *)

Lemma pid_target_lookup (tbl : list PD) (p : Z) (t : nat) (d : PD) :
  pid_target tbl p t d -> findProcessByPID tbl p = Some t.
Proof. intros H. apply findProcessByPID_Some. exists d. exact H. Qed.

Lemma pid_absent_lookup (tbl : list PD) (p : Z) :
  pid_absent tbl p -> findProcessByPID tbl p = None.
Proof. intros H. apply findProcessByPID_None. exact H. Qed.

Lemma cp_get_eq (s : kernel) (c : nat) (cd : PD) :
  Cp s = Some c -> Process s !! c = Some cd -> cp_get s = Done cd.
Proof. intros Hc Hd. apply cp_get_Done. exists c. auto. Qed.

(** The three exits of [Kernel_Suspend_Task]. *)
Lemma Kernel_Suspend_Task_absent (s : kernel) (c : nat) (cd : PD) :
  Cp s = Some c -> Process s !! c = Some cd ->
  pid_absent (Process s) (request_arg cd) ->
  Kernel_Suspend_Task s = Done (set_err PID_NOT_FOUND_ERR s).
Proof.
  intros Hc Hd Ha. unfold Kernel_Suspend_Task.
  rewrite (cp_get_eq s c cd Hc Hd). simpl.
  rewrite (pid_absent_lookup _ _ Ha). reflexivity.
Qed.

Lemma Kernel_Suspend_Task_refused (s : kernel) (c t : nat) (cd p : PD) :
  Cp s = Some c -> Process s !! c = Some cd ->
  pid_target (Process s) (request_arg cd) t p -> state p <> READY ->
  Kernel_Suspend_Task s = Done (set_err SUSPEND_NONRUNNING_TASK_ERR s).
Proof.
  intros Hc Hd Ht Hs. unfold Kernel_Suspend_Task.
  rewrite (cp_get_eq s c cd Hc Hd). simpl.
  rewrite (pid_target_lookup _ _ _ _ Ht).
  destruct Ht as (Ht & _). unfold deref. rewrite Ht. simpl.
  destruct (decide _); [reflexivity | contradiction].
Qed.

Lemma Kernel_Suspend_Task_done (s : kernel) (c t : nat) (cd p : PD) :
  Cp s = Some c -> Process s !! c = Some cd ->
  pid_target (Process s) (request_arg cd) t p -> state p = READY ->
  Kernel_Suspend_Task s =
  Done (set_err NO_ERR (store t (set_state SUSPENDED p) s)).
Proof.
  intros Hc Hd Ht Hs. unfold Kernel_Suspend_Task.
  rewrite (cp_get_eq s c cd Hc Hd). simpl.
  rewrite (pid_target_lookup _ _ _ _ Ht).
  destruct Ht as (Ht & _). unfold deref. rewrite Ht. simpl.
  destruct (decide _); [contradiction | reflexivity].
Qed.

(** The three exits of [Kernel_Resume_Task]. *)
Lemma Kernel_Resume_Task_absent (s : kernel) (c : nat) (cd : PD) :
  Cp s = Some c -> Process s !! c = Some cd ->
  pid_absent (Process s) (request_arg cd) ->
  Kernel_Resume_Task s = Done (set_err PID_NOT_FOUND_ERR s).
Proof.
  intros Hc Hd Ha. unfold Kernel_Resume_Task.
  rewrite (cp_get_eq s c cd Hc Hd). simpl.
  rewrite (pid_absent_lookup _ _ Ha). reflexivity.
Qed.

Lemma Kernel_Resume_Task_refused (s : kernel) (c t : nat) (cd p : PD) :
  Cp s = Some c -> Process s !! c = Some cd ->
  pid_target (Process s) (request_arg cd) t p -> state p <> SUSPENDED ->
  Kernel_Resume_Task s = Done (set_err RESUME_NONSUSPENDED_TASK_ERR s).
Proof.
  intros Hc Hd Ht Hs. unfold Kernel_Resume_Task.
  rewrite (cp_get_eq s c cd Hc Hd). simpl.
  rewrite (pid_target_lookup _ _ _ _ Ht).
  destruct Ht as (Ht & _). unfold deref. rewrite Ht. simpl.
  destruct (decide _); [reflexivity | contradiction].
Qed.

Lemma Kernel_Resume_Task_done (s : kernel) (c t : nat) (cd p : PD) :
  Cp s = Some c -> Process s !! c = Some cd ->
  pid_target (Process s) (request_arg cd) t p -> state p = SUSPENDED ->
  Kernel_Resume_Task s =
  Done (set_err NO_ERR (store t (set_state READY p) s)).
Proof.
  intros Hc Hd Ht Hs. unfold Kernel_Resume_Task.
  rewrite (cp_get_eq s c cd Hc Hd). simpl.
  rewrite (pid_target_lookup _ _ _ _ Ht).
  destruct Ht as (Ht & _). unfold deref. rewrite Ht. simpl.
  destruct (decide _); [contradiction | reflexivity].
Qed.

(** Changing the state of the target keeps it the target, and keeps the
    request argument of the current task. *)
Lemma pid_target_restate (tbl : list PD) (q : Z) (t : nat) (p : PD)
    (v : PROCESS_STATES) :
  pid_target tbl q t p ->
  pid_target (<[t := set_state v p]> tbl) q t (set_state v p).
Proof.
  intros (Ht & Hp & Hmin). split_and!.
  - apply list_lookup_insert_eq. eapply lookup_lt_Some, Ht.
  - exact Hp.
  - intros j dj Hj Hlt. rewrite list_lookup_insert_ne in Hj by lia.
    eapply Hmin; eassumption.
Qed.

Lemma restate_current (tbl : list PD) (t c : nat) (p cd : PD)
    (v : PROCESS_STATES) :
  tbl !! t = Some p -> tbl !! c = Some cd ->
  exists cd', <[t := set_state v p]> tbl !! c = Some cd' /\
              request_arg cd' = request_arg cd.
Proof.
  intros Ht Hc. destruct (decide (t = c)) as [->|Hne].
  - exists (set_state v p). split.
    + apply list_lookup_insert_eq. eapply lookup_lt_Some, Ht.
    + simpl. congruence.
  - exists cd. split; [|reflexivity].
    rewrite list_lookup_insert_ne by exact Hne. exact Hc.
Qed.

Lemma answers_set_err (e : ERROR_TYPE) (s : kernel) :
  answers e s (Done (set_err e s)).
Proof. exists (set_err e s). split_and!; reflexivity. Qed.

(** C6: [Kernel_Suspend_Task] takes the target PID from [Cp->request_arg].
    If no slot holds it, [err] becomes PID_NOT_FOUND_ERR and nothing else
    changes; if the target is not READY, [err] becomes
    SUSPEND_NONRUNNING_TASK_ERR and nothing else changes; otherwise the
    target becomes SUSPENDED, keeping its PID, no other slot changes and
    [err] becomes NO_ERR.  A second suspension of the same task then fails
    with SUSPEND_NONRUNNING_TASK_ERR, and a RUNNING caller is left as it is
    by any suspension it asks for: asked on itself, the request is refused
    with SUSPEND_NONRUNNING_TASK_ERR. *)
Theorem Kernel_Suspend_Task_cases (s : kernel) (c : nat) (cd : PD) :
  Cp s = Some c -> Process s !! c = Some cd ->
  (pid_absent (Process s) (request_arg cd) ->
     answers PID_NOT_FOUND_ERR s (Kernel_Suspend_Task s)) /\
  (forall t p, pid_target (Process s) (request_arg cd) t p ->
     (state p <> READY ->
        answers SUSPEND_NONRUNNING_TASK_ERR s (Kernel_Suspend_Task s)) /\
     (state p = READY ->
        exists s1 p1,
          Kernel_Suspend_Task s = Done s1 /\
          err s1 = NO_ERR /\
          Process s1 !! t = Some p1 /\ state p1 = SUSPENDED /\
          pid p1 = pid p /\
          (forall j, j <> t -> Process s1 !! j = Process s !! j) /\
          s1 = set_err NO_ERR (store t (set_state SUSPENDED p) s) /\
          answers SUSPEND_NONRUNNING_TASK_ERR s1 (Kernel_Suspend_Task s1))) /\
  (state cd = RUNNING ->
     (exists s', Kernel_Suspend_Task s = Done s' /\
                 Process s' !! c = Some cd) /\
     (pid_target (Process s) (request_arg cd) c cd ->
        answers SUSPEND_NONRUNNING_TASK_ERR s (Kernel_Suspend_Task s))).
Proof.
  intros Hc Hd. split_and!.
  - intros Ha. rewrite (Kernel_Suspend_Task_absent s c cd Hc Hd Ha).
    apply answers_set_err.
  - intros t p Ht. split.
    + intros Hs.
      rewrite (Kernel_Suspend_Task_refused s c t cd p Hc Hd Ht Hs).
      apply answers_set_err.
    + intros Hs.
      exists (set_err NO_ERR (store t (set_state SUSPENDED p) s)),
             (set_state SUSPENDED p).
      split_and!.
      * apply Kernel_Suspend_Task_done with (c := c) (cd := cd); assumption.
      * reflexivity.
      * simpl. apply list_lookup_insert_eq. eapply lookup_lt_Some, Ht.
      * reflexivity.
      * reflexivity.
      * intros j Hne. simpl. apply list_lookup_insert_ne. congruence.
      * reflexivity.
      * destruct (restate_current (Process s) t c p cd SUSPENDED)
          as (cd' & Hcd' & Harg); [apply Ht | exact Hd |].
        rewrite (Kernel_Suspend_Task_refused
                   (set_err NO_ERR (store t (set_state SUSPENDED p) s))
                   c t cd' (set_state SUSPENDED p)).
        -- apply answers_set_err.
        -- exact Hc.
        -- exact Hcd'.
        -- rewrite Harg. apply pid_target_restate. exact Ht.
        -- discriminate.
  - intros Hrun. split.
    + destruct (findProcessByPID (Process s) (request_arg cd)) as [t|] eqn:Hf.
      * apply findProcessByPID_Some in Hf as (p & Ht).
        destruct (decide (state p = READY)) as [Hs|Hs].
        -- eexists. split.
           ++ apply Kernel_Suspend_Task_done with (c := c) (cd := cd);
                eassumption.
           ++ simpl. rewrite list_lookup_insert_ne; [exact Hd|].
              intros ->. destruct Ht as (Ht & _). congruence.
        -- eexists. split.
           ++ apply Kernel_Suspend_Task_refused
                with (c := c) (cd := cd) (t := t) (p := p); assumption.
           ++ exact Hd.
      * eexists. split.
        -- apply Kernel_Suspend_Task_absent with (c := c) (cd := cd);
             [assumption..|]. unfold pid_absent.
           apply findProcessByPID_None. exact Hf.
        -- exact Hd.
    + intros Ht.
      rewrite (Kernel_Suspend_Task_refused s c c cd cd Hc Hd Ht);
        [apply answers_set_err|]. rewrite Hrun. discriminate.
Qed.

(** C7: on a READY slot that is the target of its own PID, a suspension
    makes the slot SUSPENDED with [err] at NO_ERR, and a resumption on that
    PID then puts the slot back to READY, leaves the whole table as it was
    and [err] at NO_ERR.  [Kernel_Resume_Task] fails with PID_NOT_FOUND_ERR
    when no slot holds the PID and with RESUME_NONSUSPENDED_TASK_ERR when
    the target is not SUSPENDED, and in both failures only [err] changes. *)
Theorem Kernel_Suspend_then_Resume (s : kernel) (c : nat) (cd : PD) :
  Cp s = Some c -> Process s !! c = Some cd ->
  (forall t p, pid_target (Process s) (request_arg cd) t p ->
     state p = READY ->
     exists s1 s2,
       Kernel_Suspend_Task s = Done s1 /\ err s1 = NO_ERR /\
       (exists p1, Process s1 !! t = Some p1 /\ state p1 = SUSPENDED) /\
       Kernel_Resume_Task s1 = Done s2 /\ err s2 = NO_ERR /\
       Process s2 !! t = Some p /\ state p = READY /\
       Process s2 = Process s /\
       s2 = set_err NO_ERR s) /\
  (pid_absent (Process s) (request_arg cd) ->
     answers PID_NOT_FOUND_ERR s (Kernel_Resume_Task s)) /\
  (forall t p, pid_target (Process s) (request_arg cd) t p ->
     state p <> SUSPENDED ->
     answers RESUME_NONSUSPENDED_TASK_ERR s (Kernel_Resume_Task s)).
Proof.
  intros Hc Hd. split_and!.
  - intros t p Ht Hs.
    exists (set_err NO_ERR (store t (set_state SUSPENDED p) s)),
           (set_err NO_ERR s).
    split_and!.
    + apply Kernel_Suspend_Task_done with (c := c) (cd := cd); assumption.
    + reflexivity.
    + exists (set_state SUSPENDED p). split; [|reflexivity].
      simpl. apply list_lookup_insert_eq. eapply lookup_lt_Some, Ht.
    + destruct (restate_current (Process s) t c p cd SUSPENDED)
        as (cd' & Hcd' & Harg); [apply Ht | exact Hd |].
      rewrite (Kernel_Resume_Task_done _ c t cd' (set_state SUSPENDED p));
        [| exact Hc | exact Hcd'
         | rewrite Harg; apply pid_target_restate; exact Ht
         | reflexivity].
      f_equal. unfold store. simpl.
      rewrite list_insert_insert_eq, set_state_twice, <- Hs, set_state_same.
      rewrite list_insert_id by apply Ht. destruct s; reflexivity.
    + reflexivity.
    + apply Ht.
    + exact Hs.
    + reflexivity.
    + reflexivity.
  - intros Ha. rewrite (Kernel_Resume_Task_absent s c cd Hc Hd Ha).
    apply answers_set_err.
  - intros t p Ht Hs.
    rewrite (Kernel_Resume_Task_refused s c t cd p Hc Hd Ht Hs).
    apply answers_set_err.
Qed.

(** ** Stack bytes and the search for a DEAD slot *)

Lemma push_all_Done (vs ws : list Z) (off : Z) :
  -1 <= off < Z.of_nat (length ws) ->
  Z.of_nat (length vs) <= off + 1 ->
  push_all vs (ws, off) =
  Done (take (Z.to_nat (off + 1) - length vs)%nat ws
          ++ reverse (to_uchar <$> vs) ++ drop (Z.to_nat (off + 1)) ws,
        off - Z.of_nat (length vs)).
Proof.
  revert ws off. induction vs as [|v vs IH]; intros ws off Hoff Hlen.
  - simpl. rewrite Nat.sub_0_r, take_drop, Z.sub_0_r. reflexivity.
  - rewrite length_cons in Hlen.
    change (push_all (v :: vs) (ws, off))
      with (push v (ws, off) ≫= push_all vs).
    unfold push. cbn [fst snd].
    destruct (decide _) as [Hin|Hout]; [|lia]. cbn [mbind outcome_bind].
    rewrite IH by (rewrite ?length_insert; lia).
    f_equal. f_equal; [|rewrite length_cons; lia].
    replace (Z.to_nat (off - 1 + 1)) with (Z.to_nat off) by lia.
    replace (Z.to_nat (off + 1)) with (S (Z.to_nat off)) by lia.
    rewrite take_insert_ge by lia.
    rewrite fmap_cons, reverse_cons, <- !app_assoc.
    replace (S (Z.to_nat off) - length (v :: vs))%nat
      with (Z.to_nat off - length vs)%nat by (rewrite length_cons; lia).
    do 2 f_equal.
    rewrite insert_take_drop by lia.
    rewrite drop_app_length'; [reflexivity|].
    rewrite length_take. lia.
Qed.

Lemma to_uchar_byte (z : Z) : to_uchar (Z.land z 255) = Z.land z 255.
Proof.
  unfold to_uchar. change 255 with (Z.ones 8).
  rewrite Z.land_ones by lia. apply Z.mod_mod. lia.
Qed.

Lemma initial_frame_bytes (f : Z) :
  to_uchar <$> initial_frame f = initial_frame f.
Proof.
  unfold initial_frame. rewrite fmap_app. f_equal.
  simpl. rewrite !to_uchar_byte. reflexivity.
Qed.

Lemma initial_frame_length (f : Z) : length (initial_frame f) = 40%nat.
Proof. reflexivity. Qed.

Lemma first_DEAD_eq (tbl : list PD) (x : nat) (p : PD) :
  first_dead_slot tbl x p -> first_DEAD tbl = x.
Proof.
  intros H. unfold first_DEAD.
  rewrite (proj2 (list_find_Some (fun d => state d = DEAD) tbl x p)).
  - reflexivity.
  - destruct H as (H1 & H2 & H3). split_and!; [exact H1 | exact H2 |].
    intros j y Hj Hlt. exact (H3 j y Hj Hlt).
Qed.

Lemma first_DEAD_none (tbl : list PD) :
  (forall j dj, tbl !! j = Some dj -> state dj <> DEAD) ->
  first_DEAD tbl = MAXTHREAD.
Proof.
  intros H. unfold first_DEAD.
  rewrite (proj2 (list_find_None (fun d => state d = DEAD) tbl)).
  - reflexivity.
  - apply Forall_lookup. exact H.
Qed.

(** ** The dispatcher *)

(** [MAXTHREAD] is a positive [int] constant. *)
Hypothesis MAXTHREAD_pos : (0 < MAXTHREAD)%nat.
Hypothesis MAXTHREAD_int : Z.of_nat MAXTHREAD <= 32767.

Lemma first_such (P : nat -> Prop) (Pdec : forall k, Decision (P k)) (n : nat) :
  (exists k, (k < n)%nat /\ P k) ->
  exists k, (k < n)%nat /\ P k /\ forall j, (j < k)%nat -> ~ P j.
Proof.
  assert (forall m, (forall j, (j < m)%nat -> ~ P j) \/
            exists k, (k < m)%nat /\ P k /\ forall j, (j < k)%nat -> ~ P j)
    as Hscan.
  { induction m as [|m [Hnone|(k & Hk & HP & Hmin)]].
    - left. intros j Hj. lia.
    - destruct (Pdec m) as [Hm|Hm].
      + right. exists m. split_and!; [lia | exact Hm | exact Hnone].
      + left. intros j Hj. destruct (decide (j = m)) as [->|Hne];
          [exact Hm | apply Hnone; lia].
    - right. exists k. split_and!; [lia | exact HP | exact Hmin]. }
  intros (k & Hk & HP). destruct (Hscan n) as [Hnone|Hfound].
  - exfalso. exact (Hnone k Hk HP).
  - exact Hfound.
Qed.

Lemma set_NextP_same (s : kernel) : set_NextP (NextP s) s = s.
Proof. destruct s; reflexivity. Qed.

Lemma serve_ticks_off (n : nat) (s : kernel) :
  IntEnabled s = false -> serve_ticks n s = s.
Proof. intros H. unfold serve_ticks. rewrite H. reflexivity. Qed.

Lemma advance_NextP_value (s : kernel) :
  0 <= NextP s < Z.of_nat MAXTHREAD ->
  NextP (advance_NextP s) = (NextP s + 1) mod Z.of_nat MAXTHREAD.
Proof.
  intros H. unfold advance_NextP. simpl.
  rewrite to_uint_small by lia. reflexivity.
Qed.

Lemma slot_after_0 (s : kernel) :
  0 <= NextP s < Z.of_nat MAXTHREAD -> slot_after s 0 = Z.to_nat (NextP s).
Proof.
  intros H. unfold slot_after. rewrite Z.add_0_r, Z.mod_small by lia.
  reflexivity.
Qed.

Lemma slot_after_lt (s : kernel) (k : nat) : (slot_after s k < MAXTHREAD)%nat.
Proof.
  unfold slot_after.
  pose proof (Z.mod_pos_bound (NextP s + Z.of_nat k) (Z.of_nat MAXTHREAD)).
  lia.
Qed.

Lemma slot_after_advance (s : kernel) (k : nat) :
  0 <= NextP s < Z.of_nat MAXTHREAD ->
  slot_after (advance_NextP s) k = slot_after s (S k).
Proof.
  intros H. unfold slot_after. rewrite advance_NextP_value by exact H.
  rewrite Z.add_mod_idemp_l by lia. do 2 f_equal. lia.
Qed.

(** With interrupts disabled, the loop of [Dispatch] walks from the cursor
    to the first READY slot and leaves the cursor on it. *)
Lemma Dispatch_loop_scan (k : nat) :
  forall (fuel : nat) (ticks : nat -> nat) (i : Z) (s : kernel) (d : PD),
  IntEnabled s = false ->
  length (Process s) = MAXTHREAD ->
  0 <= NextP s < Z.of_nat MAXTHREAD ->
  0 <= i -> i + Z.of_nat k <= Z.of_nat MAXTHREAD ->
  (k < fuel)%nat ->
  (forall j dj, (j < k)%nat ->
     Process s !! slot_after s j = Some dj -> state dj <> READY) ->
  Process s !! slot_after s k = Some d -> state d = READY ->
  Dispatch_loop fuel ticks i s =
  Done (set_NextP (Z.of_nat (slot_after s k)) s).
Proof.
  induction k as [|k IH]; intros fuel ticks i s d Hint Hlen HN Hi Hik Hfuel Hnot Hd Hr;
    (destruct fuel as [|fuel]; [lia|]); cbn [Dispatch_loop].
  - rewrite slot_after_0 in Hd |- * by exact HN.
    unfold deref. rewrite Hd. cbn [mbind outcome_bind].
    destruct (decide _) as [Hne|_]; [contradiction|].
    rewrite serve_ticks_off by exact Hint.
    rewrite Z2Nat.id by lia. rewrite set_NextP_same. reflexivity.
  - destruct (lookup_lt_is_Some_2 (Process s) (Z.to_nat (NextP s)))
      as [d0 Hd0]; [lia|].
    unfold deref. rewrite Hd0. cbn [mbind outcome_bind].
    destruct (decide _) as [_|Hrd].
    2:{ exfalso. apply Hrd. apply (Hnot 0%nat d0); [lia|].
        rewrite slot_after_0 by exact HN. exact Hd0. }
    rewrite to_int_small by lia.
    destruct (decide (i + 1 > Z.of_nat MAXTHREAD)) as [?|_]; [lia|].
    rewrite serve_ticks_off by exact Hint.
    rewrite (IH fuel _ (i + 1) (advance_NextP s) d).
    + rewrite slot_after_advance by exact HN. reflexivity.
    + exact Hint.
    + exact Hlen.
    + rewrite advance_NextP_value by exact HN.
      apply Z.mod_pos_bound. lia.
    + lia.
    + lia.
    + lia.
    + intros j dj Hj. rewrite slot_after_advance by exact HN.
      apply Hnot. lia.
    + rewrite slot_after_advance by exact HN. exact Hd.
    + exact Hr.
Qed.

Lemma Dispatch_selects (s : kernel) (c : nat) (d : PD) :
  IntEnabled s = false ->
  length (Process s) = MAXTHREAD ->
  0 <= NextP s < Z.of_nat MAXTHREAD ->
  first_ready_from s c d ->
  forall fuel ticks, (MAXTHREAD <= fuel)%nat ->
    Dispatch fuel ticks s = Done (dispatched s c d).
Proof.
  intros Hint Hlen HN (k & Hk & -> & Hd & Hr & Hmin) fuel ticks Hfuel.
  unfold Dispatch.
  rewrite (Dispatch_loop_scan k fuel ticks 0 s d); try assumption; try lia.
  cbn [mbind outcome_bind]. unfold Dispatch_select. cbn zeta.
  unfold deref. cbn [Process Disable_Interrupt set_IntEnabled set_NextP NextP].
  rewrite Nat2Z.id, Hd. cbn [mbind outcome_bind].
  unfold advance_NextP, store, dispatched. cbn.
  rewrite to_uint_small; [reflexivity|].
  pose proof (slot_after_lt s k). lia.
Qed.

Lemma first_ready_exists (s : kernel) :
  length (Process s) = MAXTHREAD ->
  0 <= NextP s < Z.of_nat MAXTHREAD ->
  (exists i d, Process s !! i = Some d /\ state d = READY) ->
  exists c d, first_ready_from s c d.
Proof.
  intros Hlen HN (i & d & Hi & Hr).
  pose (P := fun k => exists dk,
                 Process s !! slot_after s k = Some dk /\ state dk = READY).
  assert (forall k, Decision (P k)) as Pdec.
  { intros k. unfold P. destruct (Process s !! slot_after s k) as [dk|].
    - destruct (decide (state dk = READY)) as [Hy|Hn].
      + left. exists dk. auto.
      + right. intros (dk' & [= <-] & Hy). contradiction.
    - right. intros (dk' & [=] & _). }
  destruct (first_such P Pdec MAXTHREAD) as (k & Hk & (dk & Hdk & Hrk) & Hmin).
  - assert (i < MAXTHREAD)%nat as Hi' by (rewrite <- Hlen; eapply lookup_lt_Some, Hi).
    exists (Z.to_nat ((Z.of_nat i - NextP s) mod Z.of_nat MAXTHREAD)).
    pose proof (Z.mod_pos_bound (Z.of_nat i - NextP s) (Z.of_nat MAXTHREAD)).
    split; [lia|]. exists d. split; [|exact Hr].
    unfold slot_after. rewrite Z2Nat.id by lia.
    rewrite Z.add_mod_idemp_r by lia.
    replace (NextP s + (Z.of_nat i - NextP s)) with (Z.of_nat i) by lia.
    rewrite Z.mod_small by lia. rewrite Nat2Z.id. exact Hi.
  - exists (slot_after s k), dk. exists k. split_and!; try done.
    intros j dj Hj Hdj Hrj. apply (Hmin j Hj). exists dj. auto.
Qed.

Lemma same_but_pri_globals (s1 s2 : kernel) :
  same_but_pri s1 s2 ->
  IntEnabled s2 = IntEnabled s1 /\ NextP s2 = NextP s1 /\
  length (Process s2) = length (Process s1).
Proof.
  intros (Htbl & Hg). split_and!.
  - apply (f_equal IntEnabled) in Hg. symmetry. exact Hg.
  - apply (f_equal NextP) in Hg. symmetry. exact Hg.
  - symmetry. eapply Forall2_length, Htbl.
Qed.

Lemma same_but_pri_first_ready (s1 s2 : kernel) (c : nat) (d1 : PD) :
  same_but_pri s1 s2 -> first_ready_from s1 c d1 ->
  exists d2, Process s2 !! c = Some d2 /\ first_ready_from s2 c d2.
Proof.
  intros Hsame (k & Hk & -> & Hd & Hr & Hmin).
  destruct (same_but_pri_globals _ _ Hsame) as (_ & HN & _).
  assert (forall j, slot_after s2 j = slot_after s1 j) as Hslot
    by (intros j; unfold slot_after; rewrite HN; reflexivity).
  destruct Hsame as (Htbl & Hg).
  destruct (Forall2_lookup_l _ _ _ _ _ Htbl Hd) as (d2 & H2 & Hb).
  exists d2. split; [exact H2|]. exists k. split_and!.
  - exact Hk.
  - symmetry. apply Hslot.
  - exact H2.
  - apply (f_equal state) in Hb. simpl in Hb. congruence.
  - intros j dj Hj Hdj. rewrite Hslot in Hdj.
    destruct (Forall2_lookup_r _ _ _ _ _ Htbl Hdj) as (dj1 & Hj1 & Hbj).
    apply (f_equal state) in Hbj. simpl in Hbj. rewrite <- Hbj.
    eapply Hmin; eassumption.
Qed.

(** C3: in a kernel state with interrupts disabled, a cursor inside the
    table and at least one READY slot, [Dispatch] returns (any fuel of at
    least MAXTHREAD iterations is enough, whatever timer interrupts are
    pending) having chosen the first READY slot at or cyclically after
    [NextP]: [Cp] is that slot, [CurrentSp] its [sp], its state RUNNING and
    [NextP] one past it modulo MAXTHREAD, nothing else being changed (the
    chosen slot keeps its PID and stack pointer, every other slot is as it
    was, [err] is untouched and interrupts are disabled on return).  A
    slot that is the only READY one is therefore chosen wherever the cursor
    is, and the choice is the same in every state that differs only in the
    stored priorities. *)
Theorem Dispatch_round_robin (s : kernel) :
  IntEnabled s = false ->
  length (Process s) = MAXTHREAD ->
  0 <= NextP s < Z.of_nat MAXTHREAD ->
  (exists i d, Process s !! i = Some d /\ state d = READY) ->
  exists c d,
    first_ready_from s c d /\
    (forall fuel ticks, (MAXTHREAD <= fuel)%nat ->
       Dispatch fuel ticks s = Done (dispatched s c d)) /\
    (forall c0,
       (forall j dj, Process s !! j = Some dj -> state dj = READY -> j = c0) ->
       c = c0) /\
    (forall s2, same_but_pri s s2 ->
       exists d2, Process s2 !! c = Some d2 /\
         forall fuel ticks, (MAXTHREAD <= fuel)%nat ->
           Dispatch fuel ticks s2 = Done (dispatched s2 c d2)) /\
    (forall fuel ticks, (MAXTHREAD <= fuel)%nat ->
       exists s' d',
         Dispatch fuel ticks s = Done s' /\
         Cp s' = Some c /\ Process s' !! c = Some d' /\
         state d' = RUNNING /\ pid d' = pid d /\ sp d' = sp d /\
         CurrentSp s' = sp d /\
         NextP s' = (Z.of_nat c + 1) mod Z.of_nat MAXTHREAD /\
         IntEnabled s' = false /\ err s' = err s /\
         forall j, j <> c -> Process s' !! j = Process s !! j).
Proof.
  intros Hint Hlen HN Hready.
  destruct (first_ready_exists s Hlen HN Hready) as (c & d & Hfirst).
  exists c, d. split_and!.
  - exact Hfirst.
  - apply Dispatch_selects; assumption.
  - intros c0 Honly. destruct Hfirst as (k & _ & _ & Hd & Hr & _).
    exact (Honly c d Hd Hr).
  - intros s2 Hsame.
    destruct (same_but_pri_first_ready s s2 c d Hsame Hfirst) as (d2 & H2 & Hf2).
    destruct (same_but_pri_globals _ _ Hsame) as (Hi2 & HN2 & Hl2).
    exists d2. split; [exact H2|].
    apply Dispatch_selects; [congruence | congruence | rewrite HN2; exact HN | exact Hf2].
  - intros fuel ticks Hfuel.
    exists (dispatched s c d), (set_state RUNNING d).
    split_and!; try reflexivity.
    + apply Dispatch_selects; assumption.
    + destruct Hfirst as (k & _ & _ & Hd & _).
      cbn. apply list_lookup_insert_eq. eapply lookup_lt_Some, Hd.
    + intros j Hne. cbn. apply list_lookup_insert_ne. congruence.
Qed.

(** ** The initial stack of a task *)

(** The workspace has room for the frame [Kernel_Create_Task] builds. *)
Hypothesis WORKSPACE_frame : (40 <= WORKSPACE)%nat.

(** The successful exit of [Kernel_Create_Task], in closed form. *)
Lemma Kernel_Create_Task_alloc (f py a : Z) (s : kernel) (x : nat) (p : PD) :
  Tasks s <> Z.of_nat MAXTHREAD ->
  first_dead_slot (Process s) x p ->
  Kernel_Create_Task f py a s =
  Done (set_err NO_ERR
         (store x
            (mkPD (to_uint (last_PID s + 1)) py READY NONE (request_arg p) a
                  (WsPtr x (Z.of_nat WORKSPACE - 41))
                  (replicate (WORKSPACE - 40) 0 ++ reverse (initial_frame f))
                  f)
            (set_last_PID (to_uint (last_PID s + 1))
               (set_Tasks (to_uint (Tasks s + 1)) s)))).
Proof.
  clear MAXTHREAD_pos MAXTHREAD_int.
  intros HT Hx. unfold Kernel_Create_Task.
  destruct (decide _) as [|_]; [contradiction|].
  rewrite (first_DEAD_eq _ _ _ Hx). cbn zeta.
  destruct Hx as (Hx & _). unfold deref. cbn [Process set_Tasks]. rewrite Hx.
  cbn [mbind outcome_bind].
  rewrite push_all_Done
    by (rewrite ?length_replicate, ?initial_frame_length; lia).
  cbn [mbind outcome_bind fst snd].
  rewrite initial_frame_bytes, initial_frame_length.
  rewrite take_replicate, drop_replicate.
  replace (Z.to_nat (Z.of_nat WORKSPACE - 1 + 1)) with WORKSPACE by lia.
  rewrite Nat.sub_diag, Nat.min_l by lia.
  change (replicate 0 0) with (@nil Z). rewrite app_nil_r.
  replace (Z.of_nat WORKSPACE - 1 - Z.of_nat 40) with (Z.of_nat WORKSPACE - 41)
    by lia.
  reflexivity.
Qed.

(** The exit of [Kernel_Create_Task] taken when [Tasks] has reached
    [MAXTHREAD]. *)
Lemma Kernel_Create_Task_full (f py a : Z) (s : kernel) :
  Tasks s = Z.of_nat MAXTHREAD ->
  Kernel_Create_Task f py a s = Done (set_err MAX_PROCESS_ERR s).
Proof.
  intros HT. unfold Kernel_Create_Task.
  destruct (decide _); [reflexivity | contradiction].
Qed.

(** C5, amended: task creation writes, from the top of the workspace
    downward, the address of [Task_Terminate] (low byte, high byte, a zero
    byte), then the entry point in the same three-byte form, then 34 bytes
    for the registers (the values 0 to 33); the rest of the workspace is
    zero, and the recorded initial [sp] is 3 + 3 + 34 bytes below the
    highest workspace address. *)
Theorem Kernel_Create_Task_initial_stack
    (f py a : Z) (s : kernel) (x : nat) (p : PD) :
  Tasks s <> Z.of_nat MAXTHREAD ->
  first_dead_slot (Process s) x p ->
  exists s' p',
    Kernel_Create_Task f py a s = Done s' /\
    Process s' !! x = Some p' /\
    length (workSpace p') = WORKSPACE /\
    workSpace p' =
      replicate (WORKSPACE - 40) 0 ++ reverse (seqZ 0 34) ++
      [ 0; Z.land (Z.shiftr (to_uint f) 8) 255; Z.land (to_uint f) 255;
        0; Z.land (Z.shiftr (to_uint Task_Terminate_addr) 8) 255;
        Z.land (to_uint Task_Terminate_addr) 255 ] /\
    sp p' = WsPtr x ((Z.of_nat WORKSPACE - 1) - (3 + 3 + 34)) /\
    code p' = f /\ state p' = READY.
Proof.
  clear MAXTHREAD_pos MAXTHREAD_int.
  intros HT Hx. eexists. eexists. split.
  - apply Kernel_Create_Task_alloc; eassumption.
  - split.
    + cbn [Process set_err store set_Process set_last_PID set_Tasks].
      apply list_lookup_insert_eq. destruct Hx as (Hx & _).
      eapply lookup_lt_Some, Hx.
    + cbn [workSpace sp code state]. split_and!.
      * rewrite length_app, length_replicate, length_reverse,
          initial_frame_length. lia.
      * unfold initial_frame. rewrite reverse_app. reflexivity.
      * f_equal. lia.
      * reflexivity.
      * reflexivity.
Qed.

(** ** Invariants of the table *)

Lemma calm_mild (d d' : PD) : calm d d' -> mild d d'.
Proof. intros (Hp & Hd & _). split; [exact Hp | apply Hd]. Qed.

Lemma calm_refl (d : PD) : calm d d.
Proof. split_and!; reflexivity. Qed.

Lemma Forall2_calm_mild (l l' : list PD) :
  Forall2 calm l l' -> Forall2 mild l l'.
Proof. apply Forall2_impl. exact calm_mild. Qed.

Lemma Forall2_calm_refl (l : list PD) : Forall2 calm l l.
Proof. apply Forall_Forall2_diag, Forall_forall. intros d _. apply calm_refl. Qed.

Lemma Forall2_calm_insert (l : list PD) (i : nat) (d d' : PD) :
  l !! i = Some d -> calm d d' -> Forall2 calm l (<[i := d']> l).
Proof.
  intros Hi Hc. rewrite <- (list_insert_id l i d Hi) at 1.
  apply Forall2_insert; [apply Forall2_calm_refl | exact Hc].
Qed.

Lemma Forall2_mild_insert (l : list PD) (i : nat) (d d' : PD) :
  l !! i = Some d -> mild d d' -> Forall2 mild l (<[i := d']> l).
Proof.
  intros Hi Hc. rewrite <- (list_insert_id l i d Hi) at 1.
  apply Forall2_insert; [|exact Hc].
  apply Forall2_calm_mild, Forall2_calm_refl.
Qed.

Lemma same_counters_refl (s : kernel) : same_counters s s.
Proof. split_and!; reflexivity. Qed.

Lemma table_inv_mild (s s' : kernel) :
  table_inv s ->
  Forall2 mild (Process s) (Process s') ->
  0 <= NextP s' < Z.of_nat MAXTHREAD ->
  Tasks s' = Tasks s -> last_PID s' = last_PID s ->
  table_inv s'.
Proof.
  intros [Hlen HN HT HL Hfresh Hrange Hlive Hinj] Htbl HN' HT' HL'.
  assert (forall i d', Process s' !! i = Some d' ->
            exists d, Process s !! i = Some d /\ mild d d') as Hback.
  { intros i d' Hi. exact (Forall2_lookup_r _ _ _ _ _ Htbl Hi). }
  split.
  - rewrite <- Hlen. symmetry. eapply Forall2_length, Htbl.
  - exact HN'.
  - rewrite HT'. exact HT.
  - congruence.
  - intros i d' Hi Hge. destruct (Hback i d' Hi) as (d & Hd & Hp & Hs).
    rewrite HT' in Hge. destruct (Hfresh i d Hd Hge) as (Hdead & Hzero).
    split; [auto | congruence].
  - intros i d' Hi. destruct (Hback i d' Hi) as (d & Hd & Hp & Hs).
    rewrite Hp, HL'. eapply Hrange, Hd.
  - intros i d' Hi Hz. destruct (Hback i d' Hi) as (d & Hd & Hp & Hs).
    apply Hs. eapply Hlive; [exact Hd | congruence].
  - intros i j di' dj' Hi Hj Heq Hnz.
    destruct (Hback i di' Hi) as (di & Hdi & Hpi & _).
    destruct (Hback j dj' Hj) as (dj & Hdj & Hpj & _).
    apply (Hinj i j di dj Hdi Hdj); congruence.
Qed.

Lemma table_inv_calm (s s' : kernel) :
  table_inv s -> Forall2 calm (Process s) (Process s') ->
  same_counters s s' -> table_inv s'.
Proof.
  intros Hinv Htbl (_ & HN & _ & HT & HL).
  apply (table_inv_mild s s' Hinv); [|rewrite HN; apply Hinv|exact HT|exact HL].
  apply Forall2_calm_mild, Htbl.
Qed.

Lemma one_running_calm (s s' : kernel) :
  one_running s -> Forall2 calm (Process s) (Process s') ->
  same_counters s s' -> one_running s'.
Proof.
  intros (c & d & Hc & Hd & Hr & Honly) Htbl (HCp & _).
  destruct (Forall2_lookup_l _ _ _ _ _ Htbl Hd) as (d' & Hd' & _ & _ & Hrun).
  exists c, d'. split_and!.
  - congruence.
  - exact Hd'.
  - apply Hrun, Hr.
  - intros j dj' Hj Hrj.
    destruct (Forall2_lookup_r _ _ _ _ _ Htbl Hj) as (dj & Hdj & _ & _ & Hrunj).
    apply (Honly j dj Hdj). apply Hrunj, Hrj.
Qed.

Lemma none_running_calm (s s' : kernel) :
  none_running s -> Forall2 calm (Process s) (Process s') -> none_running s'.
Proof.
  intros Hnone Htbl j dj' Hj Hrj.
  destruct (Forall2_lookup_r _ _ _ _ _ Htbl Hj) as (dj & Hdj & _ & _ & Hrunj).
  apply (Hnone j dj Hdj). apply Hrunj, Hrj.
Qed.

Lemma loop_inv_calm (s s' : kernel) :
  loop_inv s -> Forall2 calm (Process s) (Process s') ->
  same_counters s s' -> loop_inv s'.
Proof.
  intros (Ht & Hr & Ha) Htbl Hsame. split_and!.
  - eapply table_inv_calm; eassumption.
  - eapply one_running_calm; eassumption.
  - destruct Hsame as (_ & _ & HA & _). rewrite HA. exact Ha.
Qed.

(** The timer interrupt is calm, and keeps READY slots as they are. *)
Lemma tick_PD_calm (d : PD) : calm d (tick_PD d).
Proof.
  split_and!.
  - apply tick_PD_pid.
  - destruct (tick_PD_state d) as [->|(Hs & ->)]; [reflexivity|].
    rewrite Hs. split; discriminate.
  - destruct (tick_PD_state d) as [->|(Hs & ->)]; [reflexivity|].
    rewrite Hs. split; discriminate.
Qed.

Lemma TIMER1_COMPA_vect_calm (s : kernel) :
  Forall2 calm (Process s) (Process (TIMER1_COMPA_vect s)) /\
  same_counters s (TIMER1_COMPA_vect s).
Proof.
  split; [|split_and!; reflexivity].
  unfold TIMER1_COMPA_vect. simpl. apply Forall2_fmap_r, Forall_Forall2_diag, Forall_forall.
  intros d _. apply tick_PD_calm.
Qed.

Lemma TIMER1_COMPA_vect_ready (s : kernel) (i : nat) (d : PD) :
  Process s !! i = Some d -> state d <> SLEEPING ->
  Process (TIMER1_COMPA_vect s) !! i = Some d.
Proof.
  intros Hi Hs. unfold TIMER1_COMPA_vect. simpl.
  rewrite list_lookup_fmap, Hi. simpl. rewrite tick_PD_awake by exact Hs.
  reflexivity.
Qed.

Lemma serve_ticks_inv (P : kernel -> Prop) (n : nat) (s : kernel) :
  (forall s0, P s0 -> P (TIMER1_COMPA_vect s0)) -> P s -> P (serve_ticks n s).
Proof.
  intros Hstep HP. unfold serve_ticks. destruct (IntEnabled s); [|exact HP].
  induction n as [|n IH]; simpl; [exact HP | apply Hstep, IH].
Qed.

Lemma serve_ticks_table_inv (n : nat) (s : kernel) :
  table_inv s -> table_inv (serve_ticks n s).
Proof.
  apply serve_ticks_inv. intros s0 H0.
  destruct (TIMER1_COMPA_vect_calm s0). eapply table_inv_calm; eassumption.
Qed.

Lemma serve_ticks_one_running (n : nat) (s : kernel) :
  one_running s -> one_running (serve_ticks n s).
Proof.
  apply serve_ticks_inv. intros s0 H0.
  destruct (TIMER1_COMPA_vect_calm s0). eapply one_running_calm; eassumption.
Qed.

Lemma serve_ticks_none_running (n : nat) (s : kernel) :
  none_running s -> none_running (serve_ticks n s).
Proof.
  apply serve_ticks_inv. intros s0 H0.
  destruct (TIMER1_COMPA_vect_calm s0). eapply none_running_calm; eassumption.
Qed.

Lemma serve_ticks_counters (n : nat) (s : kernel) :
  same_counters s (serve_ticks n s).
Proof.
  apply (serve_ticks_inv (same_counters s)); [|apply same_counters_refl].
  intros s0 H0. exact H0.
Qed.

Lemma serve_ticks_awake (n : nat) (s : kernel) (i : nat) (d : PD) :
  Process s !! i = Some d -> state d <> SLEEPING ->
  Process (serve_ticks n s) !! i = Some d.
Proof.
  intros Hi Hs.
  apply (serve_ticks_inv (fun s0 => Process s0 !! i = Some d)); [|exact Hi].
  intros s0 H0. apply TIMER1_COMPA_vect_ready; assumption.
Qed.

Lemma serve_ticks_loop_inv (n : nat) (s : kernel) :
  loop_inv s -> loop_inv (serve_ticks n s).
Proof.
  intros (Ht & Hr & Ha). split_and!.
  - apply serve_ticks_table_inv, Ht.
  - apply serve_ticks_one_running, Hr.
  - destruct (serve_ticks_counters n s) as (_ & _ & HA & _). rewrite HA. exact Ha.
Qed.

(** Stores into globals that the invariants do not read. *)
Lemma table_inv_frame (s s' : kernel) :
  table_inv s -> Process s' = Process s ->
  0 <= NextP s' < Z.of_nat MAXTHREAD ->
  Tasks s' = Tasks s -> last_PID s' = last_PID s -> table_inv s'.
Proof.
  intros Hinv Hp. apply (table_inv_mild s s' Hinv). rewrite Hp.
  apply Forall2_calm_mild, Forall2_calm_refl.
Qed.

Lemma loop_inv_frame (s s' : kernel) :
  loop_inv s -> Process s' = Process s -> same_counters s s' -> loop_inv s'.
Proof.
  intros Hinv Hp. apply (loop_inv_calm s s' Hinv). rewrite Hp.
  apply Forall2_calm_refl.
Qed.

Lemma advance_NextP_range (s : kernel) :
  0 <= NextP (advance_NextP s) < Z.of_nat MAXTHREAD.
Proof.
  clear WORKSPACE_frame. unfold advance_NextP. simpl. apply Z.mod_pos_bound. lia. Qed.

(** ** The dispatcher keeps the invariants *)

Lemma Dispatch_loop_inv (fuel : nat) :
  forall (ticks : nat -> nat) (i : Z) (s s' : kernel),
  Dispatch_loop fuel ticks i s = Done s' ->
  table_inv s -> none_running s ->
  table_inv s' /\ none_running s' /\
  KernelActive s' = KernelActive s /\
  exists d, Process s' !! Z.to_nat (NextP s') = Some d /\ state d = READY.
Proof.
  induction fuel as [|fuel IH]; intros ticks i s s' Hrun Hinv Hnone;
    [discriminate|].
  cbn [Dispatch_loop] in Hrun.
  apply bind_Done in Hrun as (d & Hd%deref_Done & Hrun).
  destruct (decide (state d <> READY)) as [Hnr|Hr].
  - apply IH in Hrun as (Hinv' & Hnone' & HA & Hready).
    + split_and!; [exact Hinv' | exact Hnone' | | exact Hready].
      rewrite HA.
      destruct (serve_ticks_counters (ticks 0%nat)
                  (if decide (to_int (i + 1) > Z.of_nat MAXTHREAD)
                   then Enable_Interrupt (advance_NextP s)
                   else advance_NextP s)) as (_ & _ & -> & _).
      destruct (decide _); reflexivity.
    + apply serve_ticks_table_inv.
      apply (table_inv_frame s); [exact Hinv | | | |];
        destruct (decide _); try reflexivity; apply advance_NextP_range.
    + apply serve_ticks_none_running.
      intros j dj Hj. apply (Hnone j dj).
      destruct (decide _); exact Hj.
  - injection Hrun as <-.
    assert (state d = READY) as Hready
      by (destruct (decide (state d = READY)); [assumption | contradiction]).
    split_and!.
    + apply serve_ticks_table_inv, Hinv.
    + apply serve_ticks_none_running, Hnone.
    + apply serve_ticks_counters.
    + exists d. split; [|exact Hready].
      destruct (serve_ticks_counters (ticks 0%nat) s) as (_ & -> & _).
      apply serve_ticks_awake; [exact Hd | rewrite Hready; discriminate].
Qed.

Lemma Dispatch_select_inv (s s' : kernel) (d : PD) :
  Dispatch_select s = Done s' ->
  table_inv s -> none_running s ->
  Process s !! Z.to_nat (NextP s) = Some d -> state d = READY ->
  table_inv s' /\ one_running s' /\ KernelActive s' = KernelActive s.
Proof.
  intros Hrun Hinv Hnone Hd Hready. unfold Dispatch_select in Hrun.
  cbn zeta in Hrun. unfold deref in Hrun.
  cbn [Process Disable_Interrupt set_IntEnabled NextP] in Hrun.
  rewrite Hd in Hrun. cbn [mbind outcome_bind] in Hrun.
  injection Hrun as <-. split_and!.
  - apply (table_inv_mild s); [exact Hinv | | apply advance_NextP_range | reflexivity..].
    cbn. apply (Forall2_mild_insert _ _ d); [exact Hd|].
    split; [reflexivity|]. rewrite Hready. discriminate.
  - exists (Z.to_nat (NextP s)), (set_state RUNNING d). split_and!.
    + reflexivity.
    + cbn. apply list_lookup_insert_eq. eapply lookup_lt_Some, Hd.
    + reflexivity.
    + intros j dj Hj Hrj. cbn in Hj.
      destruct (decide (j = Z.to_nat (NextP s))) as [->|Hne]; [reflexivity|].
      rewrite list_lookup_insert_ne in Hj by congruence.
      exfalso. exact (Hnone j dj Hj Hrj).
  - reflexivity.
Qed.

Lemma Dispatch_inv (fuel : nat) (ticks : nat -> nat) (s s' : kernel) :
  Dispatch fuel ticks s = Done s' ->
  table_inv s -> none_running s ->
  table_inv s' /\ one_running s' /\ KernelActive s' = KernelActive s.
Proof.
  intros Hrun Hinv Hnone. unfold Dispatch in Hrun.
  apply bind_Done in Hrun as (s1 & Hloop & Hsel).
  apply Dispatch_loop_inv in Hloop as (Hinv1 & Hnone1 & HA & d & Hd & Hr);
    [|assumption..].
  rewrite <- HA. eapply Dispatch_select_inv; eassumption.
Qed.

(** ** Stores into the current descriptor *)

Lemma cp_update_calm (f : PD -> PD) (s s' : kernel) :
  (forall d, calm d (f d)) -> cp_update f s = Done s' ->
  Forall2 calm (Process s) (Process s') /\ same_counters s s'.
Proof.
  intros Hf (c & d & Hc & Hd & ->)%cp_update_Done. split.
  - cbn. eapply Forall2_calm_insert; [exact Hd | apply Hf].
  - split_and!; reflexivity.
Qed.

Lemma cp_update_loop_inv (f : PD -> PD) (s s' : kernel) :
  (forall d, calm d (f d)) -> cp_update f s = Done s' ->
  loop_inv s -> loop_inv s'.
Proof.
  intros Hf Hrun Hinv. destruct (cp_update_calm f s s' Hf Hrun).
  eapply loop_inv_calm; eassumption.
Qed.

Lemma cp_update_total (f : PD -> PD) (s : kernel) :
  one_running s -> exists s', cp_update f s = Done s'.
Proof.
  intros (c & d & Hc & Hd & _). eexists. apply cp_update_Done.
  exists c, d. split_and!; [exact Hc | exact Hd | reflexivity].
Qed.

(** The current task gives the processor away: its state changes from
    RUNNING to [v], and no slot is RUNNING until the next dispatch. *)
Lemma cp_update_state_inv (v : PROCESS_STATES) (s s' : kernel) :
  v <> RUNNING -> cp_update (set_state v) s = Done s' ->
  loop_inv s ->
  table_inv s' /\ none_running s' /\ KernelActive s' = KernelActive s.
Proof.
  intros Hv (c & d & Hc & Hd & ->)%cp_update_Done (Hinv & Hone & Hact).
  destruct Hone as (c' & d' & Hc' & Hd' & Hr & Honly).
  assert (c' = c) as -> by congruence.
  assert (d' = d) as -> by congruence.
  split_and!.
  - apply (table_inv_mild s); [exact Hinv | | apply Hinv | reflexivity..].
    cbn. apply (Forall2_mild_insert _ _ d); [exact Hd|].
    split; [reflexivity|]. rewrite Hr. discriminate.
  - intros j dj Hj Hrj. cbn in Hj.
    destruct (decide (j = c)) as [->|Hne].
    + rewrite list_lookup_insert_eq in Hj by (eapply lookup_lt_Some, Hd).
      injection Hj as <-. simpl in Hrj. contradiction.
    + rewrite list_lookup_insert_ne in Hj by congruence.
      apply Hne. exact (Honly j dj Hj Hrj).
  - reflexivity.
Qed.

Lemma set_request_calm (v : Z) (d : PD) : calm d (set_request v d).
Proof. split_and!; reflexivity. Qed.

Lemma set_sp_calm (v : stackptr) (d : PD) : calm d (set_sp v d).
Proof. split_and!; reflexivity. Qed.

Lemma calm_fields (d d' : PD) :
  pid d' = pid d -> state d' = state d -> calm d d'.
Proof. intros Hp Hs. split_and!; [exact Hp | rewrite Hs; reflexivity..]. Qed.

(** ** Task creation keeps the invariants *)

Lemma table_inv_first_dead (s : kernel) :
  table_inv s -> Tasks s <> Z.of_nat MAXTHREAD ->
  exists x p, first_dead_slot (Process s) x p /\ Z.of_nat x <= Tasks s.
Proof.
  intros Hinv HT.
  pose proof (inv_Tasks s Hinv) as HTr.
  destruct (lookup_lt_is_Some_2 (Process s) (Z.to_nat (Tasks s)))
    as [d0 Hd0]; [rewrite (inv_length s Hinv); lia|].
  destruct (inv_fresh s Hinv _ d0 Hd0) as (Hdead0 & _); [lia|].
  destruct (list_find (fun d => state d = DEAD) (Process s)) as [[x p]|] eqn:Hf.
  - apply list_find_Some in Hf as (Hx & Hp & Hmin).
    exists x, p. split; [split_and!; assumption|].
    destruct (decide (Z.of_nat x <= Tasks s)) as [?|Hgt]; [assumption|].
    exfalso. apply (Hmin (Z.to_nat (Tasks s)) d0 Hd0); [lia | exact Hdead0].
  - exfalso. rewrite list_find_None, Forall_lookup in Hf.
    exact (Hf _ _ Hd0 Hdead0).
Qed.

Lemma Kernel_Create_Task_total (f py a : Z) (s : kernel) :
  table_inv s -> exists s', Kernel_Create_Task f py a s = Done s'.
Proof.
  intros Hinv. destruct (decide (Tasks s = Z.of_nat MAXTHREAD)) as [HT|HT].
  - eexists. apply Kernel_Create_Task_full. exact HT.
  - destruct (table_inv_first_dead s Hinv HT) as (x & p & Hx & _).
    eexists. apply Kernel_Create_Task_alloc; eassumption.
Qed.

Lemma Kernel_Create_Task_inv (f py a : Z) (s s' : kernel) :
  Kernel_Create_Task f py a s = Done s' -> table_inv s ->
  table_inv s' /\ (one_running s -> one_running s') /\
  (none_running s -> none_running s') /\
  KernelActive s' = KernelActive s /\ IntEnabled s' = IntEnabled s.
Proof.
  intros Hrun Hinv. destruct (decide (Tasks s = Z.of_nat MAXTHREAD)) as [HT|HT].
  - rewrite Kernel_Create_Task_full in Hrun by exact HT. injection Hrun as <-.
    split_and!; try reflexivity; try (intros H; exact H).
    apply (table_inv_frame s); [exact Hinv | reflexivity | apply Hinv | reflexivity..].
  - destruct (table_inv_first_dead s Hinv HT) as (x & p & Hx & Hle).
    rewrite (Kernel_Create_Task_alloc f py a s x p HT Hx) in Hrun.
    injection Hrun as <-.
    destruct Hinv as [Hlen HN HTr HL Hfresh Hrange Hlive Hinj].
    destruct Hx as (Hx & Hdead & Hmin).
    assert (x < length (Process s))%nat as Hxlt by (eapply lookup_lt_Some, Hx).
    assert (to_uint (Tasks s + 1) = Tasks s + 1) as HT1
      by (apply to_uint_small; lia).
    assert (to_uint (last_PID s + 1) = Tasks s + 1) as HL1
      by (rewrite HL; exact HT1).
    split_and!.
    + split; cbn; rewrite ?HT1, ?HL1.
      * rewrite length_insert. exact Hlen.
      * exact HN.
      * lia.
      * reflexivity.
      * intros i d Hi Hge. rewrite list_lookup_insert_ne in Hi by lia.
        apply (Hfresh i d Hi). lia.
      * intros i d Hi. destruct (decide (i = x)) as [->|Hne].
        -- rewrite list_lookup_insert_eq in Hi by exact Hxlt.
           injection Hi as <-. simpl. lia.
        -- rewrite list_lookup_insert_ne in Hi by congruence.
           pose proof (Hrange i d Hi). lia.
      * intros i d Hi Hz. destruct (decide (i = x)) as [->|Hne].
        -- rewrite list_lookup_insert_eq in Hi by exact Hxlt.
           injection Hi as <-. simpl in Hz. lia.
        -- rewrite list_lookup_insert_ne in Hi by congruence.
           exact (Hlive i d Hi Hz).
      * intros i j di dj Hi Hj Heq Hnz.
        destruct (decide (i = x)) as [->|Hni];
          destruct (decide (j = x)) as [->|Hnj]; [reflexivity| | |].
        -- rewrite list_lookup_insert_eq in Hi by exact Hxlt.
           rewrite list_lookup_insert_ne in Hj by congruence.
           injection Hi as <-. simpl in Heq.
           pose proof (Hrange j dj Hj). lia.
        -- rewrite list_lookup_insert_eq in Hj by exact Hxlt.
           rewrite list_lookup_insert_ne in Hi by congruence.
           injection Hj as <-. simpl in Heq.
           pose proof (Hrange i di Hi). lia.
        -- rewrite list_lookup_insert_ne in Hi by congruence.
           rewrite list_lookup_insert_ne in Hj by congruence.
           exact (Hinj i j di dj Hi Hj Heq Hnz).
    + intros (c & d & Hc & Hd & Hr & Honly).
      assert (c <> x) as Hcx by (intros ->; congruence).
      exists c, d. split_and!; [exact Hc | | exact Hr |].
      * cbn. rewrite list_lookup_insert_ne by congruence. exact Hd.
      * intros j dj Hj Hrj. cbn in Hj.
        destruct (decide (j = x)) as [->|Hne].
        -- rewrite list_lookup_insert_eq in Hj by exact Hxlt.
           injection Hj as <-. discriminate.
        -- rewrite list_lookup_insert_ne in Hj by congruence.
           exact (Honly j dj Hj Hrj).
    + intros Hnone j dj Hj Hrj. cbn in Hj.
      destruct (decide (j = x)) as [->|Hne].
      * rewrite list_lookup_insert_eq in Hj by exact Hxlt.
        injection Hj as <-. discriminate.
      * rewrite list_lookup_insert_ne in Hj by congruence.
        exact (Hnone j dj Hj Hrj).
    + reflexivity.
    + reflexivity.
Qed.

(** ** The handlers keep the invariant of the loop *)

Lemma Kernel_Suspend_Task_calm (s s' : kernel) :
  Kernel_Suspend_Task s = Done s' ->
  Forall2 calm (Process s) (Process s') /\ same_counters s s'.
Proof.
  unfold Kernel_Suspend_Task. intros (c & _ & Hrun)%bind_Done.
  destruct (findProcessByPID _ _) as [t|].
  - apply bind_Done in Hrun as (p & Hp%deref_Done & Hrun).
    destruct (decide _) as [Hs|Hs]; injection Hrun as <-.
    + split; [apply Forall2_calm_refl | split_and!; reflexivity].
    + split; [|split_and!; reflexivity].
      cbn. apply (Forall2_calm_insert _ _ p); [exact Hp|].
      assert (state p = READY) as Hr
        by (destruct (decide (state p = READY)); [assumption | contradiction]).
      split_and!; [reflexivity | rewrite Hr; split; discriminate..].
  - injection Hrun as <-.
    split; [apply Forall2_calm_refl | split_and!; reflexivity].
Qed.

Lemma Kernel_Resume_Task_calm (s s' : kernel) :
  Kernel_Resume_Task s = Done s' ->
  Forall2 calm (Process s) (Process s') /\ same_counters s s'.
Proof.
  unfold Kernel_Resume_Task. intros (c & _ & Hrun)%bind_Done.
  destruct (findProcessByPID _ _) as [t|].
  - apply bind_Done in Hrun as (p & Hp%deref_Done & Hrun).
    destruct (decide _) as [Hs|Hs]; injection Hrun as <-.
    + split; [apply Forall2_calm_refl | split_and!; reflexivity].
    + split; [|split_and!; reflexivity].
      cbn. apply (Forall2_calm_insert _ _ p); [exact Hp|].
      assert (state p = SUSPENDED) as Hr
        by (destruct (decide (state p = SUSPENDED)); [assumption | contradiction]).
      split_and!; [reflexivity | rewrite Hr; split; discriminate..].
  - injection Hrun as <-.
    split; [apply Forall2_calm_refl | split_and!; reflexivity].
Qed.

Lemma handle_request_inv (fuel : nat) (ticks : nat -> nat) (s s' : kernel) :
  handle_request fuel ticks s = Done s' -> loop_inv s -> loop_inv s'.
Proof.
  unfold handle_request. intros (c & _ & Hrun)%bind_Done Hinv.
  assert (forall v, v <> RUNNING ->
            (cp_update (set_state v) s ≫= Dispatch fuel ticks) = Done s' ->
            loop_inv s') as Hgive.
  { intros v Hv (s1 & Hupd & Hdisp)%bind_Done.
    destruct (cp_update_state_inv v s s1 Hv Hupd Hinv) as (Ht1 & Hn1 & HA1).
    destruct (Dispatch_inv fuel ticks s1 s' Hdisp Ht1 Hn1) as (Ht' & Ho' & HA').
    split_and!; [exact Ht' | exact Ho' |].
    rewrite HA', HA1. apply Hinv. }
  repeat (destruct (decide _) as [?|?] in Hrun).
  - destruct Hinv as (Ht & Ho & Ha).
    destruct (Kernel_Create_Task_inv _ _ _ s s' Hrun Ht) as (Ht' & Ho' & _ & HA & _).
    split_and!; [exact Ht' | exact (Ho' Ho) | rewrite HA; exact Ha].
  - apply (Hgive DEAD); [discriminate | exact Hrun].
  - destruct (Kernel_Suspend_Task_calm s s' Hrun).
    eapply loop_inv_calm; eassumption.
  - destruct (Kernel_Resume_Task_calm s s' Hrun).
    eapply loop_inv_calm; eassumption.
  - apply (Hgive SLEEPING); [discriminate | exact Hrun].
  - apply (Hgive READY); [discriminate | exact Hrun].
  - injection Hrun as <-.
    apply (loop_inv_frame s); [exact Hinv | reflexivity | split_and!; reflexivity].
Qed.

Lemma serve_request_inv (fuel : nat) (ticks : nat -> nat) (s s' : kernel) :
  serve_request fuel ticks s = Done s' -> loop_inv s -> loop_inv s'.
Proof.
  unfold serve_request. intros (s1 & Hupd & Hrun)%bind_Done Hinv.
  apply (handle_request_inv fuel ticks s1 s' Hrun).
  eapply cp_update_loop_inv; [|exact Hupd|exact Hinv].
  intros d. apply set_sp_calm.
Qed.

Lemma resume_task_inv (s s' : kernel) :
  resume_task s = Done s' -> loop_inv s -> loop_inv s'.
Proof.
  unfold resume_task. intros (s1 & Hupd & Hrun)%bind_Done Hinv.
  apply bind_Done in Hrun as (c & _ & Hrun). injection Hrun as <-.
  apply (loop_inv_frame s1); [|reflexivity|split_and!; reflexivity].
  eapply cp_update_loop_inv; [|exact Hupd|exact Hinv].
  intros d. apply set_request_calm.
Qed.

Lemma api_request_inv (sc : syscall) (s s' : kernel) :
  api_request sc s = Done s' -> loop_inv s -> loop_inv s'.
Proof.
  intros Hrun Hinv.
  assert (loop_inv (Disable_Interrupt s)) as Hinv0
    by (apply (loop_inv_frame s);
        [exact Hinv | reflexivity | split_and!; reflexivity]).
  destruct sc; cbn [api_request] in Hrun;
    try (eapply cp_update_loop_inv; [|exact Hrun|exact Hinv0];
         intros d; apply calm_fields; reflexivity).
  injection Hrun as <-. exact Hinv0.
Qed.

Lemma run_task_inv (r : task_run) (s s' : kernel) :
  run_task r s = Done s' -> loop_inv s -> loop_inv s'.
Proof.
  unfold run_task. intros (s1 & Hreq & Hrun)%bind_Done Hinv.
  injection Hrun as <-.
  apply (loop_inv_frame s1); [|reflexivity|split_and!; reflexivity].
  apply (api_request_inv _ _ _ Hreq). apply serve_ticks_loop_inv, Hinv.
Qed.

Lemma loop_body_inv (fuel : nat) (ticks : nat -> nat) (r : task_run)
    (s s' : kernel) :
  loop_body fuel ticks r s = Done s' -> loop_inv s -> loop_inv s'.
Proof.
  unfold loop_body. intros (s1 & Hres & Hrun)%bind_Done Hinv.
  apply bind_Done in Hrun as (s2 & Htask & Hserve).
  eapply serve_request_inv; [exact Hserve|].
  eapply run_task_inv; [exact Htask|].
  eapply resume_task_inv; eassumption.
Qed.

(** ** Boot *)

Lemma OS_Init_boot_inv : boot_inv (OS_Init reset_state).
Proof.
  assert (forall i d, Process (OS_Init reset_state) !! i = Some d ->
            d = set_state DEAD PD_zero) as Hslot.
  { intros i d. cbn. rewrite list_lookup_fmap.
    destruct (replicate MAXTHREAD PD_zero !! i); simpl; congruence. }
  split_and!.
  - split; cbn.
    + rewrite length_fmap, length_replicate. reflexivity.
    + lia.
    + lia.
    + reflexivity.
    + intros i d Hi _. rewrite (Hslot i d Hi). split; reflexivity.
    + intros i d Hi. rewrite (Hslot i d Hi). simpl. lia.
    + intros i d Hi _. rewrite (Hslot i d Hi). reflexivity.
    + intros i j di dj Hi _ _ Hnz. rewrite (Hslot i di Hi) in Hnz.
      simpl in Hnz. contradiction.
  - intros j dj Hj. rewrite (Hslot j dj Hj). discriminate.
  - reflexivity.
  - reflexivity.
Qed.

Lemma booted_boot_inv (s : kernel) : booted s -> boot_inv s.
Proof.
  induction 1 as [|s f py a tsp v s' _ IH Hcreate].
  - exact OS_Init_boot_inv.
  - destruct IH as (Ht & Hn & Ha & Hi). unfold Task_Create in Hcreate.
    destruct (decide (KernelActive s <> 0)) as [?|_]; [contradiction|].
    apply bind_Done in Hcreate as (s1 & Hrun & Hres).
    injection Hres as _ <-.
    destruct (Kernel_Create_Task_inv _ _ _ s s1 Hrun Ht)
      as (Ht' & _ & Hn' & HA & HI).
    split_and!; [exact Ht' | exact (Hn' Hn) | congruence | congruence].
Qed.

(** Every state at the top of the request loop, and every state a task
    runs in, satisfies the invariant of the loop. *)
Lemma loop_top_inv (s : kernel) : loop_top s -> loop_inv s.
Proof.
  induction 1 as [s0 fuel ticks s Hboot Hstart Hact
                 | s fuel ticks r s' _ IH Hbody].
  - destruct (booted_boot_inv s0 Hboot) as (Ht & Hn & Ha & Hi).
    unfold OS_Start in Hstart.
    destruct (decide _) as [_|_]; [|injection Hstart as <-; contradiction].
    apply Dispatch_inv in Hstart as (Ht' & Ho' & _).
    + split_and!; assumption.
    + apply (table_inv_frame s0); [exact Ht | reflexivity | apply Ht | reflexivity..].
    + exact Hn.
  - eapply loop_body_inv; eassumption.
Qed.

Lemma in_task_inv (s : kernel) : in_task s -> loop_inv s.
Proof.
  intros [s0 s1 n Htop Hres]. apply serve_ticks_loop_inv.
  eapply resume_task_inv; [exact Hres|]. apply loop_top_inv, Htop.
Qed.

(** ** One RUNNING task *)

Lemma cp_update_eq (f : PD -> PD) (s : kernel) (c : nat) (d : PD) :
  Cp s = Some c -> Process s !! c = Some d ->
  cp_update f s = Done (store c (f d) s).
Proof.
  intros Hc Hd. apply cp_update_Done. exists c, d. auto.
Qed.

Lemma resume_task_total (s : kernel) :
  one_running s -> exists s', resume_task s = Done s'.
Proof.
  intros (c & d & Hc & Hd & _). unfold resume_task.
  rewrite (cp_update_eq _ s c d Hc Hd). cbn [mbind outcome_bind].
  rewrite (cp_get_eq _ c (set_request NONE d)).
  - eexists. reflexivity.
  - exact Hc.
  - cbn. apply list_lookup_insert_eq. eapply lookup_lt_Some, Hd.
Qed.

Lemma api_request_total (sc : syscall) (s : kernel) :
  one_running s -> exists s', api_request sc s = Done s'.
Proof.
  intros Hone.
  assert (one_running (Disable_Interrupt s)) as Hone0 by exact Hone.
  destruct sc; cbn [api_request];
    try (apply cp_update_total; exact Hone0).
  eexists. reflexivity.
Qed.

Lemma run_task_total (r : task_run) (s : kernel) :
  one_running s -> exists s', run_task r s = Done s'.
Proof.
  intros Hone. unfold run_task.
  destruct (api_request_total (run_call r) (serve_ticks (run_ticks r) s))
    as (s1 & Hs1); [apply serve_ticks_one_running, Hone|].
  rewrite Hs1. eexists. reflexivity.
Qed.

(** C4: in every state at the top of the request loop (that is, after a
    dispatch), and at every point from there to the handling of the next
    request (the task resumed, timer interrupts served while it runs, its
    API call made and the kernel entered, its stack pointer saved), exactly
    one slot is RUNNING and [Cp] points at it.  None of these steps can
    fail, and whatever request the handler then finds, CREATE, TERMINATE,
    SUSPEND, RESUME, SLEEP, YIELD, NONE or any other value, the state it
    returns is again a state at the top of the loop with exactly one
    RUNNING slot. *)
Theorem exactly_one_running (s : kernel) :
  loop_top s ->
  one_running s /\
  exists s1, resume_task s = Done s1 /\ one_running s1 /\
    forall r,
      one_running (serve_ticks (run_ticks r) s1) /\
      exists s2, run_task r s1 = Done s2 /\ one_running s2 /\
        exists s3, cp_update (set_sp (CurrentSp s2)) s2 = Done s3 /\
          one_running s3 /\
          forall fuel ticks s',
            handle_request fuel ticks s3 = Done s' ->
            one_running s' /\ loop_top s'.
Proof.
  intros Htop. pose proof (loop_top_inv s Htop) as Hinv.
  split; [apply Hinv|].
  destruct (resume_task_total s) as (s1 & Hs1); [apply Hinv|].
  pose proof (resume_task_inv s s1 Hs1 Hinv) as Hinv1.
  exists s1. split_and!; [exact Hs1 | apply Hinv1 |].
  intros r. split; [apply serve_ticks_one_running, Hinv1|].
  destruct (run_task_total r s1) as (s2 & Hs2); [apply Hinv1|].
  pose proof (run_task_inv r s1 s2 Hs2 Hinv1) as Hinv2.
  exists s2. split_and!; [exact Hs2 | apply Hinv2 |].
  destruct (cp_update_total (set_sp (CurrentSp s2)) s2) as (s3 & Hs3);
    [apply Hinv2|].
  assert (loop_inv s3) as Hinv3.
  { eapply cp_update_loop_inv; [|exact Hs3|exact Hinv2].
    intros d. apply set_sp_calm. }
  exists s3. split_and!; [exact Hs3 | apply Hinv3 |].
  intros fuel ticks s' Hs'.
  assert (loop_top s') as Htop'.
  { apply (loop_top_next s fuel ticks r s' Htop).
    unfold loop_body. rewrite Hs1. cbn [mbind outcome_bind].
    rewrite Hs2. cbn [mbind outcome_bind].
    unfold serve_request. rewrite Hs3. exact Hs'. }
  split; [|exact Htop']. apply (loop_top_inv s' Htop').
Qed.

(** The handlers that do not dispatch always return. *)
Lemma Kernel_Suspend_Task_total (s : kernel) :
  one_running s -> exists s', Kernel_Suspend_Task s = Done s'.
Proof.
  intros (c & d & Hc & Hd & _). unfold Kernel_Suspend_Task.
  rewrite (cp_get_eq s c d Hc Hd). cbn [mbind outcome_bind].
  destruct (findProcessByPID _ _) as [t|] eqn:Hf; [|eexists; reflexivity].
  apply findProcessByPID_Some in Hf as (p & Hp & _).
  unfold deref. rewrite Hp. cbn [mbind outcome_bind].
  destruct (decide _); eexists; reflexivity.
Qed.

Lemma Kernel_Resume_Task_total (s : kernel) :
  one_running s -> exists s', Kernel_Resume_Task s = Done s'.
Proof.
  intros (c & d & Hc & Hd & _). unfold Kernel_Resume_Task.
  rewrite (cp_get_eq s c d Hc Hd). cbn [mbind outcome_bind].
  destruct (findProcessByPID _ _) as [t|] eqn:Hf; [|eexists; reflexivity].
  apply findProcessByPID_Some in Hf as (p & Hp & _).
  unfold deref. rewrite Hp. cbn [mbind outcome_bind].
  destruct (decide _); eexists; reflexivity.
Qed.

(** ** Creation requested by a running task *)

Lemma Kernel_Create_Task_keeps (f py a : Z) (s s' : kernel) (c : nat) (d : PD) :
  Kernel_Create_Task f py a s = Done s' -> table_inv s ->
  Process s !! c = Some d -> state d <> DEAD ->
  Process s' !! c = Some d /\ Cp s' = Cp s.
Proof.
  intros Hrun Hinv Hd Hlive.
  destruct (decide (Tasks s = Z.of_nat MAXTHREAD)) as [HT|HT].
  - rewrite Kernel_Create_Task_full in Hrun by exact HT. injection Hrun as <-.
    split; [exact Hd | reflexivity].
  - destruct (table_inv_first_dead s Hinv HT) as (x & p & Hx & _).
    rewrite (Kernel_Create_Task_alloc f py a s x p HT Hx) in Hrun.
    injection Hrun as <-. split; [|reflexivity].
    cbn. rewrite list_lookup_insert_ne; [exact Hd|].
    intros ->. destruct Hx as (Hx & Hdead & _). congruence.
Qed.

Lemma loop_inv_pid_small (s : kernel) (i : nat) (d : PD) :
  table_inv s -> Process s !! i = Some d -> 0 <= pid d <= 32767.
Proof.
  intros Hinv Hd. pose proof (inv_pid_range s Hinv i d Hd).
  pose proof (inv_last_PID s Hinv). pose proof (inv_Tasks s Hinv). lia.
Qed.

(** C9: when the task that runs under the active kernel calls
    [Task_Create(f, py, arg)], the call returns, and afterwards the TCB of
    the caller itself has [code = f], [pri = py] and [arg = arg] (its PID
    and state are unchanged).  If its entry point was not [f], that entry
    point is lost: [findPIDByFuncPtr] on it stops at another slot or finds
    none, and does not return the PID of the caller. *)
Theorem Task_Create_overwrites_caller
    (s : kernel) (f py a : Z) (tsp : stackptr) (c : nat) (d : PD) :
  in_task s -> Cp s = Some c -> Process s !! c = Some d ->
  exists v s' d',
    Task_Create f py a tsp s = Done (v, s') /\
    Cp s' = Some c /\ Process s' !! c = Some d' /\
    code d' = f /\ pri d' = py /\ arg d' = a /\
    pid d' = pid d /\ state d' = state d /\
    (code d <> f ->
       findSlotByFuncPtr (Process s') (code d) <> Some c /\
       findPIDByFuncPtr (Process s') (code d) <> pid d').
Proof.
  intros Htask Hc Hd. pose proof (in_task_inv s Htask) as Hinv.
  assert (state d = RUNNING) as Hrun.
  { destruct Hinv as (_ & (c' & d' & Hc' & Hd' & Hr & _) & _). congruence. }
  assert (c < length (Process s))%nat as Hclt by (eapply lookup_lt_Some, Hd).
  (* the stores of the API function *)
  pose (d1 := set_code f (set_request CREATE (set_arg a (set_pri py d)))).
  pose (s1 := store c d1 (Disable_Interrupt s)).
  assert (api_request (SysCreate f py a) s = Done s1) as H1
    by (apply (cp_update_eq
                 (fun d0 => set_code f (set_request CREATE
                              (set_arg a (set_pri py d0))))
                 (Disable_Interrupt s) c d); assumption).
  pose proof (api_request_inv _ _ _ H1 Hinv) as Hinv1.
  (* kernel entry, and the stack pointer saved *)
  pose (d2 := set_sp tsp d1).
  pose (s2 := store c d2 (Enter_Kernel tsp s1)).
  assert (Process s1 !! c = Some d1) as Hd1
    by (cbn; apply list_lookup_insert_eq; exact Hclt).
  assert (cp_update (set_sp tsp) (Enter_Kernel tsp s1) = Done s2) as H2
    by (apply (cp_update_eq (set_sp tsp) _ c d1); [exact Hc | exact Hd1]).
  assert (loop_inv s2) as Hinv2.
  { eapply cp_update_loop_inv; [|exact H2|].
    - intros d0. apply set_sp_calm.
    - apply (loop_inv_frame s1);
        [exact Hinv1 | reflexivity | split_and!; reflexivity]. }
  assert (Process s2 !! c = Some d2) as Hd2.
  { cbn. apply list_lookup_insert_eq. rewrite length_insert. exact Hclt. }
  (* the CREATE branch of the switch *)
  destruct (Kernel_Create_Task_total f py a s2) as (s3 & H3); [apply Hinv2|].
  assert (handle_request 0 (fun _ => 0%nat) s2 = Done s3) as H3'.
  { unfold handle_request. rewrite (cp_get_eq s2 c d2 Hc Hd2).
    cbn [mbind outcome_bind].
    destruct (decide (request d2 = CREATE)) as [_|Hne];
      [exact H3 | exfalso; apply Hne; reflexivity]. }
  pose proof (handle_request_inv _ _ _ _ H3' Hinv2) as Hinv3.
  destruct (Kernel_Create_Task_keeps f py a s2 s3 c d2 H3) as (Hd3 & Hc3);
    [apply Hinv2 | exact Hd2 | cbn; rewrite Hrun; discriminate |].
  (* the caller is resumed *)
  pose (d4 := set_request NONE d2).
  pose (s4 := Exit_Kernel (set_CurrentSp (sp d4) (store c d4 s3))).
  assert (Cp s3 = Some c) as Hc3' by (rewrite Hc3; exact Hc).
  assert (c < length (Process s3))%nat as Hclt3 by (eapply lookup_lt_Some, Hd3).
  assert (resume_task s3 = Done s4) as H4.
  { unfold resume_task. rewrite (cp_update_eq (set_request NONE) s3 c d2 Hc3' Hd3).
    cbn [mbind outcome_bind].
    rewrite (cp_get_eq _ c d4); [reflexivity | exact Hc3' |].
    cbn. apply list_lookup_insert_eq. exact Hclt3. }
  pose proof (resume_task_inv _ _ H4 Hinv3) as Hinv4.
  assert (Process s4 !! c = Some d4) as Hd4
    by (cbn; apply list_lookup_insert_eq; exact Hclt3).
  exists (Task_Create_result s4), s4, d4. split_and!; try reflexivity.
  - unfold Task_Create.
    destruct (decide (KernelActive s <> 0)) as [_|Hoff];
      [|exfalso; apply Hoff, Hinv].
    rewrite H1. cbn [mbind outcome_bind].
    unfold serve_request. change (CurrentSp (Enter_Kernel tsp s1)) with tsp.
    rewrite H2. cbn [mbind outcome_bind]. rewrite H3'.
    cbn [mbind outcome_bind]. rewrite H4. reflexivity.
  - exact Hc3'.
  - exact Hd4.
  - intros Hlost.
    destruct Hinv4 as (Ht4 & _ & _).
    assert (pid d4 <> 0) as Hnz.
    { intros Hz. pose proof (inv_pid_live s4 Ht4 c d4 Hd4 Hz) as Hdead.
      cbn in Hdead. congruence. }
    split.
    + unfold findSlotByFuncPtr. rewrite fmap_Some.
      intros ([j dj] & (Hj & Hcode & _)%list_find_Some & Heq).
      simpl in Heq. subst j. rewrite Hd4 in Hj. injection Hj as <-.
      apply Hlost. symmetry. exact Hcode.
    + unfold findPIDByFuncPtr.
      destruct (list_find _ _) as [[j dj]|] eqn:Hfind.
      * apply list_find_Some in Hfind as (Hj & Hcode & _).
        rewrite to_int_small
          by (pose proof (loop_inv_pid_small s4 j dj Ht4 Hj); lia).
        intros Heq.
        assert (j = c) as ->
          by (apply (inv_pid_inj s4 Ht4 j c dj d4 Hj Hd4 Heq); congruence).
        rewrite Hd4 in Hj. injection Hj as <-.
        apply Hlost. symmetry. exact Hcode.
      * pose proof (loop_inv_pid_small s4 c d4 Ht4 Hd4). lia.
Qed.

(** ** Lookups that stop at DEAD slots *)

Lemma findProcessByPID_same_pids (tbl tbl' : list PD) (p : Z) :
  pid <$> tbl = pid <$> tbl' ->
  findProcessByPID tbl p = findProcessByPID tbl' p.
Proof. intros H. rewrite !findProcessByPID_pids, H. reflexivity. Qed.

Lemma OS_Init_slots (s0 : kernel) (i : nat) (d : PD) :
  Process (OS_Init s0) !! i = Some d -> pid d = 0 /\ state d = DEAD.
Proof.
  cbn. rewrite list_lookup_fmap.
  destruct (Process s0 !! i); simpl; [|discriminate].
  intros [= <-]. split; reflexivity.
Qed.

Lemma pid_target_exists (tbl : list PD) (q : Z) (i : nat) (d : PD) :
  tbl !! i = Some d -> pid d = to_uint q ->
  exists t p, pid_target tbl q t p.
Proof.
  intros Hi Hp. destruct (findProcessByPID tbl q) as [t|] eqn:Hf.
  - apply findProcessByPID_Some in Hf as (p & Hf). exists t, p. exact Hf.
  - exfalso. rewrite findProcessByPID_None in Hf. exact (Hf i d Hi Hp).
Qed.

(** In a reachable table the PID of a used slot finds that very slot,
    whatever the state of the slot. *)
Lemma table_inv_pid_target (s : kernel) (i : nat) (d : PD) :
  table_inv s -> Process s !! i = Some d -> pid d <> 0 ->
  pid_target (Process s) (pid d) i d.
Proof.
  intros Hinv Hd Hnz.
  assert (to_uint (pid d) = pid d) as Hu
    by (apply to_uint_small; pose proof (loop_inv_pid_small s i d Hinv Hd); lia).
  split_and!; [exact Hd | congruence |].
  intros j dj Hj Hlt Heq. rewrite Hu in Heq.
  assert (j = i) by (apply (inv_pid_inj s Hinv j i dj d Hj Hd Heq); congruence).
  lia.
Qed.

(** C10: [findProcessByPID] reads the [pid] fields only (two tables with
    the same PIDs give the same answer) and [OS_Init] leaves every slot
    with PID 0.  So, while a task runs under the active kernel: if fewer
    than MAXTHREAD tasks have been created, some slot still has PID 0; if
    some slot has PID 0, [Task_Suspend(0)] has its lookup stop at a DEAD
    slot and the kernel answers SUSPEND_NONRUNNING_TASK_ERR, not
    PID_NOT_FOUND_ERR, changing the state of no slot; and the PID of a DEAD
    slot that was once used still finds that slot. *)
Theorem pid_lookup_ignores_state (s : kernel) (tsp : stackptr) :
  in_task s ->
  (forall tbl tbl' p, pid <$> tbl = pid <$> tbl' ->
     findProcessByPID tbl p = findProcessByPID tbl' p) /\
  (forall s0 i d, Process (OS_Init s0) !! i = Some d ->
     pid d = 0 /\ state d = DEAD) /\
  (Tasks s < Z.of_nat MAXTHREAD ->
     exists i d, Process s !! i = Some d /\ pid d = 0) /\
  ((exists i d, Process s !! i = Some d /\ pid d = 0) ->
     exists s1 t p,
       api_request (SysSuspend 0) s = Done s1 /\
       pid_target (Process s1) 0 t p /\ state p = DEAD /\
       forall fuel ticks, exists s2,
         serve_request fuel ticks (Enter_Kernel tsp s1) = Done s2 /\
         err s2 = SUSPEND_NONRUNNING_TASK_ERR /\
         state <$> Process s2 = state <$> Process s) /\
  (forall i d, Process s !! i = Some d -> state d = DEAD -> pid d <> 0 ->
     findProcessByPID (Process s) (pid d) = Some i).
Proof.
  intros Htask. pose proof (in_task_inv s Htask) as Hinv.
  split_and!.
  - exact findProcessByPID_same_pids.
  - exact OS_Init_slots.
  - intros Hfew. destruct Hinv as (Ht & _).
    pose proof (inv_Tasks s Ht) as HTr.
    destruct (lookup_lt_is_Some_2 (Process s) (Z.to_nat (Tasks s)))
      as [d0 Hd0]; [rewrite (inv_length s Ht); lia|].
    exists (Z.to_nat (Tasks s)), d0. split; [exact Hd0|].
    apply (inv_fresh s Ht _ d0 Hd0). lia.
  - intros (i & d & Hi & Hz).
    destruct Hinv as (Ht & (c & cd & Hc & Hcd & Hrun & Honly) & Hact).
    assert (c < length (Process s))%nat as Hclt by (eapply lookup_lt_Some, Hcd).
    (* the stores of [Task_Suspend] *)
    pose (d1 := set_request_arg (to_int 0) (set_request SUSPEND cd)).
    pose (s1 := store c d1 (Disable_Interrupt s)).
    assert (api_request (SysSuspend 0) s = Done s1) as H1
      by (apply (cp_update_eq
                   (fun d0 => set_request_arg (to_int 0) (set_request SUSPEND d0))
                   (Disable_Interrupt s) c cd); assumption).
    assert (forall j dj, Process s1 !! j = Some dj ->
              exists dj0, Process s !! j = Some dj0 /\
                          pid dj = pid dj0 /\ state dj = state dj0) as Hback.
    { intros j dj Hj. cbn in Hj. destruct (decide (j = c)) as [->|Hne].
      - rewrite list_lookup_insert_eq in Hj by exact Hclt.
        injection Hj as <-. exists cd. auto.
      - rewrite list_lookup_insert_ne in Hj by congruence. exists dj. auto. }
    assert (exists d', Process s1 !! i = Some d' /\ pid d' = to_uint 0)
      as (d' & Hi' & Hz').
    { cbn. destruct (decide (i = c)) as [->|Hne].
      - exists d1. split; [apply list_lookup_insert_eq; exact Hclt|].
        rewrite Hi in Hcd. injection Hcd as <-. exact Hz.
      - exists d. split; [|exact Hz].
        rewrite list_lookup_insert_ne by congruence. exact Hi. }
    destruct (pid_target_exists (Process s1) 0 i d' Hi' Hz') as (t & p & Htp).
    assert (state p = DEAD) as Hdead.
    { destruct Htp as (Htl & Hp0 & _).
      destruct (Hback t p Htl) as (p0 & Hp0l & Hpid & Hst).
      rewrite Hst. apply (inv_pid_live s Ht t p0 Hp0l).
      rewrite <- Hpid. exact Hp0. }
    exists s1, t, p. split_and!; [exact H1 | exact Htp | exact Hdead |].
    intros fuel ticks.
    (* kernel entry: the stack pointer is saved, then the SUSPEND branch *)
    pose (d2 := set_sp tsp d1).
    pose (s2 := store c d2 (Enter_Kernel tsp s1)).
    assert (Process s1 !! c = Some d1) as Hd1
      by (cbn; apply list_lookup_insert_eq; exact Hclt).
    assert (cp_update (set_sp tsp) (Enter_Kernel tsp s1) = Done s2) as H2
      by (apply (cp_update_eq (set_sp tsp) _ c d1); [exact Hc | exact Hd1]).
    assert (Process s2 !! c = Some d2) as Hd2
      by (cbn; apply list_lookup_insert_eq; rewrite length_insert; exact Hclt).
    assert (exists p2, pid_target (Process s2) (request_arg d2) t p2 /\
                       state p2 = DEAD) as (p2 & Htp2 & Hdead2).
    { destruct Htp as (Htl & Hp0 & Hmin).
      destruct (decide (t = c)) as [->|Hne].
      - assert (p = d1) as -> by congruence.
        exists d2. split; [|exact Hdead].
        split_and!; [exact Hd2 | exact Hp0 |].
        intros j dj Hj Hlt. cbn in Hj.
        rewrite list_lookup_insert_ne in Hj by lia.
        apply (Hmin j dj); [exact Hj | exact Hlt].
      - exists p. split; [|exact Hdead].
        split_and!.
        + cbn. rewrite list_lookup_insert_ne by congruence. exact Htl.
        + exact Hp0.
        + intros j dj Hj Hlt. destruct (decide (j = c)) as [->|Hnj].
          * rewrite Hd2 in Hj. injection Hj as <-. cbn.
            apply (Hmin c d1 Hd1 Hlt).
          * cbn in Hj. rewrite list_lookup_insert_ne in Hj by congruence.
            apply (Hmin j dj); [exact Hj | exact Hlt]. }
    exists (set_err SUSPEND_NONRUNNING_TASK_ERR s2). split_and!.
    + unfold serve_request. change (CurrentSp (Enter_Kernel tsp s1)) with tsp.
      rewrite H2. cbn [mbind outcome_bind].
      unfold handle_request. rewrite (cp_get_eq s2 c d2 Hc Hd2).
      cbn [mbind outcome_bind].
      destruct (decide (request d2 = CREATE)) as [Hq|_]; [discriminate Hq|].
      destruct (decide (request d2 = TERMINATE)) as [Hq|_]; [discriminate Hq|].
      destruct (decide (request d2 = SUSPEND)) as [_|Hq];
        [|exfalso; apply Hq; reflexivity].
      apply (Kernel_Suspend_Task_refused s2 c t d2 p2 Hc Hd2 Htp2).
      rewrite Hdead2. discriminate.
    + reflexivity.
    + cbn. rewrite !list_fmap_insert. cbn.
      rewrite list_insert_insert_eq. apply list_insert_id.
      rewrite list_lookup_fmap, Hcd. reflexivity.
  - intros i d Hi Hdead Hnz. destruct Hinv as (Ht & _).
    apply (pid_target_lookup _ _ i d).
    apply table_inv_pid_target; assumption.
Qed.

(** ** The guard of task creation *)

(** In a reachable table with no DEAD slot, [Tasks] has reached [MAXTHREAD]:
    creation sets MAX_PROCESS_ERR and changes nothing else. *)
Lemma Kernel_Create_Task_no_dead_slot (f py a : Z) (s : kernel) :
  table_inv s ->
  (forall j dj, Process s !! j = Some dj -> state dj <> DEAD) ->
  Kernel_Create_Task f py a s = Done (set_err MAX_PROCESS_ERR s).
Proof.
  intros Hinv Hnone. apply Kernel_Create_Task_full.
  destruct (decide (Tasks s = Z.of_nat MAXTHREAD)) as [HT|HT]; [exact HT|].
  destruct (table_inv_first_dead s Hinv HT) as (x & p & (Hx & Hdead & _) & _).
  exfalso. exact (Hnone x p Hx Hdead).
Qed.

(** The guard reads [Tasks], which no handler ever decrements. *)
Lemma Tasks_never_decreases (fuel : nat) (ticks : nat -> nat) (r : task_run)
    (s s' : kernel) :
  loop_inv s -> loop_body fuel ticks r s = Done s' -> Tasks s <= Tasks s'.
Proof.
  intros Hinv Hbody.
  assert (forall s0 s1, resume_task s0 = Done s1 -> Tasks s1 = Tasks s0) as Hres.
  { intros s0 s1 (s2 & (c & d & _ & _ & ->)%cp_update_Done & Hrun)%bind_Done.
    apply bind_Done in Hrun as (c' & _ & Hrun). injection Hrun as <-.
    reflexivity. }
  assert (forall s0 s1, run_task r s0 = Done s1 -> Tasks s1 = Tasks s0) as Htask.
  { intros s0 s1 (s2 & Hreq & Hrun)%bind_Done. injection Hrun as <-.
    destruct (serve_ticks_counters (run_ticks r) s0) as (_ & _ & _ & HT & _).
    rewrite <- HT. clear HT.
    destruct (run_call r); cbn [api_request] in Hreq;
      try (apply cp_update_Done in Hreq as (c & d & _ & _ & ->); reflexivity).
    injection Hreq as <-. reflexivity. }
  assert (forall v s0 s1, v <> RUNNING -> loop_inv s0 ->
            (cp_update (set_state v) s0 ≫= Dispatch fuel ticks) = Done s1 ->
            Tasks s1 = Tasks s0) as Hgive.
  { intros v s0 s1 Hv Hinv0 (s2 & Hupd & Hdisp)%bind_Done.
    destruct (cp_update_state_inv v s0 s2 Hv Hupd Hinv0) as (Ht2 & Hn2 & _).
    apply cp_update_Done in Hupd as (c & d & _ & _ & ->).
    unfold Dispatch in Hdisp.
    apply bind_Done in Hdisp as (s3 & Hloop & Hsel).
    assert (forall n tk i sa sb, Dispatch_loop n tk i sa = Done sb ->
              Tasks sb = Tasks sa) as Hscan.
    { induction n as [|n IH]; intros tk i sa sb Hl; [discriminate|].
      cbn [Dispatch_loop] in Hl.
      apply bind_Done in Hl as (d0 & _ & Hl).
      destruct (decide (state d0 <> READY)).
      - apply IH in Hl. rewrite Hl.
        match goal with
        | |- Tasks (serve_ticks ?k ?st) = _ =>
            destruct (serve_ticks_counters k st) as (_ & _ & _ & -> & _)
        end.
        destruct (decide _); reflexivity.
      - injection Hl as <-.
        destruct (serve_ticks_counters (tk 0%nat) sa) as (_ & _ & _ & -> & _).
        reflexivity. }
    apply Hscan in Hloop. unfold Dispatch_select in Hsel. cbn zeta in Hsel.
    apply bind_Done in Hsel as (d0 & _ & Hsel). injection Hsel as <-.
    cbn. exact Hloop. }
  unfold loop_body in Hbody.
  apply bind_Done in Hbody as (s1 & H1 & Hbody).
  apply bind_Done in Hbody as (s2 & H2 & Hbody).
  pose proof (resume_task_inv s s1 H1 Hinv) as Hinv1.
  pose proof (run_task_inv r s1 s2 H2 Hinv1) as Hinv2.
  rewrite <- (Hres s s1 H1), <- (Htask s1 s2 H2).
  unfold serve_request in Hbody.
  apply bind_Done in Hbody as (s3 & H3 & Hbody).
  assert (loop_inv s3) as Hinv3.
  { eapply cp_update_loop_inv; [|exact H3|exact Hinv2].
    intros d. apply set_sp_calm. }
  apply cp_update_Done in H3 as (c & d & _ & _ & Hs3).
  assert (Tasks s3 = Tasks s2) as <- by (rewrite Hs3; reflexivity).
  clear Hs3. unfold handle_request in Hbody.
  apply bind_Done in Hbody as (cd & _ & Hbody).
  repeat (destruct (decide _) as [?|?] in Hbody).
  - destruct (decide (Tasks s3 = Z.of_nat MAXTHREAD)) as [HT|HT].
    + rewrite Kernel_Create_Task_full in Hbody by exact HT.
      injection Hbody as <-. cbn. lia.
    + destruct Hinv3 as (Ht3 & _).
      destruct (table_inv_first_dead s3 Ht3 HT) as (x & p & Hx & _).
      rewrite (Kernel_Create_Task_alloc _ _ _ s3 x p HT Hx) in Hbody.
      injection Hbody as <-. cbn.
      pose proof (inv_Tasks s3 Ht3). rewrite to_uint_small by lia. lia.
  - rewrite (Hgive DEAD s3 s'); [lia | discriminate | exact Hinv3 | exact Hbody].
  - destruct (Kernel_Suspend_Task_calm s3 s' Hbody) as (_ & _ & _ & _ & -> & _).
    lia.
  - destruct (Kernel_Resume_Task_calm s3 s' Hbody) as (_ & _ & _ & _ & -> & _).
    lia.
  - rewrite (Hgive SLEEPING s3 s'); [lia | discriminate | exact Hinv3 | exact Hbody].
  - rewrite (Hgive READY s3 s'); [lia | discriminate | exact Hinv3 | exact Hbody].
  - injection Hbody as <-. cbn. lia.
Qed.

(** The creation that finds every slot taken: before [OS_Start],
    [Task_Create] then returns PID 0 with MAX_PROCESS_ERR and changes
    nothing else. *)
Lemma Task_Create_boot_full (f py a : Z) (tsp : stackptr) (s : kernel) :
  booted s ->
  (forall j dj, Process s !! j = Some dj -> state dj <> DEAD) ->
  Task_Create f py a tsp s = Done (0, set_err MAX_PROCESS_ERR s).
Proof.
  intros Hboot Hnone.
  destruct (booted_boot_inv s Hboot) as (Ht & _ & Ha & _).
  unfold Task_Create.
  destruct (decide (KernelActive s <> 0)) as [?|_]; [contradiction|].
  rewrite (Kernel_Create_Task_no_dead_slot f py a s Ht Hnone).
  reflexivity.
Qed.

(** * Further properties of the kernel *)

(** ** The API before and after [OS_Start] *)

Lemma booted_inactive (s : kernel) : booted s -> KernelActive s = 0.
Proof. intros Hs. apply (booted_boot_inv s Hs). Qed.

Lemma in_task_request_NONE (s : kernel) (c : nat) (d : PD) :
  in_task s -> Cp s = Some c -> Process s !! c = Some d -> request d = NONE.
Proof.
  intros [s0 s1 n Htop Hres] Hc Hd.
  pose proof (resume_task_inv s0 s1 Hres (loop_top_inv s0 Htop)) as Hinv1.
  destruct Hinv1 as (_ & (c1 & d1 & Hc1 & Hd1 & Hr1 & _) & _).
  assert (request d1 = NONE) as Hreq.
  { unfold resume_task in Hres.
    apply bind_Done in Hres as (s2 & (c2 & d2 & Hc2 & Hd2 & ->)%cp_update_Done & Hres).
    apply bind_Done in Hres as (d3 & _ & Hres). injection Hres as <-.
    cbn in Hc1, Hd1. assert (c1 = c2) as -> by congruence.
    rewrite list_lookup_insert_eq in Hd1 by (eapply lookup_lt_Some, Hd2).
    injection Hd1 as <-. reflexivity. }
  destruct (serve_ticks_counters n s1) as (HCp & _).
  assert (c = c1) as -> by congruence.
  rewrite (serve_ticks_awake n s1 c1 d1 Hd1) in Hd
    by (rewrite Hr1; discriminate).
  injection Hd as <-. exact Hreq.
Qed.

(** X1: before [OS_Start] each of [Task_Terminate], [Task_Yield],
    [Task_Suspend], [Task_Resume] and [Task_Sleep] returns at once: [err]
    is then KERNEL_INACTIVE_ERR and nothing else has changed.  Called by
    the task that runs under the active kernel, each of them reaches
    [Enter_Kernel] instead: interrupts are then disabled, [err] is
    untouched, the descriptor of the caller holds the request code of the
    call and, as request argument, the PID converted to [int] (suspend,
    resume), the tick count (sleep) or what it held before (terminate,
    yield); the caller is still current and RUNNING, with its PID and stack
    pointer, and no other slot has changed. *)
Theorem api_inactive_or_entering (s : kernel) (p t : Z) :
  (booted s ->
     forall r,
       r ∈ [Task_Terminate s; Task_Yield s; Task_Suspend p s;
            Task_Resume p s; Task_Sleep t s] ->
       exists s', r = Returned s' /\
         err s' = KERNEL_INACTIVE_ERR /\ Process s' = Process s /\
         s' = set_err KERNEL_INACTIVE_ERR s) /\
  (in_task s ->
     exists c d, Cp s = Some c /\ Process s !! c = Some d /\
       forall r q a,
         (r, q, a) ∈ [(Task_Terminate s, TERMINATE, request_arg d);
                      (Task_Yield s, YIELD, request_arg d);
                      (Task_Suspend p s, SUSPEND, to_int p);
                      (Task_Resume p s, RESUME, to_int p);
                      (Task_Sleep t s, SLEEP, t)] ->
         exists s' d', r = Entering s' /\
           IntEnabled s' = false /\ err s' = err s /\ Cp s' = Some c /\
           Process s' !! c = Some d' /\
           request d' = q /\ request_arg d' = a /\
           pid d' = pid d /\ state d' = RUNNING /\ sp d' = sp d /\
           forall j, j <> c -> Process s' !! j = Process s !! j).
Proof.
  split.
  - intros Hboot r Hin. pose proof (booted_inactive s Hboot) as Hoff.
    unfold Task_Terminate, Task_Yield, Task_Suspend, Task_Resume, Task_Sleep
      in Hin.
    destruct (decide (KernelActive s = 0)) as [_|Hon]; [|contradiction].
    exists (set_err KERNEL_INACTIVE_ERR s).
    repeat (apply elem_of_cons in Hin as [->|Hin];
            [split_and!; reflexivity|]).
    apply elem_of_nil in Hin. contradiction.
  - intros Htask. destruct (in_task_inv s Htask) as (_ & Hone & Hon).
    destruct Hone as (c & d & Hc & Hd & Hrun & _).
    assert (c < length (Process s))%nat as Hclt
      by (eapply lookup_lt_Some, Hd).
    exists c, d. split_and!; [exact Hc | exact Hd |]. intros r q a Hin.
    unfold Task_Terminate, Task_Yield, Task_Suspend, Task_Resume, Task_Sleep
      in Hin.
    destruct (decide (KernelActive s = 0)) as [Hoff|_]; [contradiction|].
    cbn [api_request] in Hin.
    assert (forall f, entering (cp_update f (Disable_Interrupt s)) =
                      Entering (store c (f d) (Disable_Interrupt s))) as He.
    { intros f. rewrite (cp_update_eq f (Disable_Interrupt s) c d Hc Hd).
      reflexivity. }
    rewrite !He in Hin.
    assert (forall d0,
              r = Entering (store c d0 (Disable_Interrupt s)) ->
              request d0 = q -> request_arg d0 = a ->
              pid d0 = pid d -> state d0 = state d -> sp d0 = sp d ->
              exists s' d', r = Entering s' /\
                IntEnabled s' = false /\ err s' = err s /\ Cp s' = Some c /\
                Process s' !! c = Some d' /\
                request d' = q /\ request_arg d' = a /\
                pid d' = pid d /\ state d' = RUNNING /\ sp d' = sp d /\
                forall j, j <> c -> Process s' !! j = Process s !! j)
      as Hcase.
    { intros d0 -> Hq Ha Hp Hs Hsp.
      exists (store c d0 (Disable_Interrupt s)), d0.
      split_and!; try reflexivity; try assumption.
      - cbn. apply list_lookup_insert_eq. exact Hclt.
      - rewrite Hs. exact Hrun.
      - intros j Hne. cbn. apply list_lookup_insert_ne. congruence. }
    repeat (apply elem_of_cons in Hin as [Heq|Hin];
            [injection Heq as -> -> ->; eapply Hcase; reflexivity|]).
    apply elem_of_nil in Hin. contradiction.
Qed.

(** ** Creation from [main] *)

Lemma boot_first_dead (s : kernel) :
  table_inv s -> boot_shape s -> Tasks s <> Z.of_nat MAXTHREAD ->
  exists p, first_dead_slot (Process s) (Z.to_nat (Tasks s)) p.
Proof.
  intros Hinv (_ & _ & Hused) HT.
  pose proof (inv_Tasks s Hinv) as HTr.
  destruct (lookup_lt_is_Some_2 (Process s) (Z.to_nat (Tasks s)))
    as [p Hp]; [rewrite (inv_length s Hinv); lia|].
  exists p. split_and!.
  - exact Hp.
  - apply (inv_fresh s Hinv _ p Hp). lia.
  - intros j dj Hj Hlt. destruct (Hused j dj Hj) as (Hr & _); [lia|].
    rewrite Hr. discriminate.
Qed.

Lemma booted_boot_shape (s : kernel) : booted s -> boot_shape s.
Proof.
  induction 1 as [|s f py a tsp v s' Hboot IH Hcreate].
  - split_and!; [reflexivity..|]. intros i d _ Hlt. cbn in Hlt. lia.
  - pose proof (booted_boot_inv s Hboot) as (Ht & _ & Ha & _).
    unfold Task_Create in Hcreate.
    destruct (decide (KernelActive s <> 0)) as [?|_]; [contradiction|].
    apply bind_Done in Hcreate as (s1 & Hrun & Hres). injection Hres as _ <-.
    destruct (decide (Tasks s = Z.of_nat MAXTHREAD)) as [HT|HT].
    + rewrite Kernel_Create_Task_full in Hrun by exact HT.
      injection Hrun as <-. exact IH.
    + destruct (boot_first_dead s Ht IH HT) as (p & Hx).
      rewrite (Kernel_Create_Task_alloc f py a s _ p HT Hx) in Hrun.
      injection Hrun as <-. destruct IH as (HN & HCp & Hused).
      pose proof (inv_Tasks s Ht) as HTr. pose proof (inv_last_PID s Ht) as HL.
      split_and!; [exact HN | exact HCp |].
      intros i d. cbn. rewrite HL, !to_uint_small by lia. intros Hi Hlt.
      destruct (decide (i = Z.to_nat (Tasks s))) as [->|Hne].
      * rewrite list_lookup_insert_eq in Hi
          by (destruct Hx as (Hx & _); eapply lookup_lt_Some, Hx).
        injection Hi as <-. cbn. split; [reflexivity | lia].
      * rewrite list_lookup_insert_ne in Hi by congruence.
        apply (Hused i d Hi). lia.
Qed.

(** X2: called from [main] after [OS_Init], [Task_Create] hands out the
    PIDs 1, 2, 3, ... in order: when [n < MAXTHREAD] tasks have been created
    it returns [n + 1], puts the new task, READY, with the given entry
    point, priority and argument, in slot [n] and leaves every other slot
    as it was; when MAXTHREAD tasks have been created it returns 0, sets
    MAX_PROCESS_ERR and changes nothing else. *)
Theorem Task_Create_from_main (s : kernel) (f py a : Z) (tsp : stackptr) :
  booted s ->
  (Tasks s <> Z.of_nat MAXTHREAD ->
     exists s' d',
       Task_Create f py a tsp s = Done (Tasks s + 1, s') /\
       booted s' /\ Tasks s' = Tasks s + 1 /\ err s' = NO_ERR /\
       Process s' !! Z.to_nat (Tasks s) = Some d' /\
       pid d' = Tasks s + 1 /\ state d' = READY /\
       code d' = f /\ pri d' = py /\ arg d' = a /\
       forall i, i <> Z.to_nat (Tasks s) ->
         Process s' !! i = Process s !! i) /\
  (Tasks s = Z.of_nat MAXTHREAD ->
     Task_Create f py a tsp s = Done (0, set_err MAX_PROCESS_ERR s)).
Proof.
  intros Hboot.
  pose proof (booted_boot_inv s Hboot) as (Ht & _ & Ha & _).
  pose proof (booted_boot_shape s Hboot) as Hshape.
  pose proof (inv_Tasks s Ht) as HTr. pose proof (inv_last_PID s Ht) as HL.
  assert (forall s1, Kernel_Create_Task f py a s = Done s1 ->
            Task_Create f py a tsp s = Done (Task_Create_result s1, s1))
    as Hcall.
  { intros s1 Hrun. unfold Task_Create.
    destruct (decide (KernelActive s <> 0)) as [?|_]; [contradiction|].
    rewrite Hrun. reflexivity. }
  split.
  - intros HT. destruct (boot_first_dead s Ht Hshape HT) as (p & Hx).
    pose proof (Kernel_Create_Task_alloc f py a s _ p HT Hx) as Hrun.
    pose proof (Hcall _ Hrun) as Hdone.
    eexists. eexists. split_and!.
    + rewrite Hdone. f_equal. f_equal.
      unfold Task_Create_result. cbn. rewrite HL, to_uint_small by lia.
      reflexivity.
    + exact (booted_create s f py a tsp _ _ Hboot Hdone).
    + cbn. apply to_uint_small. lia.
    + reflexivity.
    + cbn. apply list_lookup_insert_eq.
      destruct Hx as (Hx & _). eapply lookup_lt_Some, Hx.
    + cbn. rewrite HL. apply to_uint_small. lia.
    + reflexivity.
    + reflexivity.
    + reflexivity.
    + reflexivity.
    + intros i Hne. cbn. apply list_lookup_insert_ne. congruence.
  - intros HT. rewrite (Hcall _ (Kernel_Create_Task_full f py a s HT)).
    reflexivity.
Qed.

(** ** [OS_Start] *)

(** X3: [OS_Start] returns at once, changing nothing, when the kernel is
    already active or no task has been created.  Called from [main] after
    at least one creation it reaches the top of the request loop with
    interrupts disabled, [KernelActive] at 1, and the task created first
    (slot 0, PID 1) current and RUNNING, [CurrentSp] its stack pointer and
    the cursor on the slot after it; no other slot has changed. *)
Theorem OS_Start_runs_first_task (s : kernel) :
  (forall fuel ticks, KernelActive s <> 0 \/ Tasks s <= 0 ->
     OS_Start fuel ticks s = Done s) /\
  (booted s -> 0 < Tasks s ->
     exists d, Process s !! 0%nat = Some d /\ pid d = 1 /\ state d = READY /\
       forall fuel ticks, (MAXTHREAD <= fuel)%nat ->
         exists s' d',
           OS_Start fuel ticks s = Done s' /\
           KernelActive s' = 1 /\ IntEnabled s' = false /\
           Cp s' = Some 0%nat /\ Process s' !! 0%nat = Some d' /\
           state d' = RUNNING /\ pid d' = 1 /\ CurrentSp s' = sp d /\
           NextP s' = 1 mod Z.of_nat MAXTHREAD /\
           (forall j, j <> 0%nat -> Process s' !! j = Process s !! j) /\
           loop_top s' /\
           s' = dispatched (set_KernelActive 1 (Disable_Interrupt s)) 0 d).
Proof.
  split.
  - intros fuel ticks Hno. unfold OS_Start.
    destruct (decide _) as [(Ha & HT)|_]; [|reflexivity].
    destruct Hno as [Hno|Hno]; [contradiction | lia].
  - intros Hboot HT.
    pose proof (booted_boot_inv s Hboot) as (Ht & _ & Ha & Hi).
    pose proof (booted_boot_shape s Hboot) as (HN & _ & Hused).
    destruct (lookup_lt_is_Some_2 (Process s) 0) as [d Hd];
      [rewrite (inv_length s Ht); lia|].
    destruct (Hused 0%nat d Hd) as (Hr & Hp); [lia|].
    exists d. split_and!; [exact Hd | exact Hp | exact Hr |].
    intros fuel ticks Hfuel.
    assert (OS_Start fuel ticks s =
            Done (dispatched (set_KernelActive 1 (Disable_Interrupt s)) 0 d))
      as Hrun.
    { unfold OS_Start.
      destruct (decide _) as [_|Hno];
        [|exfalso; apply Hno; split; [exact Ha | lia]].
      apply Dispatch_selects;
        [reflexivity | apply (inv_length s Ht) | | | exact Hfuel].
      + cbn. rewrite HN. lia.
      + exists 0%nat. split_and!.
        * lia.
        * unfold slot_after. cbn. rewrite HN. rewrite Z.mod_small by lia.
          reflexivity.
        * exact Hd.
        * exact Hr.
        * intros j dj Hj. lia. }
    exists (dispatched (set_KernelActive 1 (Disable_Interrupt s)) 0 d),
           (set_state RUNNING d).
    split_and!; try reflexivity.
    + exact Hrun.
    + cbn. apply list_lookup_insert_eq. eapply lookup_lt_Some, Hd.
    + exact Hp.
    + intros j Hne. cbn. apply list_lookup_insert_ne. congruence.
    + apply (loop_top_start s fuel ticks _ Hboot Hrun). cbn. discriminate.
Qed.

(** ** PIDs in the running kernel *)

(** X4: in every state at the top of the request loop [last_PID] equals
    [Tasks] and is at most MAXTHREAD; every PID in the table lies between 0
    and [last_PID]; a slot that is not DEAD has a nonzero PID that no other
    slot has; and a lookup of the PID of a slot that was ever used stops at
    that slot. *)
Theorem reachable_pids_identify_slots (s : kernel) :
  loop_top s ->
  last_PID s = Tasks s /\ 0 <= Tasks s <= Z.of_nat MAXTHREAD /\
  (forall i d, Process s !! i = Some d ->
     0 <= pid d <= last_PID s /\ (state d <> DEAD -> pid d <> 0)) /\
  (forall i j di dj, Process s !! i = Some di -> Process s !! j = Some dj ->
     state di <> DEAD -> pid di = pid dj -> i = j) /\
  (forall i d, Process s !! i = Some d -> pid d <> 0 ->
     findProcessByPID (Process s) (pid d) = Some i).
Proof.
  intros Htop. destruct (loop_top_inv s Htop) as (Ht & _).
  refine (conj _ (conj _ (conj _ (conj _ _)))).
  - apply (inv_last_PID s Ht).
  - apply (inv_Tasks s Ht).
  - intros i d Hd. split; [apply (inv_pid_range s Ht i d Hd)|].
    intros Hlive Hz. apply Hlive. exact (inv_pid_live s Ht i d Hd Hz).
  - intros i j di dj Hi Hj Hlive Heq.
    apply (inv_pid_inj s Ht i j di dj Hi Hj Heq).
    intros Hz. apply Hlive. exact (inv_pid_live s Ht i di Hi Hz).
  - intros i d Hd Hnz. apply (pid_target_lookup _ _ i d).
    apply table_inv_pid_target; assumption.
Qed.

(** X5: no turn of the request loop lowers [Tasks], whatever the request,
    TERMINATE included; once [Tasks] has reached MAXTHREAD it stays there,
    and creation is refused from then on although slots may be DEAD. *)
Theorem Tasks_only_grows (s s' : kernel) (fuel : nat) (ticks : nat -> nat)
    (r : task_run) :
  loop_top s -> loop_body fuel ticks r s = Done s' ->
  Tasks s <= Tasks s' <= Z.of_nat MAXTHREAD /\
  (Tasks s = Z.of_nat MAXTHREAD ->
     Tasks s' = Z.of_nat MAXTHREAD /\
     forall f py a,
       Kernel_Create_Task f py a s' = Done (set_err MAX_PROCESS_ERR s')).
Proof.
  intros Htop Hbody. pose proof (loop_top_inv s Htop) as Hinv.
  pose proof (Tasks_never_decreases fuel ticks r s s' Hinv Hbody) as Hle.
  destruct (loop_body_inv fuel ticks r s s' Hbody Hinv) as (Ht' & _).
  pose proof (inv_Tasks s' Ht') as HT'.
  split; [lia|]. intros Hfull.
  assert (Tasks s' = Z.of_nat MAXTHREAD) as Hfull' by lia.
  split; [exact Hfull'|]. intros f py a.
  apply Kernel_Create_Task_full. exact Hfull'.
Qed.

(** ** Creation by a running task *)

Lemma Task_Create_active (s : kernel) (f py a : Z) (tsp : stackptr)
    (c : nat) (d : PD) :
  KernelActive s <> 0 -> Cp s = Some c -> Process s !! c = Some d ->
  let d2 := set_sp tsp (set_code f (set_request CREATE
                          (set_arg a (set_pri py d)))) in
  Task_Create f py a tsp s =
  (s3 ← Kernel_Create_Task f py a (store c d2 (Enter_Kernel tsp (Disable_Interrupt s)));
   s4 ← resume_task s3;
   Done (Task_Create_result s4, s4)).
Proof.
  intros Hon Hc Hd d2. unfold Task_Create.
  destruct (decide (KernelActive s <> 0)) as [_|Hoff]; [|contradiction].
  assert (c < length (Process s))%nat as Hclt by (eapply lookup_lt_Some, Hd).
  cbn [api_request].
  rewrite (cp_update_eq _ (Disable_Interrupt s) c d Hc Hd).
  cbn [mbind outcome_bind]. unfold serve_request.
  match goal with
  | |- context [cp_update ?g ?st] =>
      rewrite (cp_update_eq g st c
                 (set_code f (set_request CREATE (set_arg a (set_pri py d)))))
  end; [|exact Hc|cbn; apply list_lookup_insert_eq; exact Hclt].
  cbn [mbind outcome_bind]. unfold handle_request.
  match goal with
  | |- context [cp_get ?st] => rewrite (cp_get_eq st c d2)
  end; [|exact Hc|cbn; apply list_lookup_insert_eq; rewrite length_insert; exact Hclt].
  cbn [mbind outcome_bind].
  destruct (decide (request d2 = CREATE)) as [_|Hne];
    [|exfalso; apply Hne; reflexivity].
  assert (forall s0 s1, Process s0 = Process s1 -> Tasks s0 = Tasks s1 ->
            last_PID s0 = last_PID s1 -> Cp s0 = Cp s1 ->
            KernelSp s0 = KernelSp s1 -> CurrentSp s0 = CurrentSp s1 ->
            NextP s0 = NextP s1 -> KernelActive s0 = KernelActive s1 ->
            err s0 = err s1 -> IntEnabled s0 = IntEnabled s1 -> s0 = s1)
    as Hext.
  { intros [] []. cbn. intros. subst. reflexivity. }
  change (code d2) with f. change (pri d2) with py. change (arg d2) with a.
  match goal with
  | |- Kernel_Create_Task _ _ _ ?st ≫= _ =
       Kernel_Create_Task _ _ _ ?st' ≫= _ =>
      assert (st = st') as ->
  end.
  { apply Hext; try reflexivity. cbn. apply list_insert_insert_eq. }
  destruct (Kernel_Create_Task _ _ _ _) as [s3| |]; reflexivity.
Qed.

Lemma first_dead_slot_insert (tbl : list PD) (c x : nat) (d d' p : PD) :
  tbl !! c = Some d -> state d <> DEAD -> state d' <> DEAD ->
  first_dead_slot tbl x p -> first_dead_slot (<[c := d']> tbl) x p.
Proof.
  intros Hc Hd Hd' (Hx & Hp & Hmin).
  assert (x <> c) as Hne by (intros ->; congruence).
  split_and!.
  - rewrite list_lookup_insert_ne by congruence. exact Hx.
  - exact Hp.
  - intros j dj Hj Hlt. destruct (decide (j = c)) as [->|Hnj].
    + rewrite list_lookup_insert_eq in Hj by (eapply lookup_lt_Some, Hc).
      injection Hj as <-. exact Hd'.
    + rewrite list_lookup_insert_ne in Hj by congruence.
      exact (Hmin j dj Hj Hlt).
Qed.

(** X6: when the task that runs under the active kernel calls
    [Task_Create] while [Tasks] is below MAXTHREAD, the call returns
    [last_PID + 1]; the new task sits, READY, in the first DEAD slot with
    that PID and the given entry point, priority and argument; the caller
    is still the current task and still RUNNING (nothing is dispatched),
    and no slot other than the new one and the caller's changes. *)
Theorem Task_Create_by_running_task
    (s : kernel) (f py a : Z) (tsp : stackptr) :
  in_task s -> Tasks s <> Z.of_nat MAXTHREAD ->
  exists c x p s' d' cd',
    Cp s = Some c /\ first_dead_slot (Process s) x p /\
    Task_Create f py a tsp s = Done (last_PID s + 1, s') /\
    err s' = NO_ERR /\ Tasks s' = Tasks s + 1 /\
    last_PID s' = last_PID s + 1 /\
    Process s' !! x = Some d' /\
    pid d' = last_PID s + 1 /\ state d' = READY /\
    code d' = f /\ pri d' = py /\ arg d' = a /\
    Cp s' = Some c /\ Process s' !! c = Some cd' /\ state cd' = RUNNING /\
    forall i, i <> x -> i <> c -> Process s' !! i = Process s !! i.
Proof.
  intros Htask HT. destruct (in_task_inv s Htask) as (Ht & Hone & Hon).
  destruct Hone as (c & d & Hc & Hd & Hrun & _).
  destruct (table_inv_first_dead s Ht HT) as (x & p & Hx & _).
  pose proof (inv_Tasks s Ht) as HTr. pose proof (inv_last_PID s Ht) as HL.
  assert (c < length (Process s))%nat as Hclt by (eapply lookup_lt_Some, Hd).
  assert (x <> c) as Hxc
    by (intros ->; destruct Hx as (Hx & Hdead & _); congruence).
  assert (x < length (Process s))%nat as Hxlt
    by (destruct Hx as (Hx & _); eapply lookup_lt_Some, Hx).
  pose (d2 := set_sp tsp (set_code f (set_request CREATE
                            (set_arg a (set_pri py d))))).
  pose (s2 := store c d2 (Enter_Kernel tsp (Disable_Interrupt s))).
  assert (first_dead_slot (Process s2) x p) as Hx2.
  { cbn. apply (first_dead_slot_insert _ c x d d2 p Hd);
      [rewrite Hrun; discriminate | cbn; rewrite Hrun; discriminate | exact Hx]. }
  pose proof (Kernel_Create_Task_alloc f py a s2 x p HT Hx2) as Hrun3.
  match type of Hrun3 with _ = Done ?st => pose (s3 := st) end.
  assert (Process s3 !! c = Some d2) as Hd3.
  { cbn. rewrite list_lookup_insert_ne by exact Hxc.
    apply list_lookup_insert_eq. exact Hclt. }
  assert (resume_task s3 =
          Done (Exit_Kernel (set_CurrentSp (sp (set_request NONE d2))
                               (store c (set_request NONE d2) s3)))) as Hres.
  { unfold resume_task.
    rewrite (cp_update_eq (set_request NONE) s3 c d2 Hc Hd3).
    cbn [mbind outcome_bind].
    rewrite (cp_get_eq _ c (set_request NONE d2)); [reflexivity | exact Hc |].
    cbn. apply list_lookup_insert_eq. rewrite !length_insert. exact Hclt. }
  exists c, x, p. eexists. eexists. exists (set_request NONE d2).
  split_and!; [exact Hc | exact Hx | | | | | | | | | | | | | |].
  - rewrite (Task_Create_active s f py a tsp c d Hon Hc Hd).
    fold d2. fold s2. rewrite Hrun3. cbn [mbind outcome_bind].
    fold s3. rewrite Hres. cbn [mbind outcome_bind].
    unfold Task_Create_result. cbn [err Exit_Kernel set_IntEnabled
      set_CurrentSp store set_Process set_err s3].
    destruct (decide _) as [Hq|_]; [discriminate Hq|].
    cbn [last_PID Exit_Kernel set_IntEnabled set_CurrentSp store set_Process
         set_err set_last_PID set_Tasks s3 s2 Enter_Kernel Disable_Interrupt].
    rewrite to_uint_small by lia. reflexivity.
  - reflexivity.
  - cbn. apply to_uint_small. lia.
  - cbn. apply to_uint_small. lia.
  - cbn. rewrite list_lookup_insert_ne by congruence.
    apply list_lookup_insert_eq. rewrite length_insert. exact Hxlt.
  - cbn. apply to_uint_small. lia.
  - reflexivity.
  - reflexivity.
  - reflexivity.
  - reflexivity.
  - exact Hc.
  - cbn. apply list_lookup_insert_eq. rewrite !length_insert. exact Hclt.
  - cbn. exact Hrun.
  - intros i Hix Hic. cbn.
    rewrite !list_lookup_insert_ne by congruence. reflexivity.
Qed.

(** ** Counting ticks *)

Lemma set_request_arg_same (d : PD) : set_request_arg (request_arg d) d = d.
Proof. destruct d; reflexivity. Qed.

Lemma TIMER1_COMPA_vect_lookup (s : kernel) (i : nat) (d : PD) :
  Process s !! i = Some d ->
  Process (TIMER1_COMPA_vect s) !! i = Some (tick_PD d).
Proof.
  intros Hi. unfold TIMER1_COMPA_vect. cbn.
  rewrite list_lookup_fmap, Hi. reflexivity.
Qed.

Lemma ticks_before_expiry (k : nat) (s : kernel) (i : nat) (d : PD) :
  Process s !! i = Some d -> state d = SLEEPING ->
  request_arg d <= 32767 -> Z.of_nat k < request_arg d ->
  Process (Nat.iter k TIMER1_COMPA_vect s) !! i =
  Some (set_request_arg (request_arg d - Z.of_nat k) d).
Proof.
  clear MAXTHREAD_pos MAXTHREAD_int WORKSPACE_frame.
  intros Hi Hs Hmax. induction k as [|k IH]; intros Hk.
  - cbn. rewrite Z.sub_0_r, set_request_arg_same. exact Hi.
  - rewrite Nat.iter_succ. rewrite (TIMER1_COMPA_vect_lookup _ i _ (IH ltac:(lia))).
    f_equal. rewrite tick_PD_asleep by exact Hs. cbn.
    rewrite to_int_small by lia.
    destruct (decide _) as [?|_]; [lia|].
    replace (request_arg d - Z.of_nat k - 1)
      with (request_arg d - Z.of_nat (S k)) by lia.
    rewrite <- Hs. destruct d; reflexivity.
Qed.

Lemma ticks_keep_awake (k : nat) (s : kernel) (i : nat) (d : PD) :
  Process s !! i = Some d -> state d <> SLEEPING ->
  Process (Nat.iter k TIMER1_COMPA_vect s) !! i = Some d.
Proof.
  intros Hi Hs. induction k as [|k IH]; [exact Hi|].
  rewrite Nat.iter_succ. rewrite (TIMER1_COMPA_vect_lookup _ i _ IH).
  rewrite tick_PD_awake by exact Hs. reflexivity.
Qed.

(** X7: a slot that sleeps with a tick count [t] between 1 and 32767 is
    still SLEEPING, with [t - k] ticks left, after [k < t] runs of the
    timer interrupt, and is READY with count 0 after [t] runs and after
    any larger number of runs.  A slot that sleeps with a count of 0 or
    less (above the least [int]) is READY after the first run: a sleep of
    no tick still lasts until the next tick. *)
Theorem sleep_lasts_its_ticks (s : kernel) (i : nat) (d : PD) (k : nat) :
  Process s !! i = Some d -> state d = SLEEPING ->
  (1 <= request_arg d <= 32767 ->
     Process (Nat.iter k TIMER1_COMPA_vect s) !! i =
     Some (if decide (Z.of_nat k < request_arg d)
           then set_request_arg (request_arg d - Z.of_nat k) d
           else set_state READY (set_request_arg 0 d))) /\
  (-32768 < request_arg d <= 0 -> (1 <= k)%nat ->
     Process (Nat.iter k TIMER1_COMPA_vect s) !! i =
     Some (set_state READY (set_request_arg (request_arg d - 1) d))).
Proof.
  clear MAXTHREAD_pos MAXTHREAD_int WORKSPACE_frame.
  intros Hi Hs.
  assert (forall k0 d1, Process (Nat.iter k0 TIMER1_COMPA_vect s) !! i = Some d1 ->
            state d1 = SLEEPING -> -32768 < request_arg d1 <= 1 ->
            forall m, Process (Nat.iter (S m + k0) TIMER1_COMPA_vect s) !! i =
                      Some (set_state READY
                              (set_request_arg (request_arg d1 - 1) d1)))
    as Hwake.
  { intros k0 d1 H1 Hs1 Hr1 m.
    replace (S m + k0)%nat with (m + S k0)%nat by lia.
    rewrite Nat.iter_add. apply ticks_keep_awake; [|discriminate].
    rewrite Nat.iter_succ. rewrite (TIMER1_COMPA_vect_lookup _ i _ H1).
    f_equal. rewrite tick_PD_asleep by exact Hs1.
    rewrite to_int_small by lia.
    destruct (decide _) as [_|?]; [reflexivity | lia]. }
  split.
  - intros Ht. destruct (decide (Z.of_nat k < request_arg d)) as [Hlt|Hge].
    + apply ticks_before_expiry; [assumption..|lia|exact Hlt].
    + pose (t1 := Z.to_nat (request_arg d - 1)).
      pose proof (ticks_before_expiry t1 s i d Hi Hs ltac:(lia) ltac:(lia)) as H1.
      replace k with (S (k - S t1) + t1)%nat by lia.
      rewrite (Hwake t1 _ H1 Hs); cbn; [|lia].
      f_equal. replace (request_arg d - Z.of_nat t1 - 1) with 0 by lia.
      destruct d; reflexivity.
  - intros Ht Hk. replace k with (S (k - 1) + 0)%nat by lia.
    apply (Hwake 0%nat d Hi Hs). lia.
Qed.

(** ** Giving the processor away *)

Lemma kernel_ext (s0 s1 : kernel) :
  Process s0 = Process s1 -> Cp s0 = Cp s1 -> KernelSp s0 = KernelSp s1 ->
  CurrentSp s0 = CurrentSp s1 -> NextP s0 = NextP s1 ->
  KernelActive s0 = KernelActive s1 -> Tasks s0 = Tasks s1 ->
  last_PID s0 = last_PID s1 -> err s0 = err s1 ->
  IntEnabled s0 = IntEnabled s1 -> s0 = s1.
Proof. destruct s0, s1. cbn. intros. subst. reflexivity. Qed.

Lemma syscall_turn_gives_up (s : kernel) (c : nat) (d : PD)
    (sc : syscall) (f : PD -> PD) (v : PROCESS_STATES) (tsp : stackptr)
    (fuel : nat) (ticks : nat -> nat) :
  in_task s -> Cp s = Some c -> Process s !! c = Some d ->
  gives_up sc f v ->
  syscall_turn fuel ticks sc tsp s =
  Dispatch fuel ticks (handed_over v f tsp c d s).
Proof.
  intros Htask Hc Hd Hgu.
  pose proof (in_task_request_NONE s c d Htask Hc Hd) as Hnone.
  assert (c < length (Process s))%nat as Hclt by (eapply lookup_lt_Some, Hd).
  assert (exists s1, api_request sc s = Done s1 /\
            Process s1 = <[c := f d]> (Process s) /\ Cp s1 = Some c /\
            KernelSp s1 = KernelSp s /\ NextP s1 = NextP s /\
            KernelActive s1 = KernelActive s /\ Tasks s1 = Tasks s /\
            last_PID s1 = last_PID s /\ err s1 = err s /\
            IntEnabled s1 = false) as (s1 & Hreq & Hp1 & Hc1 & Hrest).
  { destruct Hgu; cbn [api_request];
      try (rewrite (cp_update_eq _ (Disable_Interrupt s) c d Hc Hd);
           eexists; split; [reflexivity|]; split_and!; try reflexivity;
           exact Hc).
    eexists. split; [reflexivity|]. split_and!; try reflexivity; [|exact Hc].
    cbn. symmetry. apply list_insert_id. exact Hd. }
  assert (request (f d) = TERMINATE /\ v = DEAD \/
          request (f d) = SLEEP /\ v = SLEEPING \/
          (request (f d) = YIELD \/ request (f d) = NONE) /\ v = READY)
    as Hcode.
  { destruct Hgu; cbn; auto. }
  unfold syscall_turn. rewrite Hreq. cbn [mbind outcome_bind].
  unfold serve_request. change (CurrentSp (Enter_Kernel tsp s1)) with tsp.
  assert (Process (Enter_Kernel tsp s1) !! c = Some (f d)) as Hd1
    by (cbn; rewrite Hp1; apply list_lookup_insert_eq; exact Hclt).
  rewrite (cp_update_eq (set_sp tsp) (Enter_Kernel tsp s1) c (f d) Hc1 Hd1).
  cbn [mbind outcome_bind]. unfold handle_request.
  match goal with
  | |- context [cp_get ?st] => rewrite (cp_get_eq st c (set_sp tsp (f d)))
  end; [|exact Hc1|cbn; apply list_lookup_insert_eq; rewrite Hp1, length_insert; exact Hclt].
  cbn [mbind outcome_bind]. change (request (set_sp tsp (f d))) with (request (f d)).
  assert (forall w, (cp_update (set_state w)
                       (store c (set_sp tsp (f d)) (Enter_Kernel tsp s1))
                     ≫= Dispatch fuel ticks) =
                    Dispatch fuel ticks (handed_over w f tsp c d s)) as Hgo.
  { intros w.
    match goal with
    | |- context [cp_update ?g ?st] =>
        rewrite (cp_update_eq g st c (set_sp tsp (f d)))
    end; [|exact Hc1|cbn; apply list_lookup_insert_eq; rewrite Hp1, length_insert; exact Hclt].
    cbn [mbind outcome_bind]. f_equal.
    destruct Hrest as (H1 & H2 & H3 & H4 & H5 & H6 & H7).
    apply kernel_ext; cbn; try assumption; try reflexivity.
    - rewrite Hp1, !list_insert_insert_eq. reflexivity.
    - congruence. }
  destruct Hcode as [(Hq & ->)|[(Hq & ->)|(Hq & ->)]]; rewrite ?Hq.
  - destruct (decide (TERMINATE = CREATE)) as [Hx|_]; [discriminate Hx|].
    destruct (decide (TERMINATE = TERMINATE)) as [_|Hx]; [|contradiction].
    apply Hgo.
  - destruct (decide (SLEEP = CREATE)) as [Hx|_]; [discriminate Hx|].
    destruct (decide (SLEEP = TERMINATE)) as [Hx|_]; [discriminate Hx|].
    destruct (decide (SLEEP = SUSPEND)) as [Hx|_]; [discriminate Hx|].
    destruct (decide (SLEEP = RESUME)) as [Hx|_]; [discriminate Hx|].
    destruct (decide (SLEEP = SLEEP)) as [_|Hx]; [|contradiction].
    apply Hgo.
  - destruct (decide (request (f d) = CREATE)) as [Hx|_];
      [destruct Hq as [Hq|Hq]; rewrite Hq in Hx; discriminate Hx|].
    destruct (decide (request (f d) = TERMINATE)) as [Hx|_];
      [destruct Hq as [Hq|Hq]; rewrite Hq in Hx; discriminate Hx|].
    destruct (decide (request (f d) = SUSPEND)) as [Hx|_];
      [destruct Hq as [Hq|Hq]; rewrite Hq in Hx; discriminate Hx|].
    destruct (decide (request (f d) = RESUME)) as [Hx|_];
      [destruct Hq as [Hq|Hq]; rewrite Hq in Hx; discriminate Hx|].
    destruct (decide (request (f d) = SLEEP)) as [Hx|_];
      [destruct Hq as [Hq|Hq]; rewrite Hq in Hx; discriminate Hx|].
    destruct (decide (request (f d) = YIELD \/ request (f d) = NONE))
      as [_|Hx]; [|contradiction].
    apply Hgo.
Qed.

Lemma handed_over_wf (s : kernel) (c : nat) (d : PD) (v : PROCESS_STATES)
    (f : PD -> PD) (tsp : stackptr) :
  in_task s ->
  IntEnabled (handed_over v f tsp c d s) = false /\
  length (Process (handed_over v f tsp c d s)) = MAXTHREAD /\
  0 <= NextP (handed_over v f tsp c d s) < Z.of_nat MAXTHREAD.
Proof.
  intros Htask. destruct (in_task_inv s Htask) as (Ht & _).
  split; [reflexivity|]. split.
  - cbn. rewrite length_insert. apply (inv_length s Ht).
  - apply (inv_NextP s Ht).
Qed.

(** X8: when the running task calls [Task_Yield], or the kernel is entered
    from it without any call, the caller becomes READY and the kernel
    dispatches the first READY slot at or cyclically after [NextP] in the
    table so changed; the turn always ends (MAXTHREAD loop iterations are
    enough), and if no other slot is READY it is the caller itself that is
    resumed.  [err] is left as it was. *)
Theorem yield_dispatches_next_ready
    (s : kernel) (c : nat) (d : PD) (sc : syscall) (f : PD -> PD)
    (tsp : stackptr) :
  in_task s -> Cp s = Some c -> Process s !! c = Some d ->
  gives_up sc f READY ->
  exists c' d',
    first_ready_from (handed_over READY f tsp c d s) c' d' /\
    (forall fuel ticks, (MAXTHREAD <= fuel)%nat ->
       syscall_turn fuel ticks sc tsp s =
       Done (dispatched (handed_over READY f tsp c d s) c' d')) /\
    err (dispatched (handed_over READY f tsp c d s) c' d') = err s /\
    ((forall j dj, Process s !! j = Some dj -> state dj <> READY) -> c' = c).
Proof.
  intros Htask Hc Hd Hgu.
  destruct (handed_over_wf s c d READY f tsp Htask) as (Hi & Hl & HN).
  assert (c < length (Process s))%nat as Hclt by (eapply lookup_lt_Some, Hd).
  destruct (first_ready_exists _ Hl HN) as (c' & d' & Hfirst).
  { exists c, (set_state READY (set_sp tsp (f d))). split; [|reflexivity].
    cbn. apply list_lookup_insert_eq. exact Hclt. }
  exists c', d'. split_and!.
  - exact Hfirst.
  - intros fuel ticks Hfuel.
    rewrite (syscall_turn_gives_up s c d sc f READY tsp fuel ticks
               Htask Hc Hd Hgu).
    apply Dispatch_selects; assumption.
  - reflexivity.
  - intros Hnone. destruct Hfirst as (k & _ & _ & Hd' & Hr' & _).
    destruct (decide (c' = c)) as [Heq|Hne]; [exact Heq|].
    exfalso. cbn in Hd'. rewrite list_lookup_insert_ne in Hd' by congruence.
    exact (Hnone c' d' Hd' Hr').
Qed.

(** X9: when the running task calls [Task_Sleep(t)] or [Task_Terminate]
    while some slot is READY, the caller, keeping its PID, becomes SLEEPING
    with the request argument [t], the ticks to go, or DEAD, and the kernel
    dispatches the first READY slot at or cyclically after [NextP], which
    is another task and is then current and RUNNING; [err] is left as it
    was. *)
Theorem sleep_or_terminate_dispatches_another
    (s : kernel) (c : nat) (d : PD) (sc : syscall) (f : PD -> PD)
    (v : PROCESS_STATES) (tsp : stackptr) :
  in_task s -> Cp s = Some c -> Process s !! c = Some d ->
  gives_up sc f v -> v <> READY ->
  (exists j dj, Process s !! j = Some dj /\ state dj = READY) ->
  exists c' d',
    first_ready_from (handed_over v f tsp c d s) c' d' /\ c' <> c /\
    Process s !! c' = Some d' /\
    (forall fuel ticks, (MAXTHREAD <= fuel)%nat ->
       exists s', syscall_turn fuel ticks sc tsp s = Done s' /\
         s' = dispatched (handed_over v f tsp c d s) c' d' /\
         Cp s' = Some c' /\ err s' = err s /\
         Process s' !! c = Some (set_state v (set_sp tsp (f d))) /\
         (exists dc, Process s' !! c = Some dc /\ pid dc = pid d /\
            (sc = SysTerminate -> state dc = DEAD) /\
            (forall t, sc = SysSleep t ->
               state dc = SLEEPING /\ request_arg dc = t)) /\
         (exists dn, Process s' !! c' = Some dn /\ state dn = RUNNING /\
            pid dn = pid d')).
Proof.
  intros Htask Hc Hd Hgu Hv (j & dj & Hj & Hrj).
  destruct (handed_over_wf s c d v f tsp Htask) as (Hi & Hl & HN).
  destruct (in_task_inv s Htask) as (_ & (c0 & d0 & Hc0 & Hd0 & Hrun & _) & _).
  assert (c0 = c) as -> by congruence. assert (d0 = d) as -> by congruence.
  assert (c < length (Process s))%nat as Hclt by (eapply lookup_lt_Some, Hd).
  assert (j <> c) as Hjc by (intros ->; congruence).
  destruct (first_ready_exists _ Hl HN) as (c' & d' & Hfirst).
  { exists j, dj. split; [|exact Hrj].
    cbn. rewrite list_lookup_insert_ne by congruence. exact Hj. }
  assert (c' <> c) as Hne.
  { destruct Hfirst as (k & _ & _ & Hd' & Hr' & _). intros ->.
    cbn in Hd'. rewrite list_lookup_insert_eq in Hd' by exact Hclt.
    injection Hd' as <-. cbn in Hr'. contradiction. }
  assert (Process s !! c' = Some d') as Hold.
  { destruct Hfirst as (k & _ & _ & Hd' & _). cbn in Hd'.
    rewrite list_lookup_insert_ne in Hd' by congruence. exact Hd'. }
  assert (Process (dispatched (handed_over v f tsp c d s) c' d') !! c =
          Some (set_state v (set_sp tsp (f d)))) as Hcaller.
  { cbn. rewrite list_lookup_insert_ne by congruence.
    apply list_lookup_insert_eq. exact Hclt. }
  exists c', d'. split_and!; [exact Hfirst | exact Hne | exact Hold |].
  intros fuel ticks Hfuel.
  exists (dispatched (handed_over v f tsp c d s) c' d'). split_and!.
  - rewrite (syscall_turn_gives_up s c d sc f v tsp fuel ticks
               Htask Hc Hd Hgu).
    apply Dispatch_selects; assumption.
  - reflexivity.
  - reflexivity.
  - reflexivity.
  - exact Hcaller.
  - exists (set_state v (set_sp tsp (f d))). split_and!.
    + exact Hcaller.
    + destruct Hgu; reflexivity.
    + intros ->. inversion Hgu. reflexivity.
    + intros t ->. inversion Hgu. split; reflexivity.
  - exists (set_state RUNNING d'). split_and!; [|reflexivity..].
    cbn. apply list_lookup_insert_eq. rewrite length_insert.
    eapply lookup_lt_Some, Hold.
Qed.

(** ** The task counter *)




(** ** The idle dispatcher *)

Lemma Dispatch_loop_spins (fuel : nat) :
  forall (ticks : nat -> nat) (i : Z) (s : kernel),
  length (Process s) = MAXTHREAD ->
  0 <= NextP s < Z.of_nat MAXTHREAD ->
  (forall j dj, Process s !! j = Some dj ->
     state dj <> READY /\ state dj <> SLEEPING) ->
  Dispatch_loop fuel ticks i s = OutOfFuel.
Proof.
  clear WORKSPACE_frame.
  induction fuel as [|fuel IH]; intros ticks i s Hlen HN Hidle; [reflexivity|].
  cbn [Dispatch_loop].
  destruct (lookup_lt_is_Some_2 (Process s) (Z.to_nat (NextP s)))
    as [d Hd]; [lia|].
  unfold deref. rewrite Hd. cbn [mbind outcome_bind].
  destruct (decide (state d <> READY)) as [_|Hr];
    [|exfalso; apply Hr; apply (Hidle _ d Hd)].
  pose (P := fun s0 : kernel =>
               length (Process s0) = MAXTHREAD /\
               0 <= NextP s0 < Z.of_nat MAXTHREAD /\
               forall j dj, Process s0 !! j = Some dj ->
                 state dj <> READY /\ state dj <> SLEEPING).
  assert (forall n s0, P s0 -> P (serve_ticks n s0)) as Hserve.
  { intros n s0. apply serve_ticks_inv. clear.
    intros s0 (Hl & Hn & Hid). refine (conj _ (conj _ _)).
    - unfold TIMER1_COMPA_vect. cbn. rewrite length_fmap. exact Hl.
    - exact Hn.
    - intros j dj. unfold TIMER1_COMPA_vect. cbn.
      rewrite list_lookup_fmap.
      destruct (Process s0 !! j) as [d0|] eqn:Hj; [|discriminate].
      cbn. intros [= <-]. destruct (Hid j d0 Hj) as (Hr & Hs).
      rewrite tick_PD_awake by exact Hs. split; assumption. }
  match goal with
  | |- Dispatch_loop _ _ _ (serve_ticks ?n ?st) = _ =>
      destruct (Hserve n st) as (Hl' & HN' & Hid')
  end.
  { refine (conj _ (conj _ _)); destruct (decide _); cbn; try assumption;
      apply Z.mod_pos_bound; lia. }
  apply IH; assumption.
Qed.

(** X10: in a table with no READY and no SLEEPING slot [Dispatch] never
    returns, whatever the timer does: the kernel spins in its search loop
    for ever.  This is where the request loop ends up when the running
    task terminates and every other slot is DEAD or SUSPENDED. *)
Theorem Dispatch_spins_without_ready_or_sleeper
    (s : kernel) (fuel : nat) (ticks : nat -> nat) :
  length (Process s) = MAXTHREAD ->
  0 <= NextP s < Z.of_nat MAXTHREAD ->
  (forall j dj, Process s !! j = Some dj ->
     state dj <> READY /\ state dj <> SLEEPING) ->
  Dispatch fuel ticks s = OutOfFuel.
Proof.
  clear WORKSPACE_frame.
  intros Hlen HN Hidle. unfold Dispatch.
  rewrite Dispatch_loop_spins by assumption. reflexivity.
Qed.

(** X11: the running task calls [Task_Terminate] while no other slot is
    READY or SLEEPING: the request loop never reaches its top again,
    however long it runs and whatever the timer does. *)
Theorem last_task_terminates_kernel_spins
    (s : kernel) (c : nat) (d : PD) (tsp : stackptr)
    (fuel : nat) (ticks : nat -> nat) :
  in_task s -> Cp s = Some c -> Process s !! c = Some d ->
  (forall j dj, Process s !! j = Some dj -> j <> c ->
     state dj <> READY /\ state dj <> SLEEPING) ->
  syscall_turn fuel ticks SysTerminate tsp s = OutOfFuel.
Proof.
  intros Htask Hc Hd Hothers.
  rewrite (syscall_turn_gives_up s c d SysTerminate _ DEAD tsp fuel ticks
             Htask Hc Hd gives_up_terminate).
  destruct (handed_over_wf s c d DEAD (set_request TERMINATE) tsp Htask)
    as (_ & Hl & HN).
  unfold Dispatch. rewrite Dispatch_loop_spins; [reflexivity | exact Hl | exact HN |].
  intros j dj Hj. cbn in Hj.
  assert (c < length (Process s))%nat as Hclt by (eapply lookup_lt_Some, Hd).
  destruct (decide (j = c)) as [->|Hne].
  - rewrite list_lookup_insert_eq in Hj by exact Hclt.
    injection Hj as <-. cbn. split; discriminate.
  - rewrite list_lookup_insert_ne in Hj by congruence.
    exact (Hothers j dj Hj Hne).
Qed.

(** ** Waking up from the idle search *)

Lemma woken_tick (d0 d : PD) : woken d0 d -> woken d0 (tick_PD d).
Proof.
  clear WORKSPACE_frame.
  intros Hw. destruct (tick_PD_state d) as [Hs|(Hs & Hr)].
  - unfold woken. rewrite Hs. exact Hw.
  - destruct Hw as [Hw|(Hw & Hr0)]; [|congruence].
    right. split; congruence.
Qed.

Lemma due_tick (d : PD) : due d -> state (tick_PD d) = READY.
Proof.
  clear WORKSPACE_frame.
  intros [Hr|(Hs & Hra)].
  - rewrite tick_PD_awake; [exact Hr | rewrite Hr; discriminate].
  - rewrite tick_PD_asleep by exact Hs. cbn.
    rewrite to_int_small by lia.
    destruct (decide _) as [_|?]; [reflexivity | lia].
Qed.

Lemma idling_tick (s0 : kernel) (j0 : nat) (s : kernel) :
  idling s0 j0 s ->
  idling s0 j0 (TIMER1_COMPA_vect s) /\
  exists dj, Process (TIMER1_COMPA_vect s) !! j0 = Some dj /\ state dj = READY.
Proof.
  clear WORKSPACE_frame.
  intros (Hl & HN & Hw & dj & Hj & Hdue).
  assert (Process (TIMER1_COMPA_vect s) !! j0 = Some (tick_PD dj)) as Hj'
    by (apply TIMER1_COMPA_vect_lookup; exact Hj).
  pose proof (due_tick dj Hdue) as Hr.
  split.
  - refine (conj _ (conj _ (conj _ _))).
    + unfold TIMER1_COMPA_vect. cbn. rewrite length_fmap. exact Hl.
    + exact HN.
    + unfold TIMER1_COMPA_vect. cbn. apply Forall2_fmap_r.
      exact (Forall2_impl _ (fun a b H => woken_tick a b H) Hw).
    + exists (tick_PD dj). split; [exact Hj' | left; exact Hr].
  - exists (tick_PD dj). split; [exact Hj' | exact Hr].
Qed.

Lemma idling_serve (s0 : kernel) (j0 : nat) (n : nat) (s : kernel) :
  idling s0 j0 s -> idling s0 j0 (serve_ticks n s).
Proof.
  clear WORKSPACE_frame.
  apply serve_ticks_inv. intros s1 H1. apply (idling_tick s0 j0 s1 H1).
Qed.

Lemma idling_frame (s0 : kernel) (j0 : nat) (s s' : kernel) :
  idling s0 j0 s -> Process s' = Process s ->
  0 <= NextP s' < Z.of_nat MAXTHREAD -> idling s0 j0 s'.
Proof.
  clear WORKSPACE_frame.
  intros (Hl & _ & Hw & Hdue) Hp HN. unfold idling. rewrite Hp.
  refine (conj Hl (conj HN (conj Hw Hdue))).
Qed.

Lemma serve_ticks_flag (n : nat) (s : kernel) :
  IntEnabled (serve_ticks n s) = IntEnabled s.
Proof.
  clear WORKSPACE_frame.
  apply (serve_ticks_inv (fun s1 => IntEnabled s1 = IntEnabled s));
    [|reflexivity].
  intros s1 H1. exact H1.
Qed.

(** The state the body of the search loop leaves. *)
Lemma idling_step (s0 : kernel) (j0 : nat) (s : kernel) (i : Z) (n : nat) :
  idling s0 j0 s ->
  idling s0 j0
    (serve_ticks n
       (if decide (to_int (i + 1) > Z.of_nat MAXTHREAD)
        then Enable_Interrupt (advance_NextP s) else advance_NextP s)).
Proof.
  clear WORKSPACE_frame.
  intros Hidle. apply idling_serve.
  apply (idling_frame s0 j0 s); [exact Hidle | |];
    destruct (decide _); try reflexivity; apply advance_NextP_range.
Qed.

Lemma scan_reaches_ready (s0 : kernel) (j0 : nat) (k : nat) :
  forall (s : kernel) (i : Z) (ticks : nat -> nat),
  idling s0 j0 s ->
  (exists dj, Process s !! j0 = Some dj /\ state dj = READY) ->
  j0 = slot_after s k ->
  exists fuel s',
    Dispatch_loop fuel ticks i s = Done s' /\ idling s0 j0 s' /\
    exists d, Process s' !! Z.to_nat (NextP s') = Some d /\ state d = READY.
Proof.
  clear WORKSPACE_frame.
  induction k as [|k IH]; intros s i ticks Hidle (dj & Hj & Hrj) Hk;
    pose proof Hidle as (Hl & HN & _);
    destruct (lookup_lt_is_Some_2 (Process s) (Z.to_nat (NextP s)))
      as [d Hd]; try lia.
  - rewrite slot_after_0 in Hk by exact HN. subst j0.
    exists 1%nat, (serve_ticks (ticks 0%nat) s). split_and!.
    + cbn [Dispatch_loop]. unfold deref. rewrite Hj. cbn [mbind outcome_bind].
      destruct (decide _) as [Hne|_]; [contradiction | reflexivity].
    + apply idling_serve, Hidle.
    + exists dj. split; [|exact Hrj].
      destruct (serve_ticks_counters (ticks 0%nat) s) as (_ & -> & _).
      apply serve_ticks_awake; [exact Hj | rewrite Hrj; discriminate].
  - destruct (decide (state d = READY)) as [Hr|Hnr].
    + exists 1%nat, (serve_ticks (ticks 0%nat) s). split_and!.
      * cbn [Dispatch_loop]. unfold deref. rewrite Hd.
        cbn [mbind outcome_bind].
        destruct (decide _) as [Hne|_]; [contradiction | reflexivity].
      * apply idling_serve, Hidle.
      * exists d. split; [|exact Hr].
        destruct (serve_ticks_counters (ticks 0%nat) s) as (_ & -> & _).
        apply serve_ticks_awake; [exact Hd | rewrite Hr; discriminate].
    + pose proof (idling_step s0 j0 s i (ticks 0%nat) Hidle) as Hidle'.
      match type of Hidle' with idling _ _ ?st => set (s3 := st) in * end.
      assert (NextP s3 = NextP (advance_NextP s)) as HN3.
      { unfold s3. destruct (serve_ticks_counters (ticks 0%nat)
          (if decide (to_int (i + 1) > Z.of_nat MAXTHREAD)
           then Enable_Interrupt (advance_NextP s) else advance_NextP s))
          as (_ & -> & _).
        destruct (decide _); reflexivity. }
      destruct (IH s3 (to_int (i + 1)) (fun k0 => ticks (S k0)) Hidle')
        as (fuel & s' & Hrun & Hres).
      * exists dj. split; [|exact Hrj]. unfold s3.
        apply serve_ticks_awake; [|rewrite Hrj; discriminate].
        destruct (decide _); exact Hj.
      * rewrite Hk. unfold slot_after. rewrite HN3.
        rewrite advance_NextP_value by exact HN.
        rewrite Z.add_mod_idemp_l by lia. do 2 f_equal. lia.
      * exists (S fuel), s'. split; [|exact Hres].
        cbn [Dispatch_loop]. unfold deref. rewrite Hd.
        cbn [mbind outcome_bind].
        destruct (decide (state d <> READY)) as [_|Hc]; [|contradiction].
        exact Hrun.
Qed.

Lemma idle_until_tick (s0 : kernel) (j0 : nat) (n : nat) :
  Z.of_nat MAXTHREAD < 32767 ->
  forall (s : kernel) (i : Z) (ticks : nat -> nat),
  idling s0 j0 s -> (1 <= ticks n)%nat ->
  IntEnabled s = true \/
    (0 <= i <= Z.of_nat MAXTHREAD /\ Z.of_nat MAXTHREAD <= i + Z.of_nat n) ->
  exists fuel s',
    Dispatch_loop fuel ticks i s = Done s' /\ idling s0 j0 s' /\
    exists d, Process s' !! Z.to_nat (NextP s') = Some d /\ state d = READY.
Proof.
  clear WORKSPACE_frame.
  intros Hsmall.
  induction n as [|n IH]; intros s i ticks Hidle Htick Hflag;
    pose proof Hidle as (Hl & HN & _ & dj & Hj & _);
    destruct (lookup_lt_is_Some_2 (Process s) (Z.to_nat (NextP s)))
      as [d Hd]; try lia;
    (destruct (decide (state d = READY)) as [Hr|Hnr];
     [ exists 1%nat, (serve_ticks (ticks 0%nat) s); split_and!;
       [ cbn [Dispatch_loop]; unfold deref; rewrite Hd;
         cbn [mbind outcome_bind];
         destruct (decide _) as [Hne|_]; [contradiction | reflexivity]
       | apply idling_serve, Hidle
       | exists d; split; [|exact Hr];
         destruct (serve_ticks_counters (ticks 0%nat) s) as (_ & -> & _);
         apply serve_ticks_awake; [exact Hd | rewrite Hr; discriminate] ]
     | ]);
    pose proof (idling_step s0 j0 s i (ticks 0%nat) Hidle) as Hidle';
    set (s2 := if decide (to_int (i + 1) > Z.of_nat MAXTHREAD)
               then Enable_Interrupt (advance_NextP s) else advance_NextP s)
      in *;
    assert (j0 < MAXTHREAD)%nat as Hj0
      by (rewrite <- Hl; eapply lookup_lt_Some, Hj).
  - (* the tick arrives in this window, and interrupts are enabled *)
    assert (IntEnabled s2 = true) as Hon.
    { unfold s2. destruct Hflag as [Hon|(Hi & Hge)].
      - destruct (decide (to_int (i + 1) > Z.of_nat MAXTHREAD));
          [reflexivity | exact Hon].
      - rewrite to_int_small by lia.
        destruct (decide (i + 1 > Z.of_nat MAXTHREAD)) as [_|Hle];
          [reflexivity | lia]. }
    assert (idling s0 j0 s2) as Hidle2.
    { apply (idling_frame s0 j0 s); [exact Hidle | |]; unfold s2;
        destruct (decide _); try reflexivity; apply advance_NextP_range. }
    assert (exists dj', Process (serve_ticks (ticks 0%nat) s2) !! j0 = Some dj' /\
                        state dj' = READY) as Hwoken.
    { unfold serve_ticks. rewrite Hon.
      destruct (ticks 0%nat) as [|m]; [lia|]. rewrite Nat.iter_succ.
      pose proof (idling_serve s0 j0 m s2 Hidle2) as Hm.
      unfold serve_ticks in Hm. rewrite Hon in Hm.
      exact (proj2 (idling_tick s0 j0 _ Hm)). }
    pose proof Hidle' as (_ & HN' & _).
    destruct (scan_reaches_ready s0 j0
                (Z.to_nat ((Z.of_nat j0 - NextP (serve_ticks (ticks 0%nat) s2))
                           mod Z.of_nat MAXTHREAD))
                (serve_ticks (ticks 0%nat) s2) (to_int (i + 1))
                (fun k0 => ticks (S k0)) Hidle' Hwoken)
      as (fuel & s' & Hrun & Hres).
    { unfold slot_after.
      pose proof (Z.mod_pos_bound
                    (Z.of_nat j0 - NextP (serve_ticks (ticks 0%nat) s2))
                    (Z.of_nat MAXTHREAD)).
      rewrite Z2Nat.id by lia. rewrite Z.add_mod_idemp_r by lia.
      replace (NextP (serve_ticks (ticks 0%nat) s2) +
               (Z.of_nat j0 - NextP (serve_ticks (ticks 0%nat) s2)))
        with (Z.of_nat j0) by lia.
      rewrite Z.mod_small by lia. rewrite Nat2Z.id. reflexivity. }
    exists (S fuel), s'. split; [|exact Hres].
    cbn [Dispatch_loop]. unfold deref. rewrite Hd. cbn [mbind outcome_bind].
    destruct (decide (state d <> READY)) as [_|Hc]; [|contradiction].
    exact Hrun.
  - destruct (IH (serve_ticks (ticks 0%nat) s2) (to_int (i + 1))
                (fun k0 => ticks (S k0)) Hidle' Htick)
      as (fuel & s' & Hrun & Hres).
    { rewrite serve_ticks_flag. unfold s2.
      destruct Hflag as [Hon|(Hi & Hge)].
      - left. destruct (decide (to_int (i + 1) > Z.of_nat MAXTHREAD));
          [reflexivity | exact Hon].
      - rewrite to_int_small by lia.
        destruct (decide (i + 1 > Z.of_nat MAXTHREAD)) as [Hgt|Hle].
        + left. reflexivity.
        + right. lia. }
    exists (S fuel), s'. split; [|exact Hres].
    cbn [Dispatch_loop]. unfold deref. rewrite Hd. cbn [mbind outcome_bind].
    destruct (decide (state d <> READY)) as [_|Hc]; [|contradiction].
    exact Hrun.
Qed.

(** X12: [Dispatch] is called with no slot READY, but with a sleeper the
    next tick expires (its count is at most 1), and a timer interrupt does
    arrive once the search has enabled interrupts (in iteration [m], with
    [MAXTHREAD <= m], or in any iteration if interrupts were enabled on
    entry).  Then [Dispatch] returns, and the task it makes current and
    RUNNING is one that was SLEEPING on entry.  (MAXTHREAD is below the
    largest [int], so that the counter of the search can exceed it.) *)
Theorem Dispatch_wakes_from_idle
    (s : kernel) (j0 : nat) (dj : PD) (m : nat) (ticks : nat -> nat) :
  Z.of_nat MAXTHREAD < 32767 ->
  length (Process s) = MAXTHREAD ->
  0 <= NextP s < Z.of_nat MAXTHREAD ->
  (forall j d, Process s !! j = Some d -> state d <> READY) ->
  Process s !! j0 = Some dj -> state dj = SLEEPING ->
  -32768 < request_arg dj <= 1 ->
  IntEnabled s = true \/ (MAXTHREAD <= m)%nat ->
  (1 <= ticks m)%nat ->
  exists fuel s' c d0 d',
    Dispatch fuel ticks s = Done s' /\
    Cp s' = Some c /\ Process s !! c = Some d0 /\ state d0 = SLEEPING /\
    Process s' !! c = Some d' /\ state d' = RUNNING.
Proof.
  clear WORKSPACE_frame.
  intros Hsmall Hl HN Hnone Hj Hs Hra Hflag Htick.
  assert (idling s j0 s) as Hidle.
  { refine (conj Hl (conj HN (conj _ _))).
    - apply Forall_Forall2_diag, Forall_forall. intros d _. left. reflexivity.
    - exists dj. split; [exact Hj | right; auto]. }
  destruct (idle_until_tick s j0 m Hsmall s 0 ticks Hidle Htick)
    as (fuel & s1 & Hloop & (Hl1 & HN1 & Hw1 & _) & d1 & Hd1 & Hr1).
  { destruct Hflag as [Hon|Hm]; [left; exact Hon | right; lia]. }
  destruct (Forall2_lookup_r _ _ _ _ _ Hw1 Hd1) as (d0 & Hd0 & Hwoken).
  assert (state d0 = SLEEPING) as Hs0.
  { destruct Hwoken as [Hsame|(Hsl & _)]; [|exact Hsl].
    exfalso. apply (Hnone _ d0 Hd0). congruence. }
  exists fuel. eexists. exists (Z.to_nat (NextP s1)), d0, (set_state RUNNING d1).
  split_and!.
  - unfold Dispatch. rewrite Hloop. cbn [mbind outcome_bind].
    unfold Dispatch_select. cbn zeta. unfold deref.
    cbn [Process Disable_Interrupt set_IntEnabled NextP].
    rewrite Hd1. cbn [mbind outcome_bind]. reflexivity.
  - reflexivity.
  - exact Hd0.
  - exact Hs0.
  - cbn. apply list_lookup_insert_eq. eapply lookup_lt_Some, Hd1.
  - reflexivity.
Qed.

(** ** Suspending and resuming through the API *)

(** The state the request switch finds after a call that stores [f] into
    the descriptor of the caller. *)
Lemma syscall_turn_switch (s : kernel) (c : nat) (d : PD) (sc : syscall)
    (f : PD -> PD) (tsp : stackptr) (fuel : nat) (ticks : nat -> nat) :
  Cp s = Some c -> Process s !! c = Some d ->
  api_request sc s = cp_update f (Disable_Interrupt s) ->
  syscall_turn fuel ticks sc tsp s =
  handle_request fuel ticks
    (store c (set_sp tsp (f d))
       (Enter_Kernel tsp (store c (f d) (Disable_Interrupt s)))).
Proof.
  intros Hc Hd Hreq. unfold syscall_turn. rewrite Hreq.
  rewrite (cp_update_eq f (Disable_Interrupt s) c d Hc Hd).
  cbn [mbind outcome_bind]. unfold serve_request.
  rewrite (cp_update_eq _ _ c (f d)); [reflexivity | exact Hc |].
  cbn. apply list_lookup_insert_eq. eapply lookup_lt_Some, Hd.
Qed.

Lemma pid_to_int (s : kernel) (i : nat) (d : PD) :
  table_inv s -> Process s !! i = Some d -> to_int (pid d) = pid d.
Proof.
  intros Ht Hd. apply to_int_small.
  pose proof (loop_inv_pid_small s i d Ht Hd). lia.
Qed.

(** The kernel state in which a request on the PID of slot [t] is handled:
    the caller, slot [c], carries the PID as its request argument, and
    slot [t] is the target of the lookup. *)
Lemma request_on_pid_ready (s : kernel) (c t : nat) (d p : PD) (r : Z)
    (tsp : stackptr) :
  loop_inv s -> Cp s = Some c -> Process s !! c = Some d ->
  Process s !! t = Some p -> t <> c -> pid p <> 0 ->
  let d1 := set_request_arg (to_int (pid p)) (set_request r d) in
  let sK := store c (set_sp tsp d1)
              (Enter_Kernel tsp (store c d1 (Disable_Interrupt s))) in
  Cp sK = Some c /\ Process sK !! c = Some (set_sp tsp d1) /\
  pid_target (Process sK) (request_arg (set_sp tsp d1)) t p.
Proof.
  intros (Ht & _) Hc Hd Hp Htc Hnz d1 sK.
  assert (c < length (Process s))%nat as Hclt by (eapply lookup_lt_Some, Hd).
  split_and!.
  - exact Hc.
  - cbn. apply list_lookup_insert_eq. rewrite length_insert. exact Hclt.
  - cbn [request_arg set_sp d1 set_request_arg].
    rewrite (pid_to_int s t p Ht Hp).
    destruct (table_inv_pid_target s t p Ht Hp Hnz) as (_ & Hu & Hmin).
    split_and!.
    + cbn. rewrite !list_lookup_insert_ne by congruence. exact Hp.
    + exact Hu.
    + intros j dj Hj Hlt. cbn in Hj.
      destruct (decide (j = c)) as [->|Hne].
      * rewrite list_lookup_insert_eq in Hj
          by (rewrite length_insert; exact Hclt).
        injection Hj as <-. cbn. apply (Hmin c d Hd Hlt).
      * rewrite !list_lookup_insert_ne in Hj by congruence.
        apply (Hmin j dj Hj Hlt).
Qed.

(** X13: the running task calls [Task_Suspend] on the PID of a READY
    task: the kernel makes that task SUSPENDED, sets [err] to NO_ERR and
    dispatches nothing, so the caller is resumed.  When the caller, back in
    task context (after any number of ticks), calls [Task_Resume] on the
    same PID, the target is READY again with every field as it was, [err]
    is NO_ERR and the caller is still the current, RUNNING task. *)
Theorem Task_Suspend_then_Task_Resume
    (s : kernel) (c t : nat) (p : PD) (tsp tsp' : stackptr)
    (fuel fuel' n : nat) (ticks ticks' : nat -> nat) :
  in_task s -> Cp s = Some c ->
  Process s !! t = Some p -> state p = READY ->
  exists s1 s2 s3 cd,
    syscall_turn fuel ticks (SysSuspend (pid p)) tsp s = Done s1 /\
    err s1 = NO_ERR /\ Cp s1 = Some c /\
    Process s1 !! t = Some (set_state SUSPENDED p) /\
    resume_task s1 = Done s2 /\
    syscall_turn fuel' ticks' (SysResume (pid p)) tsp' (serve_ticks n s2)
      = Done s3 /\
    err s3 = NO_ERR /\ Cp s3 = Some c /\
    Process s3 !! t = Some p /\
    Process s3 !! c = Some cd /\ state cd = RUNNING.
Proof.
  intros Htask Hc Hp Hr. pose proof (in_task_inv s Htask) as Hinv.
  destruct Hinv as (Ht & Hone & Hon).
  destruct Hone as (c0 & d & Hc0 & Hd & Hrun & Honly).
  assert (c0 = c) as -> by congruence.
  assert (t <> c) as Htc by (intros ->; congruence).
  assert (pid p <> 0) as Hnz.
  { intros Hz. pose proof (inv_pid_live s Ht t p Hp Hz). congruence. }
  assert (c < length (Process s))%nat as Hclt by (eapply lookup_lt_Some, Hd).
  assert (t < length (Process s))%nat as Htlt by (eapply lookup_lt_Some, Hp).
  assert (loop_inv s) as Hinv by (split_and!; [exact Ht | | exact Hon];
    exists c, d; auto).
  (* the suspension *)
  destruct (request_on_pid_ready s c t d p SUSPEND tsp Hinv Hc Hd Hp Htc Hnz)
    as (HcK & HdK & HtK).
  set (d1 := set_request_arg (to_int (pid p)) (set_request SUSPEND d)) in *.
  set (sK := store c (set_sp tsp d1)
               (Enter_Kernel tsp (store c d1 (Disable_Interrupt s)))) in *.
  set (s1 := set_err NO_ERR (store t (set_state SUSPENDED p) sK)).
  assert (syscall_turn fuel ticks (SysSuspend (pid p)) tsp s = Done s1) as H1.
  { rewrite (syscall_turn_switch s c d (SysSuspend (pid p))
               (fun d0 => set_request_arg (to_int (pid p)) (set_request SUSPEND d0))
               tsp fuel ticks Hc Hd eq_refl).
    fold d1. fold sK. unfold handle_request.
    rewrite (cp_get_eq sK c (set_sp tsp d1) HcK HdK). cbn [mbind outcome_bind].
    destruct (decide (request (set_sp tsp d1) = CREATE)) as [Hq|_];
      [discriminate Hq|].
    destruct (decide (request (set_sp tsp d1) = TERMINATE)) as [Hq|_];
      [discriminate Hq|].
    destruct (decide (request (set_sp tsp d1) = SUSPEND)) as [_|Hq];
      [|exfalso; apply Hq; reflexivity].
    apply (Kernel_Suspend_Task_done sK c t (set_sp tsp d1) p HcK HdK HtK Hr). }
  assert (loop_inv s1) as Hinv1.
  { pose proof (in_task_inv s Htask) as Hi.
    unfold syscall_turn in H1.
    apply bind_Done in H1 as (sa & Ha & Hb).
    eapply serve_request_inv; [exact Hb|].
    apply (loop_inv_frame sa); [|reflexivity|split_and!; reflexivity].
    eapply api_request_inv; eassumption. }
  assert (Process s1 !! c = Some (set_sp tsp d1)) as Hd1.
  { cbn. rewrite list_lookup_insert_ne by congruence.
    apply list_lookup_insert_eq. rewrite length_insert. exact Hclt. }
  assert (Process s1 !! t = Some (set_state SUSPENDED p)) as Hp1.
  { cbn. apply list_lookup_insert_eq. rewrite !length_insert. exact Htlt. }
  (* back in task context *)
  set (d2 := set_request NONE (set_sp tsp d1)).
  set (s2 := Exit_Kernel (set_CurrentSp (sp d2) (store c d2 s1))).
  assert (resume_task s1 = Done s2) as H2.
  { unfold resume_task.
    rewrite (cp_update_eq (set_request NONE) s1 c (set_sp tsp d1) Hc Hd1).
    cbn [mbind outcome_bind].
    rewrite (cp_get_eq _ c d2); [reflexivity | exact Hc |].
    cbn. apply list_lookup_insert_eq. rewrite !length_insert. exact Hclt. }
  pose proof (resume_task_inv s1 s2 H2 Hinv1) as Hinv2.
  pose proof (serve_ticks_loop_inv n s2 Hinv2) as Hinv3.
  assert (Cp (serve_ticks n s2) = Some c) as Hc2
    by (destruct (serve_ticks_counters n s2) as (-> & _); exact Hc).
  assert (Process (serve_ticks n s2) !! c = Some d2) as Hd2.
  { apply serve_ticks_awake; [|cbn; rewrite Hrun; discriminate].
    cbn. apply list_lookup_insert_eq. rewrite !length_insert. exact Hclt. }
  assert (Process (serve_ticks n s2) !! t = Some (set_state SUSPENDED p))
    as Hp2.
  { apply serve_ticks_awake; [|discriminate].
    cbn. rewrite list_lookup_insert_ne by congruence.
    apply list_lookup_insert_eq. rewrite !length_insert. exact Htlt. }
  set (s2' := serve_ticks n s2) in *.
  (* the resumption *)
  destruct (request_on_pid_ready s2' c t d2 (set_state SUSPENDED p) RESUME tsp'
              Hinv3 Hc2 Hd2 Hp2 Htc Hnz) as (HcR & HdR & HtR).
  cbn [pid set_state] in HcR, HdR, HtR.
  set (d3 := set_request_arg (to_int (pid p)) (set_request RESUME d2)) in *.
  set (sR := store c (set_sp tsp' d3)
               (Enter_Kernel tsp' (store c d3 (Disable_Interrupt s2')))) in *.
  exists s1, s2.
  exists (set_err NO_ERR (store t (set_state READY (set_state SUSPENDED p)) sR)).
  exists (set_sp tsp' d3).
  split_and!; try reflexivity.
  - exact H1.
  - exact Hc.
  - exact Hp1.
  - exact H2.
  - fold s2'.
    rewrite (syscall_turn_switch s2' c d2 (SysResume (pid p))
               (fun d0 => set_request_arg (to_int (pid p)) (set_request RESUME d0))
               tsp' fuel' ticks' Hc2 Hd2 eq_refl).
    fold d3. fold sR. unfold handle_request.
    rewrite (cp_get_eq sR c (set_sp tsp' d3) HcR HdR). cbn [mbind outcome_bind].
    destruct (decide (request (set_sp tsp' d3) = CREATE)) as [Hq|_];
      [discriminate Hq|].
    destruct (decide (request (set_sp tsp' d3) = TERMINATE)) as [Hq|_];
      [discriminate Hq|].
    destruct (decide (request (set_sp tsp' d3) = SUSPEND)) as [Hq|_];
      [discriminate Hq|].
    destruct (decide (request (set_sp tsp' d3) = RESUME)) as [_|Hq];
      [|exfalso; apply Hq; reflexivity].
    apply (Kernel_Resume_Task_done sR c t (set_sp tsp' d3)
             (set_state SUSPENDED p) HcR HdR HtR eq_refl).
  - exact Hc2.
  - cbn. rewrite list_lookup_insert_eq.
    + rewrite set_state_twice, <- Hr, set_state_same. reflexivity.
    + rewrite !length_insert.
      pose proof (lookup_lt_Some _ _ _ Hp2) as Hlt. exact Hlt.
  - cbn. rewrite list_lookup_insert_ne by congruence.
    apply list_lookup_insert_eq. rewrite length_insert.
    eapply lookup_lt_Some, Hd2.
  - cbn. exact Hrun.
Qed.

(** ** Slots the kernel leaves alone *)

Lemma kept_refl (v : PROCESS_STATES) (l : list PD) : kept v l l.
Proof. intros i d Hi _. exact Hi. Qed.

Lemma kept_trans (v : PROCESS_STATES) (l1 l2 l3 : list PD) :
  kept v l1 l2 -> kept v l2 l3 -> kept v l1 l3.
Proof. intros H12 H23 i d Hi Hv. apply H23; [apply H12|]; assumption. Qed.

Lemma kept_insert (v : PROCESS_STATES) (l : list PD) (c : nat) (dc x : PD) :
  l !! c = Some dc -> state dc <> v -> kept v l (<[c := x]> l).
Proof.
  intros Hc Hne i d Hi Hv. rewrite list_lookup_insert_ne; [exact Hi|].
  intros ->. congruence.
Qed.

Lemma kept_serve_ticks (v : PROCESS_STATES) (n : nat) (s : kernel) :
  v <> SLEEPING -> kept v (Process s) (Process (serve_ticks n s)).
Proof.
  intros Hv i d Hi Hs. apply serve_ticks_awake; [exact Hi | congruence].
Qed.

Lemma kept_cp_update (v : PROCESS_STATES) (f : PD -> PD) (s s' : kernel) :
  v <> RUNNING -> one_running s -> cp_update f s = Done s' ->
  kept v (Process s) (Process s').
Proof.
  intros Hv (c & d & Hc & Hd & Hr & _) (c' & d' & Hc' & Hd' & ->)%cp_update_Done.
  assert (c' = c) as -> by congruence.
  cbn. apply (kept_insert v _ c d); [exact Hd | congruence].
Qed.

Lemma kept_Dispatch_loop (v : PROCESS_STATES) (fuel : nat) :
  v <> SLEEPING ->
  forall ticks i s s', Dispatch_loop fuel ticks i s = Done s' ->
  kept v (Process s) (Process s').
Proof.
  intros Hv. induction fuel as [|fuel IH]; intros ticks i s s' Hrun;
    [discriminate|].
  cbn [Dispatch_loop] in Hrun.
  apply bind_Done in Hrun as (d & _ & Hrun).
  destruct (decide (state d <> READY)).
  - apply IH in Hrun. eapply kept_trans; [|exact Hrun].
    eapply kept_trans; [|apply kept_serve_ticks; exact Hv].
    destruct (decide _); apply kept_refl.
  - injection Hrun as <-. apply kept_serve_ticks. exact Hv.
Qed.

Lemma kept_Dispatch (v : PROCESS_STATES) (fuel : nat) (ticks : nat -> nat)
    (s s' : kernel) :
  v <> SLEEPING -> v <> READY ->
  table_inv s -> none_running s -> Dispatch fuel ticks s = Done s' ->
  kept v (Process s) (Process s').
Proof.
  intros Hvs Hvr Ht Hn Hrun. unfold Dispatch in Hrun.
  apply bind_Done in Hrun as (s1 & Hloop & Hsel).
  pose proof (kept_Dispatch_loop v fuel Hvs _ _ _ _ Hloop) as Hk1.
  destruct (Dispatch_loop_inv fuel ticks 0 s s1 Hloop Ht Hn)
    as (_ & _ & _ & d & Hd & Hr).
  eapply kept_trans; [exact Hk1|].
  unfold Dispatch_select in Hsel. cbn zeta in Hsel. unfold deref in Hsel.
  cbn [Process Disable_Interrupt set_IntEnabled NextP] in Hsel.
  rewrite Hd in Hsel. cbn [mbind outcome_bind] in Hsel.
  injection Hsel as <-. cbn.
  apply (kept_insert v _ _ d); [exact Hd | congruence].
Qed.

Lemma kept_Kernel_Create_Task (v : PROCESS_STATES) (f py a : Z)
    (s s' : kernel) :
  v <> DEAD -> table_inv s -> Kernel_Create_Task f py a s = Done s' ->
  kept v (Process s) (Process s').
Proof.
  intros Hv Ht Hrun.
  destruct (decide (Tasks s = Z.of_nat MAXTHREAD)) as [HT|HT].
  - rewrite Kernel_Create_Task_full in Hrun by exact HT.
    injection Hrun as <-. apply kept_refl.
  - destruct (table_inv_first_dead s Ht HT) as (x & p & Hx & _).
    rewrite (Kernel_Create_Task_alloc f py a s x p HT Hx) in Hrun.
    injection Hrun as <-. cbn. destruct Hx as (Hx & Hdead & _).
    apply (kept_insert v _ x p); [exact Hx | congruence].
Qed.

Lemma kept_Kernel_Suspend_Task (v : PROCESS_STATES) (s s' : kernel) :
  v <> READY -> Kernel_Suspend_Task s = Done s' ->
  kept v (Process s) (Process s').
Proof.
  intros Hv. unfold Kernel_Suspend_Task. intros (c & _ & Hrun)%bind_Done.
  destruct (findProcessByPID _ _) as [t|];
    [|injection Hrun as <-; apply kept_refl].
  apply bind_Done in Hrun as (p & Hp%deref_Done & Hrun).
  destruct (decide (state p <> READY)) as [Hs|Hs]; injection Hrun as <-;
    [apply kept_refl|].
  cbn. apply (kept_insert v _ t p); [exact Hp|].
  destruct (decide (state p = READY)); [congruence | contradiction].
Qed.

Lemma kept_Kernel_Resume_Task (v : PROCESS_STATES) (s s' : kernel) :
  v <> SUSPENDED -> Kernel_Resume_Task s = Done s' ->
  kept v (Process s) (Process s').
Proof.
  intros Hv. unfold Kernel_Resume_Task. intros (c & _ & Hrun)%bind_Done.
  destruct (findProcessByPID _ _) as [t|];
    [|injection Hrun as <-; apply kept_refl].
  apply bind_Done in Hrun as (p & Hp%deref_Done & Hrun).
  destruct (decide (state p <> SUSPENDED)) as [Hs|Hs]; injection Hrun as <-;
    [apply kept_refl|].
  cbn. apply (kept_insert v _ t p); [exact Hp|].
  destruct (decide (state p = SUSPENDED)); [congruence | contradiction].
Qed.

Lemma kept_handle_request (v : PROCESS_STATES) (fuel : nat)
    (ticks : nat -> nat) (s s' : kernel) (c : nat) (d : PD) :
  v <> RUNNING -> v <> SLEEPING -> v <> READY ->
  (v = DEAD -> request d <> CREATE) ->
  (v = SUSPENDED -> request d <> RESUME) ->
  loop_inv s -> Cp s = Some c -> Process s !! c = Some d ->
  handle_request fuel ticks s = Done s' ->
  kept v (Process s) (Process s').
Proof.
  intros Hvr Hvs Hvy Hcreate Hresume Hinv Hc Hd Hrun.
  unfold handle_request in Hrun. rewrite (cp_get_eq s c d Hc Hd) in Hrun.
  cbn [mbind outcome_bind] in Hrun.
  assert (forall w, w <> RUNNING ->
            (cp_update (set_state w) s ≫= Dispatch fuel ticks) = Done s' ->
            kept v (Process s) (Process s')) as Hgive.
  { intros w Hw (s1 & Hupd & Hdisp)%bind_Done.
    destruct (cp_update_state_inv w s s1 Hw Hupd Hinv) as (Ht1 & Hn1 & _).
    eapply kept_trans.
    - eapply (kept_cp_update v); [exact Hvr | apply Hinv | exact Hupd].
    - apply (kept_Dispatch v fuel ticks s1 s'); assumption. }
  destruct (decide (request d = CREATE)) as [Hq|_].
  { eapply (kept_Kernel_Create_Task v); [|apply Hinv|exact Hrun].
    intros ->. exact (Hcreate eq_refl Hq). }
  destruct (decide (request d = TERMINATE)) as [_|_].
  { apply (Hgive DEAD); [discriminate | exact Hrun]. }
  destruct (decide (request d = SUSPEND)) as [_|_].
  { apply (kept_Kernel_Suspend_Task v s s' Hvy Hrun). }
  destruct (decide (request d = RESUME)) as [Hq|_].
  { apply (kept_Kernel_Resume_Task v s s'); [|exact Hrun].
    intros ->. exact (Hresume eq_refl Hq). }
  destruct (decide (request d = SLEEP)) as [_|_].
  { apply (Hgive SLEEPING); [discriminate | exact Hrun]. }
  destruct (decide (request d = YIELD \/ request d = NONE)) as [_|_].
  { apply (Hgive READY); [discriminate | exact Hrun]. }
  injection Hrun as <-. apply kept_refl.
Qed.

Lemma kept_resume_task (v : PROCESS_STATES) (s s' : kernel) :
  v <> RUNNING -> one_running s -> resume_task s = Done s' ->
  kept v (Process s) (Process s').
Proof.
  intros Hv Hone. unfold resume_task. intros (sa & Ha & Hb)%bind_Done.
  apply bind_Done in Hb as (da & _ & Hb). injection Hb as <-.
  exact (kept_cp_update v _ s sa Hv Hone Ha).
Qed.

Lemma kept_run_task (v : PROCESS_STATES) (r : task_run) (s s' : kernel) :
  v <> RUNNING -> v <> SLEEPING -> one_running s -> run_task r s = Done s' ->
  kept v (Process s) (Process s').
Proof.
  intros Hvr Hvs Hone. unfold run_task. intros (sa & Ha & Hb)%bind_Done.
  injection Hb as <-. cbn [Process Enter_Kernel set_CurrentSp].
  eapply kept_trans; [apply (kept_serve_ticks v (run_ticks r) s Hvs)|].
  pose proof (serve_ticks_one_running (run_ticks r) s Hone) as Hone'.
  destruct (run_call r); cbn [api_request] in Ha;
    try exact (kept_cp_update v _ (Disable_Interrupt _) sa Hvr Hone' Ha).
  injection Ha as <-. apply kept_refl.
Qed.

(** X14: over one turn of the request loop, with any timer interrupts, a
    SUSPENDED slot is found exactly as it was unless the request is RESUME,
    and a DEAD slot is found exactly as it was unless the request is
    CREATE: neither the timer nor the dispatcher ever wakes a suspended
    task, and only a creation reuses a dead slot. *)
Theorem suspended_and_dead_slots_stay
    (s s' : kernel) (fuel : nat) (ticks : nat -> nat) (r : task_run)
    (i : nat) (d : PD) :
  loop_top s -> loop_body fuel ticks r s = Done s' ->
  Process s !! i = Some d ->
  (state d = SUSPENDED -> call_code (run_call r) <> RESUME ->
     Process s' !! i = Some d) /\
  (state d = DEAD -> call_code (run_call r) <> CREATE ->
     Process s' !! i = Some d).
Proof.
  intros Htop Hbody Hi. pose proof (loop_top_inv s Htop) as Hinv.
  unfold loop_body in Hbody.
  apply bind_Done in Hbody as (s1 & H1 & Hbody).
  apply bind_Done in Hbody as (s2 & H2 & Hbody).
  pose proof (resume_task_inv s s1 H1 Hinv) as Hinv1.
  pose proof (run_task_inv r s1 s2 H2 Hinv1) as Hinv2.
  unfold serve_request in Hbody.
  apply bind_Done in Hbody as (s3 & H3 & Hbody).
  assert (loop_inv s3) as Hinv3.
  { eapply cp_update_loop_inv; [|exact H3|exact Hinv2].
    intros d0. apply set_sp_calm. }
  (* the request code the switch reads *)
  assert (exists c d3, Cp s3 = Some c /\ Process s3 !! c = Some d3 /\
                       request d3 = call_code (run_call r))
    as (c & d3 & Hc3 & Hd3 & Hcode).
  { pose proof (in_task_resumed s s1 (run_ticks r) Htop H1) as Htask.
    pose proof (in_task_inv _ Htask) as (_ & (c & dt & Hct & Hdt & _) & _).
    pose proof (in_task_request_NONE _ c dt Htask Hct Hdt) as Hnone.
    unfold run_task in H2. apply bind_Done in H2 as (sa & Ha & Hb).
    injection Hb as <-.
    assert (exists da, Cp sa = Some c /\ Process sa !! c = Some da /\
                       request da = call_code (run_call r))
      as (da & Hca & Hda & Hra).
    { assert (c < length (Process (serve_ticks (run_ticks r) s1)))%nat
        as Hclt by (eapply lookup_lt_Some, Hdt).
      destruct (run_call r); cbn [api_request call_code] in *;
        try (apply cp_update_Done in Ha as (c' & d' & Hc' & Hd' & ->);
             cbn in Hc', Hd';
             assert (c' = c) as -> by congruence;
             eexists; split_and!;
             [exact Hct | cbn; apply list_lookup_insert_eq; exact Hclt
             | reflexivity]).
      injection Ha as <-. exists dt. split_and!; assumption. }
    apply cp_update_Done in H3 as (c' & d' & Hc' & Hd' & ->).
    cbn in Hc', Hd'. assert (c' = c) as -> by congruence.
    assert (d' = da) as -> by congruence.
    exists c, (set_sp (CurrentSp (Enter_Kernel (run_sp r) sa)) da).
    split_and!; [exact Hca | | exact Hra].
    cbn. apply list_lookup_insert_eq. eapply lookup_lt_Some, Hda. }
  assert (forall v, v <> RUNNING -> v <> SLEEPING -> v <> READY ->
            (v = DEAD -> call_code (run_call r) <> CREATE) ->
            (v = SUSPENDED -> call_code (run_call r) <> RESUME) ->
            kept v (Process s) (Process s')) as Hkept.
  { intros v Hvr Hvs Hvy Hcr Hre.
    apply (kept_trans v _ (Process s1));
      [|apply (kept_trans v _ (Process s2));
        [|apply (kept_trans v _ (Process s3))]].
    - apply (kept_resume_task v s s1 Hvr); [apply Hinv | exact H1].
    - apply (kept_run_task v r s1 s2 Hvr Hvs); [apply Hinv1 | exact H2].
    - eapply (kept_cp_update v); [exact Hvr | apply Hinv2 | exact H3].
    - apply (kept_handle_request v fuel ticks s3 s' c d3); try assumption;
        rewrite Hcode; assumption. }
  split; intros Hs Hq.
  - apply (Hkept SUSPENDED); try discriminate; try assumption.
    intros _. exact Hq.
  - apply (Hkept DEAD); try discriminate; try assumption.
    intros _. exact Hq.
Qed.

(** ** Looking a task up by its function *)

Lemma findPIDByFuncPtr_first (tbl : list PD) (f : Z) (i : nat) (d : PD) :
  tbl !! i = Some d -> code d = f ->
  (forall j dj, tbl !! j = Some dj -> (j < i)%nat -> code dj <> f) ->
  findPIDByFuncPtr tbl f = to_int (pid d).
Proof.
  intros Hi Hf Hfirst. unfold findPIDByFuncPtr.
  assert (list_find (fun d0 => code d0 = f) tbl = Some (i, d)) as ->;
    [|reflexivity].
  apply list_find_Some. split_and!; assumption.
Qed.

Lemma findPIDByFuncPtr_none (tbl : list PD) (f : Z) :
  (forall i d, tbl !! i = Some d -> code d <> f) ->
  findPIDByFuncPtr tbl f = -1.
Proof.
  intros Hno. unfold findPIDByFuncPtr.
  assert (list_find (fun d0 => code d0 = f) tbl = None) as ->;
    [|reflexivity].
  apply list_find_None, Forall_lookup. exact Hno.
Qed.

(** X15: at the top of the request loop [findPIDByFuncPtr f] is -1 exactly
    when no slot of the table holds the function [f]; otherwise it is the
    PID, between 0 and MAXTHREAD, of the first slot that holds [f],
    whatever the state of that slot. *)
Theorem findPIDByFuncPtr_reachable (s : kernel) (f : Z) :
  loop_top s ->
  (findPIDByFuncPtr (Process s) f = -1 <->
     forall i d, Process s !! i = Some d -> code d <> f) /\
  (forall i d, Process s !! i = Some d -> code d = f ->
     (forall j dj, Process s !! j = Some dj -> (j < i)%nat -> code dj <> f) ->
     findPIDByFuncPtr (Process s) f = pid d /\
     0 <= pid d <= Z.of_nat MAXTHREAD).
Proof.
  intros Htop. destruct (loop_top_inv s Htop) as (Ht & _).
  pose proof (inv_Tasks s Ht) as HTr. pose proof (inv_last_PID s Ht) as HL.
  assert (forall i d, Process s !! i = Some d ->
            0 <= pid d <= Z.of_nat MAXTHREAD) as Hrange.
  { intros i d Hi. pose proof (inv_pid_range s Ht i d Hi). lia. }
  assert (forall i d, Process s !! i = Some d -> code d = f ->
     (forall j dj, Process s !! j = Some dj -> (j < i)%nat -> code dj <> f) ->
     findPIDByFuncPtr (Process s) f = pid d) as Hfound.
  { intros i d Hi Hf Hfirst.
    rewrite (findPIDByFuncPtr_first _ f i d Hi Hf Hfirst).
    apply to_int_small. specialize (Hrange i d Hi). lia. }
  split.
  - split; [|apply findPIDByFuncPtr_none].
    unfold findPIDByFuncPtr.
    destruct (list_find (fun d0 => code d0 = f) (Process s))
      as [[k dk]|] eqn:Hfind.
    + apply list_find_Some in Hfind as (Hk & _ & _).
      specialize (Hrange k dk Hk). rewrite to_int_small by lia. lia.
    + intros _. apply list_find_None in Hfind.
      intros i d Hi. exact (proj1 (Forall_lookup _ _) Hfind i d Hi).
  - intros i d Hi Hf Hfirst. split; [apply (Hfound i d Hi Hf Hfirst)|].
    apply (Hrange i d Hi).
Qed.

(** X16: [main] creates a task from the function [f] when [n < MAXTHREAD]
    tasks exist.  If none of them was created from [f], looking [f] up
    afterwards gives the PID [Task_Create] returned; if one was, the lookup
    gives the PID of the first of them and never that of the new task. *)
Theorem findPIDByFuncPtr_after_Task_Create
    (s : kernel) (f py a : Z) (tsp : stackptr) :
  booted s -> Tasks s <> Z.of_nat MAXTHREAD ->
  exists s',
    Task_Create f py a tsp s = Done (Tasks s + 1, s') /\
    ((forall i d, Process s !! i = Some d -> Z.of_nat i < Tasks s ->
        code d <> f) ->
     findPIDByFuncPtr (Process s') f = Tasks s + 1) /\
    (forall i d, Process s !! i = Some d -> Z.of_nat i < Tasks s ->
       code d = f ->
       (forall j dj, Process s !! j = Some dj -> (j < i)%nat ->
          code dj <> f) ->
       findPIDByFuncPtr (Process s') f = Z.of_nat i + 1 /\
       Z.of_nat i + 1 <> Tasks s + 1).
Proof.
  intros Hboot HT.
  pose proof (booted_boot_inv s Hboot) as (Ht & _ & Ha & _).
  pose proof (booted_boot_shape s Hboot) as (_ & _ & Hused).
  pose proof (inv_Tasks s Ht) as HTr. pose proof (inv_last_PID s Ht) as HL.
  destruct (boot_first_dead s Ht (booted_boot_shape s Hboot) HT) as (p & Hx).
  pose proof (Kernel_Create_Task_alloc f py a s _ p HT Hx) as Hrun.
  destruct Hx as (Hx & _).
  assert (Z.to_nat (Tasks s) < length (Process s))%nat as Hxlt
    by (eapply lookup_lt_Some, Hx).
  eexists. split_and!.
  - unfold Task_Create.
    destruct (decide (KernelActive s <> 0)) as [?|_]; [contradiction|].
    rewrite Hrun. cbn [mbind outcome_bind]. f_equal. f_equal.
    unfold Task_Create_result. cbn. rewrite HL, to_uint_small by lia.
    reflexivity.
  - intros Hfresh. cbn.
    match goal with
    | |- findPIDByFuncPtr (<[_ := ?d']> _) _ = _ =>
        rewrite (findPIDByFuncPtr_first _ f (Z.to_nat (Tasks s)) d')
    end.
    + cbn. rewrite HL, to_uint_small by lia. apply to_int_small. lia.
    + apply list_lookup_insert_eq. exact Hxlt.
    + reflexivity.
    + intros j dj Hj Hlt. rewrite list_lookup_insert_ne in Hj by lia.
      apply (Hfresh j dj Hj). lia.
  - intros i d Hi Hlt Hf Hfirst. split; [|lia]. cbn.
    destruct (Hused i d Hi Hlt) as (_ & Hpid).
    rewrite (findPIDByFuncPtr_first _ f i d).
    + rewrite Hpid. apply to_int_small. lia.
    + rewrite list_lookup_insert_ne by lia. exact Hi.
    + exact Hf.
    + intros j dj Hj Hlt'. rewrite list_lookup_insert_ne in Hj by lia.
      apply (Hfirst j dj Hj Hlt').
Qed.

(** ** The timer registers *)

Lemma testbit_to_uchar (z n : Z) :
  0 <= n -> Z.testbit (to_uchar z) n = (n <? 8) && Z.testbit z n.
Proof.
  clear MAXTHREAD_pos MAXTHREAD_int WORKSPACE_frame.
  intros Hn. unfold to_uchar. change 256 with (2 ^ 8).
  destruct (Z.ltb_spec n 8).
  - rewrite Z.mod_pow2_bits_low by lia. reflexivity.
  - rewrite Z.mod_pow2_bits_high by lia. reflexivity.
Qed.

Lemma testbit_bit (k n : Z) :
  0 <= n -> Z.testbit (Z.shiftl 1 k) n = (n =? k).
Proof.
  clear MAXTHREAD_pos MAXTHREAD_int WORKSPACE_frame.
  intros Hn. rewrite Z.shiftl_spec by exact Hn.
  destruct (Z.eqb_spec n k) as [->|Hne].
  - rewrite Z.sub_diag. reflexivity.
  - destruct (Z.lt_ge_cases (n - k) 0).
    + apply Z.testbit_neg_r. assumption.
    + apply Z.bits_above_log2; [lia|]. change (Z.log2 1) with 0. lia.
Qed.

Lemma testbit_set_bits (m r n : Z) :
  0 <= n ->
  Z.testbit (set_bits m r) n = (n <? 8) && (Z.testbit r n || Z.testbit m n).
Proof.
  intros Hn. unfold set_bits.
  rewrite testbit_to_uchar, Z.lor_spec by exact Hn. reflexivity.
Qed.

Lemma testbit_clear_bits (m r n : Z) :
  0 <= n ->
  Z.testbit (clear_bits m r) n =
  (n <? 8) && (Z.testbit r n && negb (Z.testbit m n)).
Proof.
  intros Hn. unfold clear_bits.
  rewrite testbit_to_uchar, Z.land_spec, Z.lnot_spec by exact Hn.
  reflexivity.
Qed.

(** Each bit of TCCR1B after the four statements of [Timer_init]. *)
Lemma Timer_init_TCCR1B_testbit (r : timer1) (n : Z) :
  0 <= n ->
  Z.testbit (TCCR1B (Timer_init r)) n =
  (n <? 8) &&
  negb ((n =? WGM13) || (n =? WGM11) || (n =? WGM10)) &&
  ((n =? WGM12) ||
   negb (n =? CS11) && ((n =? CS12) || (n =? CS10) || Z.testbit (TCCR1B r) n)).
Proof.
  intros Hn. unfold Timer_init. cbn [TCCR1B].
  rewrite testbit_clear_bits, testbit_set_bits, testbit_clear_bits,
    testbit_set_bits, !Z.lor_spec, !testbit_bit by exact Hn.
  destruct (n <? 8), (n =? WGM13), (n =? WGM11), (n =? WGM10), (n =? WGM12),
    (n =? CS11), (n =? CS12), (n =? CS10), (Z.testbit (TCCR1B r) n);
    reflexivity.
Qed.

Lemma Timer_init_TIMSK1_testbit (r : timer1) (n : Z) :
  0 <= n ->
  Z.testbit (TIMSK1 (Timer_init r)) n =
  (n <? 8) && ((n =? OCIE1A) || Z.testbit (TIMSK1 r) n).
Proof.
  intros Hn. unfold Timer_init. cbn [TIMSK1].
  rewrite testbit_set_bits, testbit_bit by exact Hn.
  destruct (n <? 8), (n =? OCIE1A), (Z.testbit (TIMSK1 r) n); reflexivity.
Qed.

(** X17: the clock-select bit CS10, which the first statement of
    [Timer_init] sets, is still set at the end only if it is none of the
    bits the later statements clear: when WGM10 is the same bit number as
    CS10 the last statement clears it again, whatever TCCR1B held. *)
Theorem Timer_init_CS10 (r : timer1) :
  0 <= CS10 < 8 ->
  (WGM10 = CS10 -> Z.testbit (TCCR1B (Timer_init r)) CS10 = false) /\
  (CS10 <> CS11 -> CS10 <> WGM10 -> CS10 <> WGM11 -> CS10 <> WGM13 ->
   Z.testbit (TCCR1B (Timer_init r)) CS10 = true).
Proof.
  clear MAXTHREAD_pos MAXTHREAD_int WORKSPACE_frame.
  intros Hn. rewrite Timer_init_TCCR1B_testbit by lia.
  assert ((CS10 <? 8) = true) as -> by (apply Z.ltb_lt; lia).
  rewrite (Z.eqb_refl CS10). split.
  - intros ->. rewrite (Z.eqb_refl CS10).
    destruct (CS10 =? WGM13), (CS10 =? WGM11); reflexivity.
  - intros H1 H2 H3 H4.
    apply Z.eqb_neq in H1, H2, H3, H4. rewrite H1, H2, H3, H4.
    destruct (CS10 =? WGM12), (CS10 =? CS12); reflexivity.
Qed.

(** X18: running [Timer_init] a second time changes no register. *)
Theorem Timer_init_idempotent (r : timer1) :
  Timer_init (Timer_init r) = Timer_init r.
Proof.
  assert (TCCR1B (Timer_init (Timer_init r)) = TCCR1B (Timer_init r)) as Hb.
  { apply Z.bits_inj'. intros n Hn.
    rewrite (Timer_init_TCCR1B_testbit (Timer_init r)) by exact Hn.
    rewrite Timer_init_TCCR1B_testbit by exact Hn.
    destruct (n <? 8), (n =? WGM13), (n =? WGM11), (n =? WGM10),
      (n =? WGM12), (n =? CS11), (n =? CS12), (n =? CS10),
      (Z.testbit (TCCR1B r) n); reflexivity. }
  assert (TIMSK1 (Timer_init (Timer_init r)) = TIMSK1 (Timer_init r)) as Hm.
  { apply Z.bits_inj'. intros n Hn.
    rewrite (Timer_init_TIMSK1_testbit (Timer_init r)) by exact Hn.
    rewrite Timer_init_TIMSK1_testbit by exact Hn.
    destruct (n <? 8), (n =? OCIE1A), (Z.testbit (TIMSK1 r) n);
      reflexivity. }
  transitivity (mkTimer1 (TCCR1B (Timer_init (Timer_init r)))
                  (OCR1A (Timer_init (Timer_init r)))
                  (TCNT1 (Timer_init (Timer_init r)))
                  (TIMSK1 (Timer_init (Timer_init r)))).
  - reflexivity.
  - rewrite Hb, Hm. reflexivity.
Qed.

(** X19: [Timer_init] touches no other bit: a bit of TCCR1B that is none
    of the seven it names, and a bit of TIMSK1 other than OCIE1A, keeps its
    value; the compare value becomes TICK_LENG and the counter 0. *)
Theorem Timer_init_frame (r : timer1) (n : Z) :
  0 <= n < 8 ->
  (n <> CS10 -> n <> CS11 -> n <> CS12 ->
   n <> WGM10 -> n <> WGM11 -> n <> WGM12 -> n <> WGM13 ->
   Z.testbit (TCCR1B (Timer_init r)) n = Z.testbit (TCCR1B r) n) /\
  (n <> OCIE1A ->
   Z.testbit (TIMSK1 (Timer_init r)) n = Z.testbit (TIMSK1 r) n) /\
  OCR1A (Timer_init r) = 157 /\ TCNT1 (Timer_init r) = 0.
Proof.
  clear MAXTHREAD_pos MAXTHREAD_int WORKSPACE_frame.
  intros Hn.
  rewrite Timer_init_TCCR1B_testbit, Timer_init_TIMSK1_testbit by lia.
  assert ((n <? 8) = true) as -> by (apply Z.ltb_lt; lia).
  split_and!; [| |reflexivity..].
  - intros H1 H2 H3 H4 H5 H6 H7.
    apply Z.eqb_neq in H1, H2, H3, H4, H5, H6, H7.
    rewrite H1, H2, H3, H4, H5, H6, H7. reflexivity.
  - intros H1. apply Z.eqb_neq in H1. rewrite H1. reflexivity.
Qed.

(** ** The interrupt flag *)

Lemma cp_update_IntEnabled (f : PD -> PD) (s s' : kernel) :
  cp_update f s = Done s' -> IntEnabled s' = IntEnabled s.
Proof. intros (c & d & _ & _ & ->)%cp_update_Done. reflexivity. Qed.

Lemma api_request_interrupts_off (sc : syscall) (s s' : kernel) :
  api_request sc s = Done s' -> IntEnabled s' = false.
Proof.
  destruct sc; cbn [api_request]; intros Hrun;
    try (apply cp_update_IntEnabled in Hrun; rewrite Hrun; reflexivity).
  injection Hrun as <-. reflexivity.
Qed.

Lemma Dispatch_interrupts_off (fuel : nat) (ticks : nat -> nat)
    (s s' : kernel) :
  Dispatch fuel ticks s = Done s' -> IntEnabled s' = false.
Proof.
  unfold Dispatch. intros (s1 & _ & Hsel)%bind_Done.
  unfold Dispatch_select in Hsel. cbn zeta in Hsel.
  apply bind_Done in Hsel as (d & _ & Hsel). injection Hsel as <-.
  reflexivity.
Qed.

Lemma Kernel_Suspend_Task_IntEnabled (s s' : kernel) :
  Kernel_Suspend_Task s = Done s' -> IntEnabled s' = IntEnabled s.
Proof.
  unfold Kernel_Suspend_Task. intros (c & _ & Hrun)%bind_Done.
  destruct (findProcessByPID _ _) as [t|];
    [|injection Hrun as <-; reflexivity].
  apply bind_Done in Hrun as (p & _ & Hrun).
  destruct (decide _); injection Hrun as <-; reflexivity.
Qed.

Lemma Kernel_Resume_Task_IntEnabled (s s' : kernel) :
  Kernel_Resume_Task s = Done s' -> IntEnabled s' = IntEnabled s.
Proof.
  unfold Kernel_Resume_Task. intros (c & _ & Hrun)%bind_Done.
  destruct (findProcessByPID _ _) as [t|];
    [|injection Hrun as <-; reflexivity].
  apply bind_Done in Hrun as (p & _ & Hrun).
  destruct (decide _); injection Hrun as <-; reflexivity.
Qed.

Lemma handle_request_interrupts_off (fuel : nat) (ticks : nat -> nat)
    (s s' : kernel) :
  table_inv s -> IntEnabled s = false ->
  handle_request fuel ticks s = Done s' -> IntEnabled s' = false.
Proof.
  intros Ht Hoff. unfold handle_request. intros (d & _ & Hrun)%bind_Done.
  assert (forall w,
            (cp_update (set_state w) s ≫= Dispatch fuel ticks) = Done s' ->
            IntEnabled s' = false) as Hgive.
  { intros w (s1 & _ & Hdisp)%bind_Done.
    exact (Dispatch_interrupts_off fuel ticks s1 s' Hdisp). }
  destruct (decide (request d = CREATE)).
  { destruct (Kernel_Create_Task_inv _ _ _ s s' Hrun Ht)
      as (_ & _ & _ & _ & ->). exact Hoff. }
  destruct (decide (request d = TERMINATE)); [exact (Hgive _ Hrun)|].
  destruct (decide (request d = SUSPEND)).
  { rewrite (Kernel_Suspend_Task_IntEnabled s s' Hrun). exact Hoff. }
  destruct (decide (request d = RESUME)).
  { rewrite (Kernel_Resume_Task_IntEnabled s s' Hrun). exact Hoff. }
  destruct (decide (request d = SLEEP)); [exact (Hgive _ Hrun)|].
  destruct (decide (request d = YIELD \/ request d = NONE));
    [exact (Hgive _ Hrun)|].
  injection Hrun as <-. exact Hoff.
Qed.

(** X20: whenever the kernel is at the top of its request loop, after
    [OS_Start] or after any request, with any timer interrupts on the way,
    the interrupt flag is off: every request is handled with interrupts
    disabled, and an idle dispatcher that enabled them disabled them again
    before it chose a task. *)
Theorem request_loop_interrupts_off (s : kernel) :
  loop_top s -> IntEnabled s = false.
Proof.
  induction 1 as [s0 fuel ticks s Hboot Hstart Hact
                 | s fuel ticks r s' Htop IH Hbody].
  - unfold OS_Start in Hstart.
    destruct (decide _) as [_|_];
      [|injection Hstart as <-;
        exact (proj2 (proj2 (proj2 (booted_boot_inv _ Hboot))))].
    exact (Dispatch_interrupts_off _ _ _ _ Hstart).
  - pose proof (loop_top_inv s Htop) as Hinv.
    unfold loop_body in Hbody.
    apply bind_Done in Hbody as (s1 & H1 & Hbody).
    apply bind_Done in Hbody as (s2 & H2 & Hbody).
    pose proof (run_task_inv r s1 s2 H2 (resume_task_inv s s1 H1 Hinv))
      as Hinv2.
    unfold serve_request in Hbody.
    apply bind_Done in Hbody as (s3 & H3 & Hbody).
    apply (handle_request_interrupts_off fuel ticks s3 s'); [| |exact Hbody].
    + eapply cp_update_loop_inv; [|exact H3|exact Hinv2].
      intros d0. apply set_sp_calm.
    + rewrite (cp_update_IntEnabled _ s2 s3 H3).
      unfold run_task in H2. apply bind_Done in H2 as (sa & Ha & Hb).
      injection Hb as <-. cbn.
      exact (api_request_interrupts_off _ _ sa Ha).
Qed.

(** ** A task cannot suspend itself *)

(** X21: the running task calls [Task_Suspend] on its own PID: the lookup
    finds the caller, which is RUNNING and not READY, so the kernel answers
    SUSPEND_NONRUNNING_TASK_ERR, dispatches nothing and resumes the caller;
    no slot other than the caller's changes, and the caller keeps its PID
    and stays RUNNING. *)
Theorem Task_Suspend_self_refused
    (s : kernel) (c : nat) (d : PD) (tsp : stackptr)
    (fuel : nat) (ticks : nat -> nat) :
  in_task s -> Cp s = Some c -> Process s !! c = Some d ->
  exists s' d',
    syscall_turn fuel ticks (SysSuspend (pid d)) tsp s = Done s' /\
    err s' = SUSPEND_NONRUNNING_TASK_ERR /\ Cp s' = Some c /\
    Process s' !! c = Some d' /\ state d' = RUNNING /\ pid d' = pid d /\
    forall i, i <> c -> Process s' !! i = Process s !! i.
Proof.
  intros Htask Hc Hd. pose proof (in_task_inv s Htask) as Hinv.
  destruct Hinv as (Ht & (c0 & d0 & Hc0 & Hd0 & Hrun & _) & Hon).
  assert (c0 = c) as -> by congruence.
  assert (d0 = d) as -> by congruence.
  assert (c < length (Process s))%nat as Hclt by (eapply lookup_lt_Some, Hd).
  set (d1 := set_request_arg (to_int (pid d)) (set_request SUSPEND d)).
  set (sK := store c (set_sp tsp d1)
               (Enter_Kernel tsp (store c d1 (Disable_Interrupt s)))).
  assert (Process sK !! c = Some (set_sp tsp d1)) as HdK.
  { cbn. apply list_lookup_insert_eq. rewrite length_insert. exact Hclt. }
  assert (syscall_turn fuel ticks (SysSuspend (pid d)) tsp s =
          handle_request fuel ticks sK) as Hturn.
  { exact (syscall_turn_switch s c d (SysSuspend (pid d))
             (fun d0 => set_request_arg (to_int (pid d))
                          (set_request SUSPEND d0))
             tsp fuel ticks Hc Hd eq_refl). }
  assert (table_inv sK) as HtK.
  { assert (loop_inv sK) as (HtK & _); [|exact HtK].
    pose proof (in_task_inv s Htask) as Hi.
    assert (api_request (SysSuspend (pid d)) s
            = Done (store c d1 (Disable_Interrupt s))) as Ha.
    { cbn [api_request].
      exact (cp_update_eq
               (fun d0 => set_request_arg (to_int (pid d))
                            (set_request SUSPEND d0))
               (Disable_Interrupt s) c d Hc Hd). }
    pose proof (api_request_inv _ _ _ Ha Hi) as Hi1.
    eapply (cp_update_loop_inv (set_sp tsp)
              (Enter_Kernel tsp (store c d1 (Disable_Interrupt s))) sK).
    - intros d2. apply set_sp_calm.
    - apply (cp_update_eq (set_sp tsp) _ c d1); [exact Hc|].
      cbn. apply list_lookup_insert_eq. exact Hclt.
    - apply (loop_inv_frame (store c d1 (Disable_Interrupt s)));
        [exact Hi1 | reflexivity | split_and!; reflexivity]. }
  assert (pid d <> 0) as Hnz.
  { intros Hz. pose proof (inv_pid_live s Ht c d Hd Hz). congruence. }
  pose proof (table_inv_pid_target sK c (set_sp tsp d1) HtK HdK Hnz) as Htgt.
  assert (request_arg (set_sp tsp d1) = pid (set_sp tsp d1)) as Harg
    by exact (pid_to_int s c d Ht Hd).
  exists (set_err SUSPEND_NONRUNNING_TASK_ERR sK), (set_sp tsp d1).
  split_and!.
  - rewrite Hturn. unfold handle_request.
    rewrite (cp_get_eq sK c (set_sp tsp d1) Hc HdK). cbn [mbind outcome_bind].
    destruct (decide (request (set_sp tsp d1) = CREATE)) as [Hq|_];
      [discriminate Hq|].
    destruct (decide (request (set_sp tsp d1) = TERMINATE)) as [Hq|_];
      [discriminate Hq|].
    destruct (decide (request (set_sp tsp d1) = SUSPEND)) as [_|Hq];
      [|exfalso; apply Hq; reflexivity].
    apply (Kernel_Suspend_Task_refused sK c c (set_sp tsp d1) (set_sp tsp d1)
             Hc HdK).
    + rewrite Harg. exact Htgt.
    + cbn. rewrite Hrun. discriminate.
  - reflexivity.
  - exact Hc.
  - exact HdK.
  - exact Hrun.
  - reflexivity.
  - intros i Hne. cbn. rewrite !list_lookup_insert_ne by congruence.
    reflexivity.
Qed.

End Kernel.

(** * A worked configuration

    The literal configuration of the specification, MAXTHREAD = 16 and
    WORKSPACE = 256, with the three tasks of [main].  The program addresses
    are those of one possible link of the program. *)

Definition addr_Task_Terminate : Z := 1234.
Definition addr_Ping : Z := 2000.
Definition addr_Pong : Z := 2100.
Definition addr_suspend_pong : Z := 2200.

Definition no_ticks : nat -> nat := fun _ => 0%nat.

(** The state a computation ends in (the reset state if it does not). *)
Definition the (o : outcome kernel) : kernel :=
  match o with
  | Done s => s
  | _ => reset_state 16 256
  end.

(** [Task_Create(f, py, a)] called from [main]. *)
Definition created (f py a : Z) (s : kernel) : kernel :=
  match Task_Create 16 256 addr_Task_Terminate f py a NullSp s with
  | Done (_, s') => s'
  | _ => s
  end.

(** [main] just before [OS_Start]. *)
Definition boot3 : kernel :=
  created addr_suspend_pong 10 0
    (created addr_Pong 10 205
       (created addr_Ping 10 210 (OS_Init 256 (reset_state 16 256)))).

(** The top of the request loop, reached for the first time. *)
Definition run3 : kernel := the (OS_Start 16 16 no_ticks boot3).

(** Ping, the first task, runs. *)
Definition task3 : kernel := serve_ticks 0 (the (resume_task run3)).

(** Ping has called [Task_Suspend(2)] and is about to enter the kernel. *)
Definition suspending3 : kernel := the (api_request (SysSuspend 2) task3).

(** Ping has called [Task_Sleep(1)]; Pong runs. *)
Definition sleeping3 : kernel :=
  the (loop_body 16 256 addr_Task_Terminate 16 no_ticks
         (mkRun 0 (SysSleep 1) (WsPtr 0 180)) run3).

(** The descriptor in slot [i] of a state. *)
Definition slot (s : kernel) (i : nat) : PD :=
  match Process s !! i with
  | Some d => d
  | None => PD_zero 256
  end.

Lemma booted_created (f py a : Z) (s : kernel) :
  booted 16 256 addr_Task_Terminate s ->
  booted 16 256 addr_Task_Terminate (created f py a s).
Proof.
  intros Hs. unfold created.
  destruct (Task_Create 16 256 addr_Task_Terminate f py a NullSp s)
    as [[v s']| |] eqn:Hcreate; [|exact Hs..].
  exact (booted_create 16 256 addr_Task_Terminate s f py a NullSp v s'
           Hs Hcreate).
Qed.

Lemma booted_boot3 : booted 16 256 addr_Task_Terminate boot3.
Proof. do 3 apply booted_created. apply booted_init. Qed.

Lemma loop_top_run3 : loop_top 16 256 addr_Task_Terminate run3.
Proof.
  apply (loop_top_start 16 256 addr_Task_Terminate boot3 16 no_ticks run3).
  - exact booted_boot3.
  - vm_compute. reflexivity.
  - vm_compute. discriminate.
Qed.

Lemma in_task_task3 : in_task 16 256 addr_Task_Terminate task3.
Proof.
  apply (in_task_resumed 16 256 addr_Task_Terminate run3).
  - exact loop_top_run3.
  - vm_compute. reflexivity.
Qed.

Lemma first_dead_slot_find (tbl : list PD) (x : nat) (p : PD) :
  list_find (fun d => state d = DEAD) tbl = Some (x, p) ->
  first_dead_slot tbl x p.
Proof.
  intros (Hx & Hp & Hmin)%list_find_Some. split_and!; assumption.
Qed.

Lemma pid_target_find (tbl : list PD) (q : Z) (t : nat) (d : PD) :
  list_find (fun d => pid d = to_uint q) tbl = Some (t, d) ->
  pid_target tbl q t d.
Proof.
  intros (Hx & Hp & Hmin)%list_find_Some. split_and!; assumption.
Qed.

Lemma tick_isr_wakes_expired_sleepers_witness :
  Process sleeping3 !! 0%nat = Some (slot sleeping3 0) /\
  state (slot sleeping3 0) = SLEEPING /\ request_arg (slot sleeping3 0) = 1 /\
  exists d', Process (TIMER1_COMPA_vect sleeping3) !! 0%nat = Some d' /\
             state d' = READY /\ request_arg d' = 0.
Proof.
  assert (Process sleeping3 !! 0%nat = Some (slot sleeping3 0)) as H0
    by (vm_compute; reflexivity).
  assert (state (slot sleeping3 0) = SLEEPING) as Hs
    by (vm_compute; reflexivity).
  assert (request_arg (slot sleeping3 0) = 1) as Ha
    by (vm_compute; reflexivity).
  split_and!; [exact H0 | exact Hs | exact Ha |].
  destruct (tick_isr_wakes_expired_sleepers sleeping3 0 (slot sleeping3 0) H0)
    as (d' & Hd' & _ & _ & _ & Hasleep).
  destruct (Hasleep Hs) as (_ & _ & _ & _ & _ & Hone).
  exists d'. split; [exact Hd' | exact (Hone Ha)].
Defined.

Lemma Kernel_Suspend_Task_cases_witness :
  Cp suspending3 = Some 0%nat /\
  Process suspending3 !! 0%nat = Some (slot suspending3 0) /\
  pid_target (Process suspending3) (request_arg (slot suspending3 0)) 1
             (slot suspending3 1) /\
  state (slot suspending3 1) = READY /\
  exists s1 p1 s2,
    Kernel_Suspend_Task suspending3 = Done s1 /\ err s1 = NO_ERR /\
    Process s1 !! 1%nat = Some p1 /\ state p1 = SUSPENDED /\
    Kernel_Suspend_Task s1 = Done s2 /\
    err s2 = SUSPEND_NONRUNNING_TASK_ERR /\ Process s2 = Process s1.
Proof.
  assert (Cp suspending3 = Some 0%nat) as Hc by (vm_compute; reflexivity).
  assert (Process suspending3 !! 0%nat = Some (slot suspending3 0)) as Hd
    by (vm_compute; reflexivity).
  assert (pid_target (Process suspending3)
            (request_arg (slot suspending3 0)) 1 (slot suspending3 1)) as Ht
    by (apply pid_target_find; vm_compute; reflexivity).
  assert (state (slot suspending3 1) = READY) as Hr
    by (vm_compute; reflexivity).
  split_and!; [exact Hc | exact Hd | exact Ht | exact Hr |].
  destruct (Kernel_Suspend_Task_cases suspending3 0 (slot suspending3 0) Hc Hd)
    as (_ & Htarget & _).
  destruct (Htarget 1%nat (slot suspending3 1) Ht) as (_ & Hready).
  destruct (Hready Hr)
    as (s1 & p1 & H1 & He1 & Hp1 & Hs1 & _ & _ & _ & Hagain).
  destruct Hagain as (s2 & H2 & He2 & Htbl & _).
  exists s1, p1, s2.
  split_and!; [exact H1 | exact He1 | exact Hp1 | exact Hs1 | exact H2
              | exact He2 | exact Htbl].
Defined.

Lemma Kernel_Suspend_then_Resume_witness :
  Cp suspending3 = Some 0%nat /\
  Process suspending3 !! 0%nat = Some (slot suspending3 0) /\
  pid_target (Process suspending3) (request_arg (slot suspending3 0)) 1
             (slot suspending3 1) /\
  state (slot suspending3 1) = READY /\
  exists s1 s2,
    Kernel_Suspend_Task suspending3 = Done s1 /\ err s1 = NO_ERR /\
    Kernel_Resume_Task s1 = Done s2 /\ err s2 = NO_ERR /\
    Process s2 !! 1%nat = Some (slot suspending3 1) /\
    Process s2 = Process suspending3.
Proof.
  assert (Cp suspending3 = Some 0%nat) as Hc by (vm_compute; reflexivity).
  assert (Process suspending3 !! 0%nat = Some (slot suspending3 0)) as Hd
    by (vm_compute; reflexivity).
  assert (pid_target (Process suspending3)
            (request_arg (slot suspending3 0)) 1 (slot suspending3 1)) as Ht
    by (apply pid_target_find; vm_compute; reflexivity).
  assert (state (slot suspending3 1) = READY) as Hr
    by (vm_compute; reflexivity).
  split_and!; [exact Hc | exact Hd | exact Ht | exact Hr |].
  destruct (Kernel_Suspend_then_Resume suspending3 0 (slot suspending3 0) Hc Hd)
    as (Hround & _).
  destruct (Hround 1%nat (slot suspending3 1) Ht Hr)
    as (s1 & s2 & H1 & He1 & _ & H2 & He2 & Hp & _ & Htbl & _).
  exists s1, s2.
  split_and!; [exact H1 | exact He1 | exact H2 | exact He2 | exact Hp
              | exact Htbl].
Defined.

Lemma Dispatch_round_robin_witness :
  (0 < 16)%nat /\ Z.of_nat 16 <= 32767 /\
  IntEnabled boot3 = false /\ length (Process boot3) = 16%nat /\
  0 <= NextP boot3 < Z.of_nat 16 /\
  (exists i d, Process boot3 !! i = Some d /\ state d = READY) /\
  exists c d,
    first_ready_from 16 boot3 c d /\
    (forall fuel ticks, (16 <= fuel)%nat ->
       Dispatch 16 fuel ticks boot3 = Done (dispatched 16 boot3 c d)) /\
    exists s' d',
      Dispatch 16 16 no_ticks boot3 = Done s' /\
      Cp s' = Some c /\ Process s' !! c = Some d' /\ state d' = RUNNING.
Proof.
  assert (0 < 16)%nat as Hpos by lia.
  assert (Z.of_nat 16 <= 32767) as Hint by lia.
  assert (IntEnabled boot3 = false) as Hi by (vm_compute; reflexivity).
  assert (length (Process boot3) = 16%nat) as Hl by (vm_compute; reflexivity).
  assert (0 <= NextP boot3 < Z.of_nat 16) as HN
    by (replace (NextP boot3) with 0 by (vm_compute; reflexivity); lia).
  assert (exists i d, Process boot3 !! i = Some d /\ state d = READY) as Hr
    by (exists 0%nat, (slot boot3 0); split; vm_compute; reflexivity).
  assert (16 <= 16)%nat as Hfuel by lia.
  do 6 (split; [assumption|]).
  destruct (Dispatch_round_robin 16 Hpos Hint boot3 Hi Hl HN Hr)
    as (c & d & Hfirst & Hrun & _ & _ & Hreads).
  destruct (Hreads 16%nat no_ticks Hfuel)
    as (s' & d' & H1 & H2 & H3 & H4 & _).
  exists c, d. split; [exact Hfirst|]. split; [exact Hrun|].
  exists s', d'. split_and!; [exact H1 | exact H2 | exact H3 | exact H4].
Defined.

Lemma Kernel_Create_Task_initial_stack_witness :
  (40 <= 256)%nat /\
  Tasks boot3 <> Z.of_nat 16 /\
  first_dead_slot (Process boot3) 3 (slot boot3 3) /\
  exists s' p',
    Kernel_Create_Task 16 256 addr_Task_Terminate addr_Ping 10 210 boot3
      = Done s' /\
    Process s' !! 3%nat = Some p' /\
    sp p' = WsPtr 3 ((Z.of_nat 256 - 1) - (3 + 3 + 34)).
Proof.
  assert (40 <= 256)%nat as Hw by lia.
  assert (Tasks boot3 <> Z.of_nat 16) as HT by (vm_compute; discriminate).
  assert (first_dead_slot (Process boot3) 3 (slot boot3 3)) as Hx
    by (apply first_dead_slot_find; vm_compute; reflexivity).
  split_and!; [exact Hw | exact HT | exact Hx |].
  destruct (Kernel_Create_Task_initial_stack 16 256 addr_Task_Terminate Hw
              addr_Ping 10 210 boot3 3 (slot boot3 3) HT Hx)
    as (s' & p' & Hrun & Hp' & _ & _ & Hsp & _).
  exists s', p'. split_and!; [exact Hrun | exact Hp' | exact Hsp].
Defined.

(** C5 as stated fails: the first task [main] creates gets an initial [sp]
    that is not 3 + 3 + 33 bytes below the highest address of its
    workspace (it is 3 + 3 + 34 bytes below it). *)
Lemma initial_sp_not_39_below_top :
  exists s' p',
    Kernel_Create_Task 16 256 addr_Task_Terminate addr_Ping 10 210
      (OS_Init 256 (reset_state 16 256)) = Done s' /\
    Process s' !! 0%nat = Some p' /\
    sp p' <> WsPtr 0 ((Z.of_nat 256 - 1) - (3 + 3 + 33)) /\
    sp p' = WsPtr 0 ((Z.of_nat 256 - 1) - (3 + 3 + 34)).
Proof.
  eexists. eexists. split_and!.
  - vm_compute. reflexivity.
  - vm_compute. reflexivity.
  - vm_compute. discriminate.
  - vm_compute. reflexivity.
Qed.

Lemma exactly_one_running_witness :
  (0 < 16)%nat /\ Z.of_nat 16 <= 32767 /\ (40 <= 256)%nat /\
  loop_top 16 256 addr_Task_Terminate run3 /\
  one_running run3 /\
  exists s1, resume_task run3 = Done s1 /\ one_running s1.
Proof.
  assert (0 < 16)%nat as Hpos by lia.
  assert (Z.of_nat 16 <= 32767) as Hint by lia.
  assert (40 <= 256)%nat as Hw by lia.
  split_and!; [exact Hpos | exact Hint | exact Hw | exact loop_top_run3 | |];
    destruct (exactly_one_running 16 256 addr_Task_Terminate Hpos Hint Hw
                run3 loop_top_run3) as (Hone & s1 & Hs1 & Hone1 & _).
  - exact Hone.
  - exists s1. split; [exact Hs1 | exact Hone1].
Defined.

Lemma Task_Create_overwrites_caller_witness :
  (0 < 16)%nat /\ Z.of_nat 16 <= 32767 /\ (40 <= 256)%nat /\
  in_task 16 256 addr_Task_Terminate task3 /\
  Cp task3 = Some 0%nat /\ Process task3 !! 0%nat = Some (slot task3 0) /\
  code (slot task3 0) <> addr_Pong /\
  exists v s' d',
    Task_Create 16 256 addr_Task_Terminate addr_Pong 3 7 (WsPtr 0 180) task3
      = Done (v, s') /\
    Process s' !! 0%nat = Some d' /\ code d' = addr_Pong /\
    findPIDByFuncPtr (Process s') (code (slot task3 0)) <> pid d'.
Proof.
  assert (0 < 16)%nat as Hpos by lia.
  assert (Z.of_nat 16 <= 32767) as Hint by lia.
  assert (40 <= 256)%nat as Hw by lia.
  assert (Cp task3 = Some 0%nat) as Hc by (vm_compute; reflexivity).
  assert (Process task3 !! 0%nat = Some (slot task3 0)) as Hd
    by (vm_compute; reflexivity).
  assert (code (slot task3 0) <> addr_Pong) as Hne
    by (vm_compute; discriminate).
  split_and!; [exact Hpos | exact Hint | exact Hw | exact in_task_task3
              | exact Hc | exact Hd | exact Hne |].
  destruct (Task_Create_overwrites_caller 16 256 addr_Task_Terminate
              Hpos Hint Hw task3 addr_Pong 3 7 (WsPtr 0 180) 0
              (slot task3 0) in_task_task3 Hc Hd)
    as (v & s' & d' & Hrun & _ & Hd' & Hcode & _ & _ & _ & _ & Hlost).
  exists v, s', d'.
  split_and!; [exact Hrun | exact Hd' | exact Hcode | apply (Hlost Hne)].
Defined.

Lemma pid_lookup_ignores_state_witness :
  (0 < 16)%nat /\ Z.of_nat 16 <= 32767 /\ (40 <= 256)%nat /\
  in_task 16 256 addr_Task_Terminate task3 /\
  Tasks task3 < Z.of_nat 16 /\
  exists s1 t p,
    api_request (SysSuspend 0) task3 = Done s1 /\
    pid_target (Process s1) 0 t p /\ state p = DEAD /\
    forall fuel ticks, exists s2,
      serve_request 16 256 addr_Task_Terminate fuel ticks
        (Enter_Kernel (WsPtr 0 180) s1) = Done s2 /\
      err s2 = SUSPEND_NONRUNNING_TASK_ERR /\
      state <$> Process s2 = state <$> Process task3.
Proof.
  assert (0 < 16)%nat as Hpos by lia.
  assert (Z.of_nat 16 <= 32767) as Hint by lia.
  assert (40 <= 256)%nat as Hw by lia.
  assert (Tasks task3 < Z.of_nat 16) as Hfew
    by (replace (Tasks task3) with 3 by (vm_compute; reflexivity); lia).
  split_and!; [exact Hpos | exact Hint | exact Hw | exact in_task_task3
              | exact Hfew |].
  destruct (pid_lookup_ignores_state 16 256 addr_Task_Terminate
              Hpos Hint Hw task3 (WsPtr 0 180) in_task_task3)
    as (_ & _ & Hzero & Hsuspend & _).
  exact (Hsuspend (Hzero Hfew)).
Defined.

(** ** Termination and the task counter *)

(** Ping, the first of the three tasks, has called [Task_Terminate]; Pong
    runs. *)
Definition terminated3 : kernel :=
  the (loop_body 16 256 addr_Task_Terminate 16 no_ticks
         (mkRun 0 SysTerminate (WsPtr 0 180)) run3).



(** ** A full counter over a table with a free slot *)

(** [main] creates sixteen tasks. *)
Definition boot16 : kernel :=
  Nat.iter 16 (created addr_Ping 10 0) (OS_Init 256 (reset_state 16 256)).

Definition run16 : kernel := the (OS_Start 16 16 no_ticks boot16).

(** The first task has terminated; the second runs. *)
Definition terminated16 : kernel :=
  the (loop_body 16 256 addr_Task_Terminate 16 no_ticks
         (mkRun 0 SysTerminate (WsPtr 0 180)) run16).

Definition task16 : kernel := serve_ticks 0 (the (resume_task terminated16)).

Lemma booted_iter (n : nat) (f py a : Z) (s : kernel) :
  booted 16 256 addr_Task_Terminate s ->
  booted 16 256 addr_Task_Terminate (Nat.iter n (created f py a) s).
Proof.
  intros Hs. induction n as [|n IH]; [exact Hs|].
  simpl. apply booted_created. exact IH.
Qed.

Lemma in_task_task16 : in_task 16 256 addr_Task_Terminate task16.
Proof.
  apply (in_task_resumed 16 256 addr_Task_Terminate terminated16).
  - apply (loop_top_next 16 256 addr_Task_Terminate run16 16 no_ticks
             (mkRun 0 SysTerminate (WsPtr 0 180))).
    + apply (loop_top_start 16 256 addr_Task_Terminate boot16 16 no_ticks).
      * apply booted_iter, booted_init.
      * vm_compute. reflexivity.
      * vm_compute. discriminate.
    + vm_compute. reflexivity.
  - vm_compute. reflexivity.
Qed.

(** C2 on the code: sixteen tasks have been created and the first has
    terminated, so slot 0 is DEAD, the first DEAD slot of the table.  The
    running task calls [Task_Create]: the kernel sets MAX_PROCESS_ERR,
    allocates nothing (slot 0 stays DEAD) and the call returns PID 0,
    because the guard compares [Tasks], still 16, with MAXTHREAD. *)
Theorem Task_Create_refused_with_free_slot :
  in_task 16 256 addr_Task_Terminate task16 /\
  first_dead_slot (Process task16) 0 (slot task16 0) /\
  Tasks task16 = 16 /\
  Kernel_Create_Task 16 256 addr_Task_Terminate addr_Pong 10 0 task16 =
    Done (set_err MAX_PROCESS_ERR task16) /\
  exists s',
    Task_Create 16 256 addr_Task_Terminate addr_Pong 10 0 (WsPtr 1 180) task16
      = Done (0, s') /\
    err s' = MAX_PROCESS_ERR /\
    state (slot s' 0) = DEAD /\
    live_count (Process s') = 15%nat.
Proof.
  split_and!.
  - exact in_task_task16.
  - apply first_dead_slot_find. vm_compute. reflexivity.
  - vm_compute. reflexivity.
  - apply Kernel_Create_Task_full. vm_compute. reflexivity.
  - eexists. split_and!.
    + vm_compute. reflexivity.
    + vm_compute. reflexivity.
    + vm_compute. reflexivity.
    + vm_compute. reflexivity.
Qed.

(** ** Further configurations *)

(** [main] has created one task only; it runs. *)
Definition boot1 : kernel :=
  created addr_Ping 10 210 (OS_Init 256 (reset_state 16 256)).
Definition run1 : kernel := the (OS_Start 16 16 no_ticks boot1).
Definition task1 : kernel := serve_ticks 0 (the (resume_task run1)).

(** The lone task has called [Task_Sleep(1)]: the state in which the
    dispatcher starts its search. *)
Definition asleep1 : kernel :=
  handed_over SLEEPING (fun d => set_request SLEEP (set_request_arg 1 d))
    (WsPtr 0 180) 0 (slot task1 0) task1.

(** A timer interrupt at every point where one can be served. *)
Definition every_tick : nat -> nat := fun _ => 1%nat.

(** The bit numbers of the ATmega2560 data sheet. *)
Definition Timer_init_avr : timer1 -> timer1 := Timer_init 0 1 2 0 1 3 4 1.

Lemma in_task_task1 : in_task 16 256 addr_Task_Terminate task1.
Proof.
  apply (in_task_resumed 16 256 addr_Task_Terminate run1).
  - apply (loop_top_start 16 256 addr_Task_Terminate boot1 16 no_ticks run1).
    + apply booted_created, booted_init.
    + vm_compute. reflexivity.
    + vm_compute. discriminate.
  - vm_compute. reflexivity.
Qed.

Lemma loop_body_terminated3 :
  loop_body 16 256 addr_Task_Terminate 16 no_ticks
    (mkRun 0 SysTerminate (WsPtr 0 180)) run3 = Done terminated3.
Proof. vm_compute. reflexivity. Qed.

Lemma api_inactive_or_entering_witness :
  (0 < 16)%nat /\ Z.of_nat 16 <= 32767 /\ (40 <= 256)%nat /\
  booted 16 256 addr_Task_Terminate boot3 /\
  in_task 16 256 addr_Task_Terminate task3 /\
  (exists s', Task_Yield boot3 = Returned s' /\
              err s' = KERNEL_INACTIVE_ERR) /\
  exists c s1 d1,
    Cp task3 = Some c /\ Task_Sleep 5 task3 = Entering s1 /\
    Process s1 !! c = Some d1 /\ request d1 = SLEEP /\ request_arg d1 = 5.
Proof.
  assert (0 < 16)%nat as Hpos by lia.
  assert (Z.of_nat 16 <= 32767) as Hint by lia.
  assert (40 <= 256)%nat as Hw by lia.
  split_and!; [exact Hpos | exact Hint | exact Hw | exact booted_boot3
              | exact in_task_task3 | |].
  - destruct (api_inactive_or_entering 16 256 addr_Task_Terminate
                Hpos Hint Hw boot3 0 5) as (Hboot & _).
    destruct (Hboot booted_boot3 (Task_Yield boot3))
      as (s' & Hy & He & _).
    { apply elem_of_cons. right. apply elem_of_cons. left. reflexivity. }
    exists s'. split; [exact Hy | exact He].
  - destruct (api_inactive_or_entering 16 256 addr_Task_Terminate
                Hpos Hint Hw task3 0 5) as (_ & Htask).
    destruct (Htask in_task_task3) as (c & d & Hc & _ & Hcalls).
    destruct (Hcalls (Task_Sleep 5 task3) SLEEP 5)
      as (s1 & d1 & Hs & _ & _ & _ & Hd1 & Hq & Ha & _).
    { do 4 (apply elem_of_cons; right). apply elem_of_cons. left.
      reflexivity. }
    exists c, s1, d1.
    split_and!; [exact Hc | exact Hs | exact Hd1 | exact Hq | exact Ha].
Defined.

Lemma Task_Create_from_main_witness :
  (0 < 16)%nat /\ Z.of_nat 16 <= 32767 /\ (40 <= 256)%nat /\
  booted 16 256 addr_Task_Terminate boot3 /\
  Tasks boot3 <> Z.of_nat 16 /\
  exists s',
    Task_Create 16 256 addr_Task_Terminate addr_Ping 5 7 NullSp boot3
      = Done (Tasks boot3 + 1, s') /\
    err s' = NO_ERR.
Proof.
  assert (0 < 16)%nat as Hpos by lia.
  assert (Z.of_nat 16 <= 32767) as Hint by lia.
  assert (40 <= 256)%nat as Hw by lia.
  assert (Tasks boot3 <> Z.of_nat 16) as HT by (vm_compute; discriminate).
  split_and!; [exact Hpos | exact Hint | exact Hw | exact booted_boot3
              | exact HT |].
  destruct (Task_Create_from_main 16 256 addr_Task_Terminate Hpos Hint Hw
              boot3 addr_Ping 5 7 NullSp booted_boot3) as (Hfree & _).
  destruct (Hfree HT) as (s' & d' & Hrun & _ & _ & Herr & _).
  exists s'. split; [exact Hrun | exact Herr].
Defined.

Lemma OS_Start_runs_first_task_witness :
  (0 < 16)%nat /\ Z.of_nat 16 <= 32767 /\ (40 <= 256)%nat /\
  booted 16 256 addr_Task_Terminate boot3 /\ 0 < Tasks boot3 /\
  exists d s' d',
    Process boot3 !! 0%nat = Some d /\ pid d = 1 /\
    OS_Start 16 16 no_ticks boot3 = Done s' /\
    KernelActive s' = 1 /\ Cp s' = Some 0%nat /\
    Process s' !! 0%nat = Some d' /\ state d' = RUNNING.
Proof.
  assert (0 < 16)%nat as Hpos by lia.
  assert (Z.of_nat 16 <= 32767) as Hint by lia.
  assert (40 <= 256)%nat as Hw by lia.
  assert (0 < Tasks boot3) as HT
    by (replace (Tasks boot3) with 3 by (vm_compute; reflexivity); lia).
  assert (16 <= 16)%nat as Hfuel by lia.
  split_and!; [exact Hpos | exact Hint | exact Hw | exact booted_boot3
              | exact HT |].
  destruct (OS_Start_runs_first_task 16 256 addr_Task_Terminate Hpos Hint Hw
              boot3) as (_ & Hstart).
  destruct (Hstart booted_boot3 HT) as (d & Hd & Hpid & _ & Hrun).
  destruct (Hrun 16%nat no_ticks Hfuel)
    as (s' & d' & H1 & Hact & _ & Hcp & Hd' & Hs' & _).
  exists d, s', d'.
  split_and!; [exact Hd | exact Hpid | exact H1 | exact Hact | exact Hcp
              | exact Hd' | exact Hs'].
Defined.

Lemma reachable_pids_identify_slots_witness :
  (0 < 16)%nat /\ Z.of_nat 16 <= 32767 /\ (40 <= 256)%nat /\
  loop_top 16 256 addr_Task_Terminate run3 /\
  last_PID run3 = Tasks run3 /\
  forall i d, Process run3 !! i = Some d -> pid d <> 0 ->
    findProcessByPID (Process run3) (pid d) = Some i.
Proof.
  assert (0 < 16)%nat as Hpos by lia.
  assert (Z.of_nat 16 <= 32767) as Hint by lia.
  assert (40 <= 256)%nat as Hw by lia.
  destruct (reachable_pids_identify_slots 16 256 addr_Task_Terminate
              Hpos Hint Hw run3 loop_top_run3)
    as (Hlast & _ & _ & _ & Hfind).
  split_and!; [exact Hpos | exact Hint | exact Hw | exact loop_top_run3
              | exact Hlast | exact Hfind].
Defined.

Lemma Tasks_only_grows_witness :
  (0 < 16)%nat /\ Z.of_nat 16 <= 32767 /\ (40 <= 256)%nat /\
  loop_top 16 256 addr_Task_Terminate run3 /\
  loop_body 16 256 addr_Task_Terminate 16 no_ticks
    (mkRun 0 SysTerminate (WsPtr 0 180)) run3 = Done terminated3 /\
  Tasks run3 <= Tasks terminated3 <= Z.of_nat 16.
Proof.
  assert (0 < 16)%nat as Hpos by lia.
  assert (Z.of_nat 16 <= 32767) as Hint by lia.
  assert (40 <= 256)%nat as Hw by lia.
  destruct (Tasks_only_grows 16 256 addr_Task_Terminate Hpos Hint Hw
              run3 terminated3 16 no_ticks
              (mkRun 0 SysTerminate (WsPtr 0 180))
              loop_top_run3 loop_body_terminated3) as (Hgrow & _).
  do 5 (split; [first [exact Hpos | exact Hint | exact Hw
                      | exact loop_top_run3 | exact loop_body_terminated3]|]).
  exact Hgrow.
Defined.

Lemma Task_Create_by_running_task_witness :
  (0 < 16)%nat /\ Z.of_nat 16 <= 32767 /\ (40 <= 256)%nat /\
  in_task 16 256 addr_Task_Terminate task3 /\
  Tasks task3 <> Z.of_nat 16 /\
  exists s',
    Task_Create 16 256 addr_Task_Terminate addr_Pong 3 7 (WsPtr 0 180) task3
      = Done (last_PID task3 + 1, s') /\
    err s' = NO_ERR /\ Tasks s' = Tasks task3 + 1.
Proof.
  assert (0 < 16)%nat as Hpos by lia.
  assert (Z.of_nat 16 <= 32767) as Hint by lia.
  assert (40 <= 256)%nat as Hw by lia.
  assert (Tasks task3 <> Z.of_nat 16) as HT by (vm_compute; discriminate).
  split_and!; [exact Hpos | exact Hint | exact Hw | exact in_task_task3
              | exact HT |].
  destruct (Task_Create_by_running_task 16 256 addr_Task_Terminate
              Hpos Hint Hw task3 addr_Pong 3 7 (WsPtr 0 180)
              in_task_task3 HT)
    as (c & x & p & s' & d' & cd' & _ & _ & Hrun & Herr & HTs & _).
  exists s'. split_and!; [exact Hrun | exact Herr | exact HTs].
Defined.

Lemma sleep_lasts_its_ticks_witness :
  Process sleeping3 !! 0%nat = Some (slot sleeping3 0) /\
  state (slot sleeping3 0) = SLEEPING /\
  1 <= request_arg (slot sleeping3 0) <= 32767 /\
  Process (Nat.iter 1 TIMER1_COMPA_vect sleeping3) !! 0%nat =
    Some (if decide (Z.of_nat 1 < request_arg (slot sleeping3 0))
          then set_request_arg (request_arg (slot sleeping3 0) - Z.of_nat 1)
                 (slot sleeping3 0)
          else set_state READY (set_request_arg 0 (slot sleeping3 0))).
Proof.
  assert (Process sleeping3 !! 0%nat = Some (slot sleeping3 0)) as H0
    by (vm_compute; reflexivity).
  assert (state (slot sleeping3 0) = SLEEPING) as Hs
    by (vm_compute; reflexivity).
  assert (1 <= request_arg (slot sleeping3 0) <= 32767) as Ha
    by (replace (request_arg (slot sleeping3 0)) with 1
          by (vm_compute; reflexivity); lia).
  do 3 (split; [first [exact H0 | exact Hs | exact Ha]|]).
  destruct (sleep_lasts_its_ticks sleeping3 0 (slot sleeping3 0) 1 H0 Hs)
    as (Hpos & _).
  exact (Hpos Ha).
Defined.

Lemma yield_dispatches_next_ready_witness :
  (0 < 16)%nat /\ Z.of_nat 16 <= 32767 /\ (40 <= 256)%nat /\
  in_task 16 256 addr_Task_Terminate task3 /\
  Cp task3 = Some 0%nat /\ Process task3 !! 0%nat = Some (slot task3 0) /\
  gives_up SysYield (set_request YIELD) READY /\
  exists c' d',
    first_ready_from 16
      (handed_over READY (set_request YIELD) (WsPtr 0 180) 0 (slot task3 0)
         task3) c' d' /\
    syscall_turn 16 256 addr_Task_Terminate 16 no_ticks SysYield
      (WsPtr 0 180) task3 =
    Done (dispatched 16
            (handed_over READY (set_request YIELD) (WsPtr 0 180) 0
               (slot task3 0) task3) c' d').
Proof.
  assert (0 < 16)%nat as Hpos by lia.
  assert (Z.of_nat 16 <= 32767) as Hint by lia.
  assert (40 <= 256)%nat as Hw by lia.
  assert (Cp task3 = Some 0%nat) as Hc by (vm_compute; reflexivity).
  assert (Process task3 !! 0%nat = Some (slot task3 0)) as Hd
    by (vm_compute; reflexivity).
  split_and!; [exact Hpos | exact Hint | exact Hw | exact in_task_task3
              | exact Hc | exact Hd | exact gives_up_yield |].
  destruct (yield_dispatches_next_ready 16 256 addr_Task_Terminate
              Hpos Hint Hw task3 0 (slot task3 0) SysYield
              (set_request YIELD) (WsPtr 0 180)
              in_task_task3 Hc Hd gives_up_yield)
    as (c' & d' & Hfirst & Hrun & _).
  exists c', d'. split; [exact Hfirst|]. apply Hrun. lia.
Defined.

Lemma sleep_or_terminate_dispatches_another_witness :
  (0 < 16)%nat /\ Z.of_nat 16 <= 32767 /\ (40 <= 256)%nat /\
  in_task 16 256 addr_Task_Terminate task3 /\
  Cp task3 = Some 0%nat /\ Process task3 !! 0%nat = Some (slot task3 0) /\
  gives_up SysTerminate (set_request TERMINATE) DEAD /\ DEAD <> READY /\
  (exists j dj, Process task3 !! j = Some dj /\ state dj = READY) /\
  exists c' s' dc,
    c' <> 0%nat /\
    syscall_turn 16 256 addr_Task_Terminate 16 no_ticks SysTerminate
      (WsPtr 0 180) task3 = Done s' /\
    Cp s' = Some c' /\
    Process s' !! 0%nat = Some dc /\ state dc = DEAD.
Proof.
  assert (0 < 16)%nat as Hpos by lia.
  assert (Z.of_nat 16 <= 32767) as Hint by lia.
  assert (40 <= 256)%nat as Hw by lia.
  assert (Cp task3 = Some 0%nat) as Hc by (vm_compute; reflexivity).
  assert (Process task3 !! 0%nat = Some (slot task3 0)) as Hd
    by (vm_compute; reflexivity).
  assert (DEAD <> READY) as Hv by discriminate.
  assert (exists j dj, Process task3 !! j = Some dj /\ state dj = READY)
    as Hr by (exists 1%nat, (slot task3 1); split; vm_compute; reflexivity).
  split_and!; [exact Hpos | exact Hint | exact Hw | exact in_task_task3
              | exact Hc | exact Hd | exact gives_up_terminate | exact Hv
              | exact Hr |].
  destruct (sleep_or_terminate_dispatches_another 16 256 addr_Task_Terminate
              Hpos Hint Hw task3 0 (slot task3 0) SysTerminate
              (set_request TERMINATE) DEAD (WsPtr 0 180)
              in_task_task3 Hc Hd gives_up_terminate Hv Hr)
    as (c' & d' & _ & Hne & _ & Hrun).
  assert (16 <= 16)%nat as Hfuel by lia.
  destruct (Hrun 16%nat no_ticks Hfuel)
    as (s' & Hturn & _ & Hcp & _ & _ & Hcaller & _).
  destruct Hcaller as (dc & Hdc & _ & Hdead & _).
  exists c', s', dc.
  split_and!; [exact Hne | exact Hturn | exact Hcp | exact Hdc
              | exact (Hdead eq_refl)].
Defined.

Lemma Dispatch_spins_without_ready_or_sleeper_witness :
  (0 < 16)%nat /\
  length (Process (OS_Init 256 (reset_state 16 256))) = 16%nat /\
  0 <= NextP (OS_Init 256 (reset_state 16 256)) < Z.of_nat 16 /\
  (forall j dj, Process (OS_Init 256 (reset_state 16 256)) !! j = Some dj ->
     state dj <> READY /\ state dj <> SLEEPING) /\
  Dispatch 16 1000 every_tick (OS_Init 256 (reset_state 16 256)) = OutOfFuel.
Proof.
  assert (0 < 16)%nat as Hpos by lia.
  assert (length (Process (OS_Init 256 (reset_state 16 256))) = 16%nat)
    as Hl by (vm_compute; reflexivity).
  assert (0 <= NextP (OS_Init 256 (reset_state 16 256)) < Z.of_nat 16) as HN
    by (replace (NextP (OS_Init 256 (reset_state 16 256))) with 0
          by (vm_compute; reflexivity); lia).
  assert (forall j dj,
            Process (OS_Init 256 (reset_state 16 256)) !! j = Some dj ->
            state dj <> READY /\ state dj <> SLEEPING) as Hidle.
  { apply (proj1 (Forall_lookup
                     (fun d => state d <> READY /\ state d <> SLEEPING) _)).
    refine (bool_decide_unpack _ _). vm_compute. exact I. }
  do 4 (split; [first [exact Hpos | exact Hl | exact HN | exact Hidle]|]).
  exact (Dispatch_spins_without_ready_or_sleeper 16 Hpos
           (OS_Init 256 (reset_state 16 256)) 1000 every_tick Hl HN Hidle).
Defined.

Lemma last_task_terminates_kernel_spins_witness :
  (0 < 16)%nat /\ Z.of_nat 16 <= 32767 /\ (40 <= 256)%nat /\
  in_task 16 256 addr_Task_Terminate task1 /\
  Cp task1 = Some 0%nat /\ Process task1 !! 0%nat = Some (slot task1 0) /\
  (forall j dj, Process task1 !! j = Some dj -> j <> 0%nat ->
     state dj <> READY /\ state dj <> SLEEPING) /\
  syscall_turn 16 256 addr_Task_Terminate 1000 every_tick SysTerminate
    (WsPtr 0 180) task1 = OutOfFuel.
Proof.
  assert (0 < 16)%nat as Hpos by lia.
  assert (Z.of_nat 16 <= 32767) as Hint by lia.
  assert (40 <= 256)%nat as Hw by lia.
  assert (Cp task1 = Some 0%nat) as Hc by (vm_compute; reflexivity).
  assert (Process task1 !! 0%nat = Some (slot task1 0)) as Hd
    by (vm_compute; reflexivity).
  assert (forall j dj, Process task1 !! j = Some dj -> j <> 0%nat ->
            state dj <> READY /\ state dj <> SLEEPING) as Hidle.
  { assert (Forall (fun d => state d <> READY /\ state d <> SLEEPING)
              (drop 1 (Process task1))) as Hall
      by (refine (bool_decide_unpack _ _); vm_compute; exact I).
    intros j dj Hj Hne. destruct j as [|j]; [contradiction|].
    apply (proj1 (Forall_lookup _ _) Hall j dj).
    rewrite lookup_drop. exact Hj. }
  split_and!; [exact Hpos | exact Hint | exact Hw | exact in_task_task1
              | exact Hc | exact Hd | exact Hidle |].
  exact (last_task_terminates_kernel_spins 16 256 addr_Task_Terminate
           Hpos Hint Hw task1 0 (slot task1 0) (WsPtr 0 180) 1000 every_tick
           in_task_task1 Hc Hd Hidle).
Defined.

Lemma Dispatch_wakes_from_idle_witness :
  (0 < 16)%nat /\ Z.of_nat 16 <= 32767 /\ Z.of_nat 16 < 32767 /\
  length (Process asleep1) = 16%nat /\
  0 <= NextP asleep1 < Z.of_nat 16 /\
  (forall j d, Process asleep1 !! j = Some d -> state d <> READY) /\
  Process asleep1 !! 0%nat = Some (slot asleep1 0) /\
  state (slot asleep1 0) = SLEEPING /\
  -32768 < request_arg (slot asleep1 0) <= 1 /\
  (16 <= 16)%nat /\ (1 <= every_tick 16)%nat /\
  exists fuel s' c d',
    Dispatch 16 fuel every_tick asleep1 = Done s' /\
    Cp s' = Some c /\ Process s' !! c = Some d' /\ state d' = RUNNING.
Proof.
  assert (0 < 16)%nat as Hpos by lia.
  assert (Z.of_nat 16 <= 32767) as Hint by lia.
  assert (Z.of_nat 16 < 32767) as Hlt by lia.
  assert (length (Process asleep1) = 16%nat) as Hl
    by (vm_compute; reflexivity).
  assert (0 <= NextP asleep1 < Z.of_nat 16) as HN
    by (replace (NextP asleep1) with 1 by (vm_compute; reflexivity); lia).
  assert (forall j d, Process asleep1 !! j = Some d -> state d <> READY)
    as Hnone.
  { apply (proj1 (Forall_lookup (fun d => state d <> READY) _)).
    refine (bool_decide_unpack _ _). vm_compute. exact I. }
  assert (Process asleep1 !! 0%nat = Some (slot asleep1 0)) as H0
    by (vm_compute; reflexivity).
  assert (state (slot asleep1 0) = SLEEPING) as Hs
    by (vm_compute; reflexivity).
  assert (-32768 < request_arg (slot asleep1 0) <= 1) as Ha
    by (replace (request_arg (slot asleep1 0)) with 1
          by (vm_compute; reflexivity); lia).
  assert (16 <= 16)%nat as Hm by lia.
  assert (1 <= every_tick 16)%nat as Htick by (unfold every_tick; lia).
  do 11 (split; [first [exact Hpos | exact Hint | exact Hlt | exact Hl
                       | exact HN | exact Hnone | exact H0 | exact Hs
                       | exact Ha | exact Hm | exact Htick]|]).
  destruct (Dispatch_wakes_from_idle 16 Hpos Hint asleep1 0 (slot asleep1 0)
              16 every_tick Hlt Hl HN Hnone H0 Hs Ha (or_intror Hm) Htick)
    as (fuel & s' & c & d0 & d' & Hrun & Hc & _ & _ & Hd' & Hr).
  exists fuel, s', c, d'.
  split_and!; [exact Hrun | exact Hc | exact Hd' | exact Hr].
Defined.

Lemma Task_Suspend_then_Task_Resume_witness :
  (0 < 16)%nat /\ Z.of_nat 16 <= 32767 /\ (40 <= 256)%nat /\
  in_task 16 256 addr_Task_Terminate task3 /\
  Cp task3 = Some 0%nat /\ Process task3 !! 1%nat = Some (slot task3 1) /\
  state (slot task3 1) = READY /\
  exists s1 s2 s3,
    syscall_turn 16 256 addr_Task_Terminate 16 no_ticks
      (SysSuspend (pid (slot task3 1))) (WsPtr 0 180) task3 = Done s1 /\
    Process s1 !! 1%nat = Some (set_state SUSPENDED (slot task3 1)) /\
    resume_task s1 = Done s2 /\
    syscall_turn 16 256 addr_Task_Terminate 16 no_ticks
      (SysResume (pid (slot task3 1))) (WsPtr 0 170) (serve_ticks 2 s2)
      = Done s3 /\
    Process s3 !! 1%nat = Some (slot task3 1).
Proof.
  assert (0 < 16)%nat as Hpos by lia.
  assert (Z.of_nat 16 <= 32767) as Hint by lia.
  assert (40 <= 256)%nat as Hw by lia.
  assert (Cp task3 = Some 0%nat) as Hc by (vm_compute; reflexivity).
  assert (Process task3 !! 1%nat = Some (slot task3 1)) as Hp
    by (vm_compute; reflexivity).
  assert (state (slot task3 1) = READY) as Hr by (vm_compute; reflexivity).
  split_and!; [exact Hpos | exact Hint | exact Hw | exact in_task_task3
              | exact Hc | exact Hp | exact Hr |].
  destruct (Task_Suspend_then_Task_Resume 16 256 addr_Task_Terminate
              Hpos Hint Hw task3 0 1 (slot task3 1) (WsPtr 0 180)
              (WsPtr 0 170) 16 16 2 no_ticks no_ticks
              in_task_task3 Hc Hp Hr)
    as (s1 & s2 & s3 & cd & H1 & _ & _ & Hp1 & H2 & H3 & _ & _ & Hp3 & _).
  exists s1, s2, s3.
  split_and!; [exact H1 | exact Hp1 | exact H2 | exact H3 | exact Hp3].
Defined.

Lemma suspended_and_dead_slots_stay_witness :
  (0 < 16)%nat /\ Z.of_nat 16 <= 32767 /\ (40 <= 256)%nat /\
  loop_top 16 256 addr_Task_Terminate run3 /\
  loop_body 16 256 addr_Task_Terminate 16 no_ticks
    (mkRun 0 SysTerminate (WsPtr 0 180)) run3 = Done terminated3 /\
  Process run3 !! 3%nat = Some (slot run3 3) /\
  state (slot run3 3) = DEAD /\
  Process terminated3 !! 3%nat = Some (slot run3 3).
Proof.
  assert (0 < 16)%nat as Hpos by lia.
  assert (Z.of_nat 16 <= 32767) as Hint by lia.
  assert (40 <= 256)%nat as Hw by lia.
  assert (Process run3 !! 3%nat = Some (slot run3 3)) as Hi
    by (vm_compute; reflexivity).
  assert (state (slot run3 3) = DEAD) as Hs by (vm_compute; reflexivity).
  split_and!; [exact Hpos | exact Hint | exact Hw | exact loop_top_run3
              | exact loop_body_terminated3 | exact Hi | exact Hs |].
  destruct (suspended_and_dead_slots_stay 16 256 addr_Task_Terminate
              Hpos Hint Hw run3 terminated3 16 no_ticks
              (mkRun 0 SysTerminate (WsPtr 0 180)) 3 (slot run3 3)
              loop_top_run3 loop_body_terminated3 Hi) as (_ & Hdead).
  apply (Hdead Hs). discriminate.
Defined.

Lemma findPIDByFuncPtr_reachable_witness :
  (0 < 16)%nat /\ Z.of_nat 16 <= 32767 /\ (40 <= 256)%nat /\
  loop_top 16 256 addr_Task_Terminate run3 /\
  Process run3 !! 1%nat = Some (slot run3 1) /\
  code (slot run3 1) = addr_Pong /\
  findPIDByFuncPtr (Process run3) addr_Pong = pid (slot run3 1).
Proof.
  assert (0 < 16)%nat as Hpos by lia.
  assert (Z.of_nat 16 <= 32767) as Hint by lia.
  assert (40 <= 256)%nat as Hw by lia.
  assert (Process run3 !! 1%nat = Some (slot run3 1)) as Hi
    by (vm_compute; reflexivity).
  assert (code (slot run3 1) = addr_Pong) as Hf by (vm_compute; reflexivity).
  split_and!; [exact Hpos | exact Hint | exact Hw | exact loop_top_run3
              | exact Hi | exact Hf |].
  destruct (findPIDByFuncPtr_reachable 16 256 addr_Task_Terminate
              Hpos Hint Hw run3 addr_Pong loop_top_run3) as (_ & Hfound).
  apply (Hfound 1%nat (slot run3 1) Hi Hf).
  intros j dj Hj Hlt. destruct j as [|j]; [|lia].
  assert (Process run3 !! 0%nat = Some (slot run3 0)) as H0
    by (vm_compute; reflexivity).
  assert (dj = slot run3 0) as -> by congruence.
  vm_compute. discriminate.
Defined.

Lemma findPIDByFuncPtr_after_Task_Create_witness :
  (0 < 16)%nat /\ Z.of_nat 16 <= 32767 /\ (40 <= 256)%nat /\
  booted 16 256 addr_Task_Terminate boot3 /\
  Tasks boot3 <> Z.of_nat 16 /\
  exists s',
    Task_Create 16 256 addr_Task_Terminate addr_Pong 5 7 NullSp boot3
      = Done (Tasks boot3 + 1, s') /\
    findPIDByFuncPtr (Process s') addr_Pong = Z.of_nat 1 + 1.
Proof.
  assert (0 < 16)%nat as Hpos by lia.
  assert (Z.of_nat 16 <= 32767) as Hint by lia.
  assert (40 <= 256)%nat as Hw by lia.
  assert (Tasks boot3 <> Z.of_nat 16) as HT by (vm_compute; discriminate).
  split_and!; [exact Hpos | exact Hint | exact Hw | exact booted_boot3
              | exact HT |].
  destruct (findPIDByFuncPtr_after_Task_Create 16 256 addr_Task_Terminate
              Hpos Hint Hw boot3 addr_Pong 5 7 NullSp booted_boot3 HT)
    as (s' & Hrun & _ & Hold).
  exists s'. split; [exact Hrun|].
  assert (Process boot3 !! 1%nat = Some (slot boot3 1)) as Hi
    by (vm_compute; reflexivity).
  assert (Z.of_nat 1 < Tasks boot3) as Hlt
    by (replace (Tasks boot3) with 3 by (vm_compute; reflexivity); lia).
  assert (code (slot boot3 1) = addr_Pong) as Hf by (vm_compute; reflexivity).
  apply (Hold 1%nat (slot boot3 1) Hi Hlt Hf).
  intros j dj Hj Hj1. destruct j as [|j]; [|lia].
  assert (Process boot3 !! 0%nat = Some (slot boot3 0)) as H0
    by (vm_compute; reflexivity).
  assert (dj = slot boot3 0) as -> by congruence.
  vm_compute. discriminate.
Defined.

Lemma Timer_init_CS10_witness :
  0 <= 0 < 8 /\
  Z.testbit (TCCR1B (Timer_init_avr (mkTimer1 255 0 0 0))) 0 = false.
Proof.
  assert (0 <= 0 < 8) as Hn by lia.
  split; [exact Hn|].
  destruct (Timer_init_CS10 0 1 2 0 1 3 4 1 (mkTimer1 255 0 0 0) Hn)
    as (Hshared & _).
  exact (Hshared eq_refl).
Defined.

Lemma Timer_init_frame_witness :
  0 <= 5 < 8 /\
  Z.testbit (TCCR1B (Timer_init_avr (mkTimer1 32 0 0 0))) 5 =
    Z.testbit 32 5 /\
  OCR1A (Timer_init_avr (mkTimer1 32 0 0 0)) = 157.
Proof.
  assert (0 <= 5 < 8) as Hn by lia.
  split; [exact Hn|].
  destruct (Timer_init_frame 0 1 2 0 1 3 4 1 (mkTimer1 32 0 0 0) 5 Hn)
    as (Hb & _ & Hocr & _).
  split; [|exact Hocr].
  apply Hb; discriminate.
Defined.

Lemma request_loop_interrupts_off_witness :
  (0 < 16)%nat /\ Z.of_nat 16 <= 32767 /\ (40 <= 256)%nat /\
  loop_top 16 256 addr_Task_Terminate run3 /\ IntEnabled run3 = false.
Proof.
  assert (0 < 16)%nat as Hpos by lia.
  assert (Z.of_nat 16 <= 32767) as Hint by lia.
  assert (40 <= 256)%nat as Hw by lia.
  split_and!; [exact Hpos | exact Hint | exact Hw | exact loop_top_run3 |].
  exact (request_loop_interrupts_off 16 256 addr_Task_Terminate
           Hpos Hint Hw run3 loop_top_run3).
Defined.

Lemma Task_Suspend_self_refused_witness :
  (0 < 16)%nat /\ Z.of_nat 16 <= 32767 /\ (40 <= 256)%nat /\
  in_task 16 256 addr_Task_Terminate task3 /\
  Cp task3 = Some 0%nat /\ Process task3 !! 0%nat = Some (slot task3 0) /\
  exists s',
    syscall_turn 16 256 addr_Task_Terminate 16 no_ticks
      (SysSuspend (pid (slot task3 0))) (WsPtr 0 180) task3 = Done s' /\
    err s' = SUSPEND_NONRUNNING_TASK_ERR /\ Cp s' = Some 0%nat.
Proof.
  assert (0 < 16)%nat as Hpos by lia.
  assert (Z.of_nat 16 <= 32767) as Hint by lia.
  assert (40 <= 256)%nat as Hw by lia.
  assert (Cp task3 = Some 0%nat) as Hc by (vm_compute; reflexivity).
  assert (Process task3 !! 0%nat = Some (slot task3 0)) as Hd
    by (vm_compute; reflexivity).
  split_and!; [exact Hpos | exact Hint | exact Hw | exact in_task_task3
              | exact Hc | exact Hd |].
  destruct (Task_Suspend_self_refused 16 256 addr_Task_Terminate
              Hpos Hint Hw task3 0 (slot task3 0) (WsPtr 0 180) 16 no_ticks
              in_task_task3 Hc Hd)
    as (s' & d' & Hrun & Herr & Hcp & _).
  exists s'. split_and!; [exact Hrun | exact Herr | exact Hcp].
Defined.
